(** * Circuit: schedule projection and progressive-overload rendering

    A shallow embedding of [circuit.py] (the [CircuitShell] command
    interpreter) and the properties of its weekly layout, single-group
    lookup, export and log commands.

    Conventions of the embedding:
    - Python [int] is [Z] (unbounded), [str] is [string] restricted to
      ASCII, [list] is [list], the [day_workouts] dict is a [gmap];
    - the process (shell object, console, files, clock) is one record
      threaded through a state-and-exception monad [M];
    - every [def] of the source keeps its name. *)

From Stdlib Require Import ZArith Ascii String List Lia.
From stdpp Require Import gmap strings list pretty sorting.

Local Open Scope Z_scope.

(** ** Python built-ins used by the shell *)

Module Py.

(** [str.isspace] on one ASCII character: TAB..CR, FS..US and space. *)
Definition isspace (c : ascii) : bool :=
  let n := N_of_ascii c in
  ((9 <=? n)%N && (n <=? 13)%N) || ((28 <=? n)%N && (n <=? 32)%N).

Fixpoint lstrip (s : string) : string :=
  match s with
  | EmptyString => EmptyString
  | String c s' => if isspace c then lstrip s' else s
  end.

Definition rstrip (s : string) : string :=
  String.rev (lstrip (String.rev s)).

(** [s.strip()] *)
Definition strip (s : string) : string := rstrip (lstrip s).

(** [s.split(sep)] for a one-character separator: never returns [[]],
    the empty string splits into [[""]]. *)
Fixpoint split (sep : ascii) (s : string) : list string :=
  match s with
  | EmptyString => [EmptyString]
  | String c s' =>
      if Ascii.eqb c sep then EmptyString :: split sep s'
      else match split sep s' with
           | w :: ws => String c w :: ws
           | [] => [String c EmptyString]
           end
  end.

(** [s.split()]: maximal runs of non-space characters. *)
Fixpoint split_ws_go (cur : option string) (s : string) : list string :=
  match s with
  | EmptyString => option_list (String.rev <$> cur)
  | String c s' =>
      if isspace c
      then option_list (String.rev <$> cur) ++ split_ws_go None s'
      else split_ws_go
             (Some (String c (default EmptyString cur))) s'
  end.
Definition split_ws (s : string) : list string := split_ws_go None s.

(** [sep.join(l)] *)
Definition join (sep : string) (l : list string) : string :=
  String.concat sep l.

Definition lower_char (c : ascii) : ascii :=
  let n := N_of_ascii c in
  if (65 <=? n)%N && (n <=? 90)%N then ascii_of_N (n + 32) else c.

(** [s.lower()] *)
Fixpoint lower (s : string) : string :=
  match s with
  | EmptyString => EmptyString
  | String c s' => String (lower_char c) (lower s')
  end.

(** [s.startswith(p)] *)
Definition startswith (s p : string) : bool := String.prefix p s.

Fixpoint all_digits (s : string) : bool :=
  match s with
  | EmptyString => true
  | String c s' =>
      match Ascii.is_nat c with
      | Some _ => all_digits s'
      | None => false
      end
  end.

(** [s.isdigit()]: non-empty and every character a decimal digit. *)
Definition isdigit (s : string) : bool :=
  match s with
  | EmptyString => false
  | _ => all_digits s
  end.

Fixpoint int_go (acc : Z) (after_digit : bool) (s : string) : option Z :=
  match s with
  | EmptyString => if after_digit then Some acc else None
  | String c s' =>
      if Ascii.eqb c "_" then
        if after_digit then int_go acc false s' else None
      else
        match Ascii.is_nat c with
        | Some d => int_go (10 * acc + Z.of_nat d) true s'
        | None => None
        end
  end.

(** [int(s)]: surrounding blanks, an optional sign, decimal digits with
    single underscores between them; [None] stands for [ValueError]. *)
Definition int (s : string) : option Z :=
  match strip s with
  | String "-" s' => Z.opp <$> int_go 0 false s'
  | String "+" s' => int_go 0 false s'
  | s' => int_go 0 false s'
  end.

(** [str(n)] and [f"{n}"] for an [int]. *)
Definition str (n : Z) : string := pretty n.

(** [enumerate(l, start)] *)
Fixpoint enumerate {A : Type} (start : Z) (l : list A) : list (Z * A) :=
  match l with
  | [] => []
  | x :: l' => (start, x) :: enumerate (start + 1) l'
  end.

(** [c * n] for a one-character string [c]. *)
Definition repeat_char (c : ascii) (n : nat) : string :=
  fold_right String EmptyString (replicate n c).

End Py.

(** ** [datetime.date] of the Python standard library

    Proleptic Gregorian dates with the ordinal arithmetic of CPython's
    [_pydatetime]; the weekday names are those of the C locale. *)

Module Date.

Record date := mk_date { year : Z; month : Z; day : Z }.

Definition _DAYS_IN_MONTH : list Z :=
  [-1; 31; 28; 31; 30; 31; 30; 31; 31; 30; 31; 30; 31].
Definition _DAYS_BEFORE_MONTH : list Z :=
  [-1; 0; 31; 59; 90; 120; 151; 181; 212; 243; 273; 304; 334].

Definition table (t : list Z) (i : Z) : Z := nth (Z.to_nat i) t 0.

Definition _is_leap (y : Z) : bool :=
  (y mod 4 =? 0) && (negb (y mod 100 =? 0) || (y mod 400 =? 0)).

Definition _days_before_year (y : Z) : Z :=
  let y := y - 1 in y * 365 + y / 4 - y / 100 + y / 400.

Definition _days_in_month (y m : Z) : Z :=
  if (m =? 2) && _is_leap y then 29 else table _DAYS_IN_MONTH m.

Definition _days_before_month (y m : Z) : Z :=
  table _DAYS_BEFORE_MONTH m + (if (2 <? m) && _is_leap y then 1 else 0).

Definition _ymd2ord (y m d : Z) : Z :=
  _days_before_year y + _days_before_month y m + d.

Definition _ord2ymd (n : Z) : date :=
  let n := n - 1 in
  let n400 := n / 146097 in let n := n mod 146097 in
  let y := n400 * 400 + 1 in
  let n100 := n / 36524 in let n := n mod 36524 in
  let n4 := n / 1461 in let n := n mod 1461 in
  let n1 := n / 365 in let n := n mod 365 in
  let y := y + n100 * 100 + n4 * 4 + n1 in
  if (n1 =? 4) || (n100 =? 4) then mk_date (y - 1) 12 31
  else
    let leapyear := (n1 =? 3) && (negb (n4 =? 24) || (n100 =? 3)) in
    let m := Z.shiftr (n + 50) 5 in
    let preceding :=
      table _DAYS_BEFORE_MONTH m + (if (2 <? m) && leapyear then 1 else 0) in
    if n <? preceding then
      let m := m - 1 in
      let preceding :=
        preceding
        - (table _DAYS_IN_MONTH m + (if (m =? 2) && leapyear then 1 else 0)) in
      mk_date y m (n - preceding + 1)
    else mk_date y m (n - preceding + 1).

Definition toordinal (d : date) : Z := _ymd2ord (year d) (month d) (day d).
Definition fromordinal (n : Z) : date := _ord2ymd n.

(** [d + datetime.timedelta(days=i)] *)
Definition add_days (d : date) (i : Z) : date := fromordinal (toordinal d + i).

(** [d.weekday()]: Monday is 0. *)
Definition weekday (d : date) : Z := (toordinal d + 6) mod 7.

Definition short_names : list string :=
  ["Mon"; "Tue"; "Wed"; "Thu"; "Fri"; "Sat"; "Sun"].
Definition full_names : list string :=
  ["Monday"; "Tuesday"; "Wednesday"; "Thursday"; "Friday"; "Saturday";
   "Sunday"].

(** [d.strftime("%a")] and [d.strftime("%A")] *)
Definition strftime_a (d : date) : string :=
  nth (Z.to_nat (weekday d)) short_names EmptyString.
Definition strftime_A (d : date) : string :=
  nth (Z.to_nat (weekday d)) full_names EmptyString.

Definition pad2 (n : Z) : string :=
  if n <? 10 then "0" +:+ Py.str n else Py.str n.
Definition pad4 (n : Z) : string :=
  if n <? 10 then "000" +:+ Py.str n
  else if n <? 100 then "00" +:+ Py.str n
  else if n <? 1000 then "0" +:+ Py.str n
  else Py.str n.

(** [d.strftime("%Y-%m-%d")] *)
Definition strftime_Ymd (d : date) : string :=
  pad4 (year d) +:+ "-" +:+ pad2 (month d) +:+ "-" +:+ pad2 (day d).
(** [d.strftime("%m/%d/%y")] *)
Definition strftime_mdy (d : date) : string :=
  pad2 (month d) +:+ "/" +:+ pad2 (day d) +:+ "/" +:+ pad2 (year d mod 100).
(** [d.strftime("%-m/%-d/%y")] (glibc: no padding of month and day) *)
Definition strftime_mdy_nopad (d : date) : string :=
  Py.str (month d) +:+ "/" +:+ Py.str (day d) +:+ "/"
  +:+ pad2 (year d mod 100).

Definition valid (d : date) : bool :=
  (1 <=? year d) && (year d <=? 9999) && (1 <=? month d) && (month d <=? 12)
  && (1 <=? day d) && (day d <=? _days_in_month (year d) (month d)).

(** One field of [strptime]: [%m] is [1[0-2]|0[1-9]|[1-9]] and [%d] is
    [3[01]|[12]\d|0[1-9]|[1-9]| [1-9]]; both are one or two characters
    denoting a number in [1..hi]. *)
Definition field (hi : Z) (allow_space : bool) (s : string) : option Z :=
  match s with
  | String a EmptyString =>
      if Py.isdigit s then
        n ← Py.int s; if (1 <=? n) then Some n else None
      else None
  | String a (String b EmptyString) =>
      if allow_space && Ascii.eqb a " " then
        if Py.isdigit (String b EmptyString) then
          n ← Py.int (String b EmptyString);
          if (1 <=? n) then Some n else None
        else None
      else if Py.isdigit s then
        n ← Py.int s; if (1 <=? n) && (n <=? hi) then Some n else None
      else None
  | _ => None
  end.

(** [datetime.datetime.strptime(s, "%Y-%m-%d").date()]; [None] stands
    for [ValueError]. *)
Definition strptime_Ymd (s : string) : option date :=
  match Py.split "-" s with
  | [ys; ms; ds] =>
      if (String.length ys =? 4)%nat && Py.isdigit ys then
        y ← Py.int ys; m ← field 12 false ms; d ← field 31 true ds;
        let r := mk_date y m d in
        if valid r then Some r else None
      else None
  | _ => None
  end.

End Date.

(** ** The SQLite store: tables [groups] and [exercises] *)

Record group_row := mk_group {
  g_id : Z;                 (* id INTEGER PRIMARY KEY AUTOINCREMENT *)
  g_name : string;          (* name TEXT UNIQUE NOT NULL *)
  reps_per_cycle : Z;
  cycles_per_circuit : Z;
  days : string;            (* the day slots, joined by "," *)
  add_reps : Z;
  add_cycles : Z
}.

Record exercise_row := mk_exercise {
  ex_id : Z;
  ex_group_id : Z;
  ex_name : string
}.

Record database := mk_database {
  groups : list group_row;
  exercises : list exercise_row
}.

Definition by_key {A : Type} (key : A → Z) : relation A :=
  λ a b, key a ≤ key b.

Global Instance by_key_dec {A : Type} (key : A → Z) :
  ∀ a b, Decision (by_key key a b).
Proof. intros a b. unfold by_key. apply _. Defined.

(** [SELECT * FROM groups ORDER BY id] *)
Definition select_groups (db : database) : list group_row :=
  merge_sort (by_key g_id) (groups db).

(** [SELECT name FROM exercises WHERE group_id = ? ORDER BY id] *)
Definition select_exercises (db : database) (gid : Z) : list string :=
  ex_name <$>
    merge_sort (by_key ex_id)
      (filter (λ e, ex_group_id e = gid) (exercises db)).

(** [SELECT * FROM groups WHERE id = ?], [fetchone()] *)
Definition select_group_by_id (db : database) (gid : Z) : option group_row :=
  head (filter (λ g, g_id g = gid) (groups db)).

(** [DELETE FROM exercises WHERE group_id = ?] then
    [DELETE FROM groups WHERE id = ?] *)
Definition delete_group (gid : Z) (db : database) : database :=
  mk_database (filter (λ g, g_id g ≠ gid) (groups db))
              (filter (λ e, ex_group_id e ≠ gid) (exercises db)).

(** ** The process: shell object, console, files and clock *)

Inductive exn :=
| NameError (name : string)
| EOFError
| KeyboardInterrupt
| OSError (msg : string).

(** [str(e)] *)
Definition exn_str (e : exn) : string :=
  match e with
  | NameError name => "name '" +:+ name +:+ "' is not defined"
  | OSError msg => msg
  | EOFError => "EOF when reading a line"
  | KeyboardInterrupt => EmptyString
  end.

(** [except Exception] catches everything here but [KeyboardInterrupt]. *)
Definition is_Exception (e : exn) : bool :=
  match e with KeyboardInterrupt => false | _ => true end.

(** What the module global [print_info] is bound to: the function of
    line 16, or the closure [buffer_print_info] that [layout export]
    installs through [globals()]. *)
Inductive print_info_binding := module_print_info | buffer_print_info.

(** What the terminal delivers to one [input()] call: a line, or Ctrl-C. *)
Inductive key_input := Line (s : string) | Interrupt.

Record CircuitShell := mk_shell {
  conn : database;
  current_group_id : option Z;
  prompt : string;
  date_display_format : Z;
  exercise_display_format : Z;
  group_display_enabled : bool
}.

Record process := mk_process {
  self : CircuitShell;
  stdout : list string;          (* the chunks written, oldest first *)
  stdin : list key_input;        (* what is still to be read *)
  files : gmap string string;    (* the working directory *)
  unwritable : gmap string string; (* files whose [open] for writing
                                      fails, with the error text *)
  clock : Date.date;             (* [datetime.date.today()] *)
  print_info_global : print_info_binding;
  output_buffer : list string    (* the [StringIO] of [layout export] *)
}.

Definition set_self (f : CircuitShell → CircuitShell) (p : process) : process :=
  mk_process (f (self p)) (stdout p) (stdin p) (files p) (unwritable p)
             (clock p) (print_info_global p) (output_buffer p).
Definition set_stdout (v : list string) (p : process) : process :=
  mk_process (self p) v (stdin p) (files p) (unwritable p)
             (clock p) (print_info_global p) (output_buffer p).
Definition set_stdin (v : list key_input) (p : process) : process :=
  mk_process (self p) (stdout p) v (files p) (unwritable p)
             (clock p) (print_info_global p) (output_buffer p).
Definition set_files (v : gmap string string) (p : process) : process :=
  mk_process (self p) (stdout p) (stdin p) v (unwritable p)
             (clock p) (print_info_global p) (output_buffer p).
Definition set_print_info_global (v : print_info_binding) (p : process) :
  process :=
  mk_process (self p) (stdout p) (stdin p) (files p) (unwritable p)
             (clock p) v (output_buffer p).
Definition set_output_buffer (v : list string) (p : process) : process :=
  mk_process (self p) (stdout p) (stdin p) (files p) (unwritable p)
             (clock p) (print_info_global p) v.

Definition set_conn (v : database) (s : CircuitShell) : CircuitShell :=
  mk_shell v (current_group_id s) (prompt s) (date_display_format s)
           (exercise_display_format s) (group_display_enabled s).
Definition set_current_group_id (v : option Z) (s : CircuitShell) :
  CircuitShell :=
  mk_shell (conn s) v (prompt s) (date_display_format s)
           (exercise_display_format s) (group_display_enabled s).
Definition set_prompt (v : string) (s : CircuitShell) : CircuitShell :=
  mk_shell (conn s) (current_group_id s) v (date_display_format s)
           (exercise_display_format s) (group_display_enabled s).
Definition set_date_display_format (v : Z) (s : CircuitShell) : CircuitShell :=
  mk_shell (conn s) (current_group_id s) (prompt s) v
           (exercise_display_format s) (group_display_enabled s).
Definition set_exercise_display_format (v : Z) (s : CircuitShell) :
  CircuitShell :=
  mk_shell (conn s) (current_group_id s) (prompt s) (date_display_format s)
           v (group_display_enabled s).
Definition set_group_display_enabled (v : bool) (s : CircuitShell) :
  CircuitShell :=
  mk_shell (conn s) (current_group_id s) (prompt s) (date_display_format s)
           (exercise_display_format s) v.

(** ** State and exceptions *)

Inductive res (A : Type) :=
| Ret (a : A)
| Raise (e : exn).
Arguments Ret {A} a.
Arguments Raise {A} e.

(** A command runs on the process and either returns or raises; what it
    wrote before raising stays written. *)
Definition M (A : Type) : Type := process → res A * process.

Global Instance M_ret : MRet M := λ A a p, (Ret a, p).
Global Instance M_bind : MBind M := λ A B f m p,
  match m p with
  | (Ret a, p') => f a p'
  | (Raise e, p') => (Raise e, p')
  end.

Definition get {A : Type} (f : process → A) : M A := λ p, (Ret (f p), p).
Definition modify (f : process → process) : M unit := λ p, (Ret (), f p).
Definition raise {A : Type} (e : exn) : M A := λ p, (Raise e, p).

(** [try: body  except Exception as e: handler e] *)
Definition try_except {A : Type} (body : M A) (handler : exn → M A) : M A :=
  λ p, match body p with
       | (Ret a, p') => (Ret a, p')
       | (Raise e, p') =>
           if is_Exception e then handler e p' else (Raise e, p')
       end.

(** [try: body  finally: fin] *)
Definition try_finally {A : Type} (body : M A) (fin : M unit) : M A :=
  λ p, match body p with
       | (r, p') =>
           match fin p' with
           | (Ret _, p'') => (r, p'')
           | (Raise e, p'') => (Raise e, p'')
           end
       end.

(** [for x in l: body x] *)
Fixpoint for_ {A : Type} (l : list A) (body : A → M unit) : M unit :=
  match l with
  | [] => mret ()
  | x :: l' => body x ;; for_ l' body
  end.

Definition nl : string := String (ascii_of_nat 10) EmptyString.

(** ** Console and files *)

(** [print(s)] *)
Definition print (s : string) : M unit :=
  modify (λ p, set_stdout (stdout p ++ [s +:+ nl]) p).

(** A call of the global name [print_info]: line 16, unless the export
    rebinding is in force, in which case [output_buffer.write(text + "\n")]. *)
Definition print_info (msg : string) : M unit :=
  b ← get print_info_global;
  match b with
  | module_print_info => print msg
  | buffer_print_info =>
      modify (λ p, set_output_buffer (output_buffer p ++ [msg +:+ nl]) p)
  end.

Definition print_usage (msg : string) : M unit := print ("USAGE: " +:+ msg).
Definition print_error (msg : string) : M unit := print ("ERROR: " +:+ msg).
Definition print_EOF : M unit :=
  print (nl +:+ nl +:+ "Enter `exit` to close shell" +:+ nl).

(** [input(prompt)]: the prompt goes to the console, then one line is
    read; at end of input [EOFError], on Ctrl-C [KeyboardInterrupt]. *)
Definition input (prompt_text : string) : M string := λ p,
  let p := set_stdout (stdout p ++ [prompt_text]) p in
  match stdin p with
  | [] => (Raise EOFError, p)
  | Line line :: rest => (Ret line, set_stdin rest p)
  | Interrupt :: rest => (Raise KeyboardInterrupt, set_stdin rest p)
  end.

(** [with open(filename, "w") as f: f.write(content)] *)
Definition write_file (filename content : string) : M unit := λ p,
  match unwritable p !! filename with
  | Some msg => (Raise (OSError msg), p)
  | None => (Ret (), set_files (<[filename := content]> (files p)) p)
  end.

(** [with open(filename, "a") as f: f.write(content)] *)
Definition append_file (filename content : string) : M unit := λ p,
  match unwritable p !! filename with
  | Some msg => (Raise (OSError msg), p)
  | None =>
      (Ret (),
       set_files
         (<[filename := default EmptyString (files p !! filename) +:+ content]>
            (files p)) p)
  end.

Definition DB_FILENAME : string := "circuit.db".
Definition LOG_FILENAME : string := "circuit.log".

(** ** Rendering *)

Definition valid_days_order : list string :=
  ["Mon"; "Tue"; "Wed"; "Thu"; "Fri"; "Sat"; "Sun"].

(** [exercise_format(reps, cycles, fmt)]: the same nested function is
    defined in [do_index], [do_layout] and [_layout_core]. *)
Definition exercise_format (reps cycles fmt : Z) : string :=
  if fmt =? 1 then
    Py.str reps +:+ " reps each per cycle" +:+ nl
    +:+ Py.str cycles +:+ " cycles in circuit"
  else if fmt =? 2 then
    Py.str reps +:+ " reps" +:+ nl +:+ Py.str cycles +:+ " cycles"
  else if fmt =? 3 then
    Py.str reps +:+ " reps | " +:+ Py.str cycles +:+ " cycles"
  else if fmt =? 4 then
    Py.str reps +:+ "r " +:+ Py.str cycles +:+ "c"
  else
    Py.str reps +:+ " reps each per cycle" +:+ nl
    +:+ Py.str cycles +:+ " cycles in circuit".

(** The date header of [_layout_core] (lines 798-810); format 4 is the
    [strftime] of the [try] branch. *)
Definition day_display (fmt : Z) (date_obj : Date.date) (day_name : string) :
  string :=
  if fmt =? 1 then day_name
  else if fmt =? 2 then Date.strftime_A date_obj
  else if fmt =? 3 then
    Py.str (Date.month date_obj) +:+ "/" +:+ Py.str (Date.day date_obj)
  else if fmt =? 4 then Date.strftime_mdy_nopad date_obj
  else day_name.

(** ** The weekly layout: [_layout_core] *)

(** Line 775: the day slots of a group, in list order. *)
Definition days_list (group : group_row) : list string :=
  filter (λ d, d ∈ valid_days_order) (Py.strip <$> Py.split "," (days group)).

(** Line 776: [enumerate(days_list, start=1)], the occurrence index that
    each slot of a group is given, in slot order. *)
Definition slot_occurrences (group : group_row) : list (Z * string) :=
  Py.enumerate 1 (days_list group).

(** Lines 815-816, and again 912-913 and 746-747: the two assignments
    [reps = reps_per_cycle + add_reps * occ_idx] and
    [cycles = cycles_per_circuit + add_cycles * occ_idx]. *)
Definition projection (group : group_row) (occ_idx : Z) : Z * Z :=
  (reps_per_cycle group + add_reps group * occ_idx,
   cycles_per_circuit group + add_cycles group * occ_idx).

(** Line 773: [{day: [] for day in valid_days_order}] *)
Definition day_workouts_init : gmap string (list (group_row * Z)) :=
  list_to_map ((λ day, (day, [])) <$> valid_days_order).

(** Lines 776-777: [day_workouts[day].append((group, occ_idx))] for
    every slot of one group. *)
Definition add_group_slots (dw : gmap string (list (group_row * Z)))
    (group : group_row) : gmap string (list (group_row * Z)) :=
  foldl (λ dw '(occ_idx, day), alter (λ l, l ++ [(group, occ_idx)]) day dw)
        dw (slot_occurrences group).

(** Lines 773-777. *)
Definition day_workouts (groups : list group_row) :
  gmap string (list (group_row * Z)) :=
  foldl add_group_slots day_workouts_init groups.

(** Lines 812-822: one block of the layout. *)
Definition layout_block (entry : group_row * Z) : M unit :=
  let '(group, occ_idx) := entry in
  exercises ← get (λ p, select_exercises (conn (self p)) (g_id group));
  let '(reps, cycles) := projection group occ_idx in
  shown ← get (λ p, group_display_enabled (self p));
  (if shown : bool then print_info (g_name group) else mret ());;
  for_ (Py.enumerate 1 exercises)
       (λ '(idx, ex), print_info (Py.str idx +:+ ". " +:+ ex));;
  fmt ← get (λ p, exercise_display_format (self p));
  print_info (exercise_format reps cycles fmt);;
  print_info EmptyString.

(** Lines 794-822: the body of the loop over the seven dates. *)
Definition layout_date (day_workouts : gmap string (list (group_row * Z)))
    (date_and_weekday : Date.date * string) : M unit :=
  let '(date_obj, day_name) := date_and_weekday in
  let workouts := default [] (day_workouts !! day_name) in
  match workouts with
  | [] => mret ()
  | _ =>
      fmt ← get (λ p, date_display_format (self p));
      print_info (day_display fmt date_obj day_name);;
      for_ workouts layout_block
  end.

(** Lines 790-792. *)
Definition dates_and_weekdays (today : Date.date) :
  list (Date.date * string) :=
  let next_7_days := (λ i, Date.add_days today i) <$> seqZ 0 7 in
  (λ d, (d, Date.strftime_a d)) <$> next_7_days.

Definition _layout_core : M unit :=
  groups ← get (λ p, select_groups (conn (self p)));
  match groups with
  | [] => print_info "No workout groups available."
  | _ =>
      let day_workouts := day_workouts groups in
      today ← get clock;
      for_ (dates_and_weekdays today) (layout_date day_workouts)
  end.

(** ** [do_layout] *)

(** Line 684: the banner of [layout export]. *)
Definition header : string :=
  "        " +:+ nl +:+
  "  ___(_)_ __ ___ _   _(_) |_ " +:+ nl +:+
  " / __| | '__/ __| | | | | __|" +:+ nl +:+
  "| (__| | | | (__| |_| | | |_ " +:+ nl +:+
  " \___|_|_|  \___|\__,_|_|\__|" +:+ nl +:+
  "                             " +:+ nl.

(** [StringIO.getvalue()] *)
Definition getvalue (buf : list string) : string :=
  String.concat EmptyString buf.

(** Lines 634-679: [layout set ...].  [true] means the branch returned;
    [false] that control falls through to the tests that follow it. *)
Definition layout_set (arg : string) : M bool :=
  let parts := Py.split_ws arg in
  if (length parts <? 3)%nat then
    print_usage "layout set date <1-4>";; mret true
  else
    let setting_key := Py.lower (nth 1 parts EmptyString) in
    if bool_decide (setting_key = "date") then
      if (length parts =? 3)%nat && Py.isdigit (nth 2 parts EmptyString) then
        let num := default 0 (Py.int (nth 2 parts EmptyString)) in
        (if bool_decide (num ∈ [1; 2; 3; 4]) then
           modify (set_self (set_date_display_format num));;
           print_info ("Date format set to option " +:+ Py.str num)
         else print_usage "Choose 1-4.");;
        mret true
      else mret false
    else if bool_decide (setting_key = "exercise") then
      (if (length parts =? 4)%nat
          && bool_decide (Py.lower (nth 2 parts EmptyString) = "display")
          && Py.isdigit (nth 3 parts EmptyString) then
         let fmt := default 0 (Py.int (nth 3 parts EmptyString)) in
         if bool_decide (fmt ∈ [1; 2; 3; 4]) then
           modify (set_self (set_exercise_display_format fmt));;
           print_info ("Exercise display format set to option " +:+ Py.str fmt)
         else
           print_error "Invalid exercise display format option. Choose 1-4."
       else print_usage "layout set exercise display <1-4>");;
      mret true
    else if bool_decide (setting_key = "group") then
      (if (length parts =? 4)%nat
          && bool_decide (Py.lower (nth 2 parts EmptyString) = "display") then
         let val := Py.lower (nth 3 parts EmptyString) in
         if bool_decide (val ∈ ["on"; "off"]) then
           modify (set_self (set_group_display_enabled
                               (bool_decide (val = "on"))));;
           print_info ("Group display set to: " +:+ val)
         else print_error "Invalid value for group display. Use 'on' or 'off'."
       else print_usage "layout set group display on|off");;
      mret true
    else
      print_error ("No '" +:+ setting_key +:+ "' command in `layout set` command.");;
      mret true.

(** Lines 682-709: [layout export].  [self_do_layout] is the bound method
    [self.do_layout] that the branch calls back. *)
Definition layout_export (self_do_layout : string → M unit) : M unit :=
  modify (set_output_buffer []);;
  modify (λ p, set_output_buffer (output_buffer p ++ [header]) p);;
  orig_print_info ← get print_info_global;
  modify (set_print_info_global buffer_print_info);;
  try_finally (self_do_layout EmptyString)
              (modify (set_print_info_global orig_print_info));;
  today ← get clock;
  let file_date := Date.strftime_Ymd today in
  let filename := "circuit_schedule[" +:+ file_date +:+ "].txt" in
  try_except
    (buf ← get output_buffer;
     write_file filename (getvalue buf);;
     print_info ("Exported workout schedule to " +:+ filename))
    (λ e, print_error ("Failed to export to file: " +:+ exn_str e)).

(** Line 742: the non-blank day tokens of the single-group lookup. *)
Definition scheduled_days (group : group_row) : list string :=
  filter (λ d, d ≠ EmptyString) (Py.strip <$> Py.split "," (days group)).

(** Lines 715-753: [layout index NUM] once [NUM] is read as [idx]. *)
Definition layout_index (idx : Z) : M unit :=
  groups ← get (λ p, select_groups (conn (self p)));
  match groups with
  | [] => print_info "No workout groups available."
  | _ =>
      if (idx <? 1) || (Z.of_nat (length groups) <? idx) then
        print_error ("Index " +:+ Py.str idx +:+ " does not exist.")
      else
        match groups !! Z.to_nat (idx - 1) with
        | None => mret ()
        | Some group =>
            exercises ← get (λ p, select_exercises (conn (self p)) (g_id group));
            print_info (Py.str idx +:+ ". " +:+ g_name group);;
            for_ (Py.enumerate 1 exercises)
                 (λ '(i, ex), print_info (Py.str i +:+ ". " +:+ ex));;
            let '(reps, cycles) :=
              match scheduled_days group with
              | _ :: _ => let occ_idx := 1 in projection group occ_idx
              | [] => (reps_per_cycle group, cycles_per_circuit group)
              end in
            fmt ← get (λ p, exercise_display_format (self p));
            print_info (exercise_format reps cycles fmt)
        end
  end.

(** ** [do_log] *)

(** Lines 895-898: the loop of [get_occurrence_index], left at the first
    day that matches. *)
Fixpoint first_match (l : list (Z * string)) (day : string) (occ_idx : Z) : Z :=
  match l with
  | [] => occ_idx
  | (idx, d) :: l' =>
      if bool_decide (d = day) then idx else first_match l' day occ_idx
  end.

Definition get_occurrence_index (group_days day : string) : Z :=
  let days_list :=
    filter (λ d, d ≠ EmptyString) (Py.strip <$> Py.split "," group_days) in
  let occ_idx := first_match (Py.enumerate 1 days_list) day 0 in
  if 0 <? occ_idx then occ_idx else 1.

(** Lines 919-923: the lines that one group adds to [log_lines]. *)
Definition log_section (group : group_row) (exercises : list string)
    (reps cycles : Z) : list string :=
  [nl +:+ g_name group +:+ ":"]
  ++ ((λ '(idx, ex), Py.str idx +:+ ". " +:+ ex) <$> Py.enumerate 1 exercises)
  ++ [Py.str reps +:+ " reps"; Py.str cycles +:+ " cycles"].

(** Lines 907-923: the body of the loop over the groups, on the local
    variables [log_lines] and [any_workouts]. *)
Definition log_group (db : database) (log_day_name : string)
    (acc : list string * bool) (group : group_row) : list string * bool :=
  let '(log_lines, any_workouts) := acc in
  let days_list := Py.strip <$> Py.split "," (days group) in
  if bool_decide (log_day_name ∈ days_list) then
    let occ_idx := get_occurrence_index (days group) log_day_name in
    let '(reps, cycles) := projection group occ_idx in
    let exercises := select_exercises db (g_id group) in
    match exercises with
    | [] => acc
    | _ => (log_lines ++ log_section group exercises reps cycles, true)
    end
  else acc.

(** Line 903: the first line of a log block. *)
Definition log_header (log_date : Date.date) : string :=
  "Workout Log for " +:+ Date.strftime_mdy log_date +:+ " ("
  +:+ Date.strftime_a log_date +:+ "):".

(** Lines 902-923: [log_lines] and [any_workouts] after the loop. *)
Definition log_block (db : database) (log_date : Date.date) :
  list string * bool :=
  let log_day_name := Date.strftime_a log_date in
  foldl (log_group db log_day_name) ([log_header log_date], false)
        (select_groups db).

(** Lines 875-937: [log add] once the date is known. *)
Definition log_add_date (log_date : Date.date) : M unit :=
  let log_day_name := Date.strftime_a log_date in
  if bool_decide (log_day_name ∈ valid_days_order) then
    groups ← get (λ p, select_groups (conn (self p)));
    match groups with
    | [] => print_info "No workout groups available."
    | _ =>
        db ← get (λ p, conn (self p));
        let '(log_lines, any_workouts) := log_block db log_date in
        if any_workouts : bool then
          let log_lines := log_lines ++ [Py.repeat_char "-" 40] in
          try_except
            (append_file LOG_FILENAME (Py.join nl log_lines +:+ nl);;
             print_info ("Workout layout for " +:+ Date.strftime_mdy log_date
                         +:+ " added to log."))
            (λ e, print_error ("Failed to write to log: " +:+ exn_str e))
        else
          print_info ("No workouts scheduled for " +:+ Date.strftime_A log_date
                      +:+ " (" +:+ log_day_name +:+ "), nothing added.")
    end
  else print_error ("Invalid day name derived from date: " +:+ log_day_name).

(** Lines 866-874: the date prompt of [log add]. *)
Definition log_add : M unit :=
  line ← input "Enter date to log (YYYY-MM-DD) [default: today]: ";
  let input_date_str := Py.strip line in
  if bool_decide (input_date_str = EmptyString) then
    today ← get clock; log_add_date today
  else
    match Date.strptime_Ymd input_date_str with
    | Some log_date => log_add_date log_date
    | None => print_error "Invalid date format. Please enter YYYY-MM-DD."
    end.

(** Lines 940-953: [log display]. *)
Definition log_display : M unit :=
  fs ← get files;
  match fs !! LOG_FILENAME with
  | None => print_info "No workout log found yet."
  | Some content =>
      if bool_decide (Py.strip content = EmptyString) then
        print_info "Workout log is empty."
      else
        print_info ("--- Workout Log (" +:+ LOG_FILENAME +:+ ") ---");;
        print content
  end.

Definition do_log (arg : string) : M unit :=
  let arg := Py.lower (Py.strip arg) in
  if bool_decide (arg = "add") then log_add
  else if bool_decide (arg = "display") then log_display
  else print_error "Use `log add` or `log display`.".

(** ** [do_index] *)

(** The names bound at module level of [circuit.py]: the imports, the two
    constants, the seven functions and the class. *)
Definition module_globals : list string :=
  ["cmd"; "re"; "sqlite3"; "datetime"; "os"; "StringIO";
   "DB_FILENAME"; "LOG_FILENAME";
   "prompt_input"; "print_info"; "print_usage"; "print_error"; "print_EOF";
   "print_no_index_number"; "print_index_does_not_exist"; "CircuitShell"].

(** Reading, for its truth value, a name that the enclosing function never
    assigns: it is looked up among the module globals (all of them modules,
    functions, a class or non-empty strings, hence true) and is no builtin;
    an unbound name raises [NameError]. *)
Definition load_global (name : string) : M bool :=
  if bool_decide (name ∈ module_globals) then mret true
  else raise (NameError name).

(** [update_prompt] *)
Definition update_prompt : M unit :=
  modify (set_self (λ s,
    let name :=
      match current_group_id s with
      | Some gid =>
          match select_group_by_id (conn s) gid with
          | Some row => g_name row
          | None => EmptyString
          end
      | None => EmptyString
      end in
    set_prompt ("(Circuit) [" +:+ name +:+ "] ") s)).

(** Lines 449-452. *)
Definition print_groups (groups : list group_row) : M unit :=
  for_ (Py.enumerate 1 groups)
       (λ '(idx, group),
          cur ← get (λ p, current_group_id (self p));
          let prefix :=
            if bool_decide (cur = Some (g_id group)) then "*" else " " in
          print_info (prefix +:+ " " +:+ Py.str idx +:+ ". " +:+ g_name group)).

Definition out_of_range (groups : list group_row) (i : Z) : bool :=
  (i <? 1) || (Z.of_nat (length groups) <? i).

(** Lines 460-502: [index remove NUM ...]. *)
Definition index_remove (groups : list group_row) (parts : list string) :
  M unit :=
  if (length parts <? 2)%nat then
    print_error "Specify index(es) to remove, e.g. 'index remove 2 3'."
  else
    let index_parts := drop 1 parts in
    match mapM Py.int index_parts with
    | None => print_error "All indexes must be valid integers."
    | Some indexes =>
        let invalid_indexes := filter (λ i, out_of_range groups i) indexes in
        match invalid_indexes with
        | _ :: _ =>
            print_error ("Index(es) do not exist: "
                         +:+ Py.join ", " (Py.str <$> invalid_indexes))
        | [] =>
            let groups_to_remove :=
              omap (λ i, groups !! Z.to_nat (i - 1)) indexes in
            skip_confirm ← load_global "skip_confirm";
            confirmed ←
              (if skip_confirm : bool then (mret true : M bool)
               else
                 let group_names :=
                   Py.join ", "
                     (zip_with (λ i g, Py.str i +:+ ". " +:+ g_name g)
                               indexes groups_to_remove) in
                 resp ← input ("Are you sure you want to remove these groups: "
                               +:+ group_names +:+ "? (y/n): ");
                 if bool_decide (Py.lower (Py.strip resp) = "y") then mret true
                 else print_info "Aborted removing workout groups.";;
                      mret false);
            if confirmed : bool then
              modify (set_self (λ s,
                set_conn (foldl (λ db g, delete_group (g_id g) db)
                                (conn s) groups_to_remove) s));;
              cur ← get (λ p, current_group_id (self p));
              (if bool_decide (cur ∈ (λ g, Some (g_id g)) <$> groups_to_remove)
               then modify (set_self (set_current_group_id None));;
                    update_prompt
               else mret ());;
              print_info ("✓ Removed workout group(s): "
                          +:+ Py.join ", " (g_name <$> groups_to_remove));;
              new_groups ← get (λ p, select_groups (conn (self p)));
              match new_groups with
              | [] => print_info "No workout groups available."
              | _ => mret ()
              end
            else mret ()
        end
    end.

(** Lines 505-549: [index layout NUM]. *)
Definition index_layout (groups : list group_row) (parts : list string) :
  M unit :=
  if negb (length parts =? 2)%nat then print_error "Usage: index layout <NUM>"
  else
    match Py.int (nth 1 parts EmptyString) with
    | None => print_error "Invalid index number for layout."
    | Some idx =>
        if out_of_range groups idx then
          print_error ("Index " +:+ Py.str idx +:+ " does not exist.")
        else
          match groups !! Z.to_nat (idx - 1) with
          | None => mret ()
          | Some group_brief =>
              db ← get (λ p, conn (self p));
              match select_group_by_id db (g_id group_brief) with
              | None => print_error "Group data not found."
              | Some group =>
                  let exercises := select_exercises db (g_id group_brief) in
                  print_info ("Group " +:+ Py.str idx +:+ ": " +:+ g_name group);;
                  for_ (Py.enumerate 1 exercises)
                       (λ '(i, ex), print_info (Py.str i +:+ ". " +:+ ex));;
                  let reps := reps_per_cycle group in
                  let cycles := cycles_per_circuit group in
                  fmt ← get (λ p, exercise_display_format (self p));
                  print_info (exercise_format reps cycles fmt)
              end
          end
    end.

(** Lines 552-567: [index NUM]. *)
Definition index_select (groups : list group_row) (parts : list string) :
  M unit :=
  if negb (length parts =? 1)%nat then
    print_error "Only one index number can be specified for selection."
  else
    match Py.int (nth 0 parts EmptyString) with
    | None => print_error "Not an index number."
    | Some idx =>
        if out_of_range groups idx then
          print_error ("Index " +:+ Py.str idx +:+ " does not exist.")
        else
          match groups !! Z.to_nat (idx - 1) with
          | None => mret ()
          | Some group =>
              modify (set_self (set_current_group_id (Some (g_id group))));;
              update_prompt;;
              print_info ("Selected workout group " +:+ Py.str idx +:+ ". "
                          +:+ g_name group)
          end
    end.

Definition do_index (arg : string) : M unit :=
  let arg := Py.strip arg in
  groups ← get (λ p, select_groups (conn (self p)));
  match groups with
  | [] => print_info "No workout groups available."
  | _ =>
      if bool_decide (arg = EmptyString) then print_groups groups
      else
        let parts := Py.split_ws arg in
        let cmd := Py.lower (nth 0 parts EmptyString) in
        if bool_decide (cmd = "remove") then index_remove groups parts
        else if bool_decide (cmd = "layout") then index_layout groups parts
        else index_select groups parts
  end.

(** ** [do_cmd], [do_exit], [do_EOF] *)

Definition do_cmd (arg : string) : M unit :=
  let commands := ["add"; "edit"; "index"; "layout"; "log"] in
  if bool_decide (Py.strip arg = EmptyString) then for_ commands print
  else print_error "`cmd` takes no arguments".

Definition do_exit (arg : string) : M bool :=
  print "Goodbye!";; mret true.

Definition do_EOF (arg : string) : M bool :=
  print_EOF;; mret false.

(** ** The command interpreter

    The interactive editors [do_add] and [do_edit], the help texts of
    [do_help] and the docstring of [do_layout] are taken as given. *)

Section Shell.

Variable do_layout__doc__ : string.
Variables do_add do_edit do_help : string → M unit.

(** Lines 625-754.  [self_do_layout] is what [self.do_layout] calls from
    inside the body. *)
Definition do_layout_body (self_do_layout : string → M unit) (arg : string) :
  M unit :=
  let arg := Py.strip arg in
  if bool_decide (arg = "set") then print do_layout__doc__
  else if bool_decide (arg = EmptyString) then _layout_core
  else
    returned ← (if Py.startswith arg "set " then layout_set arg
                else mret false);
    if returned : bool then mret ()
    else if bool_decide (arg = "export") then layout_export self_do_layout
    else
      returned ←
        (if Py.startswith (Py.lower arg) "index " then
           let parts := Py.split_ws arg in
           if (length parts =? 2)%nat && Py.isdigit (nth 1 parts EmptyString)
           then
             layout_index (default 0 (Py.int (nth 1 parts EmptyString)));;
             mret true
           else mret false
         else mret false);
      if returned : bool then mret ()
      else print_error ("Unknown argument '" +:+ arg +:+ "' for layout.").

(** The only call of [self.do_layout] from inside [do_layout] passes the
    empty argument, which never calls back: two unfoldings tie the knot. *)
Definition do_layout (arg : string) : M unit :=
  do_layout_body (do_layout_body (λ _, mret ())) arg.

(** [cmd.Cmd.identchars] *)
Definition identchar (c : ascii) : bool :=
  let n := N_of_ascii c in
  ((48 <=? n)%N && (n <=? 57)%N) || ((65 <=? n)%N && (n <=? 90)%N)
  || ((97 <=? n)%N && (n <=? 122)%N) || (n =? 95)%N.

Fixpoint span_ident (s : string) : string * string :=
  match s with
  | EmptyString => (EmptyString, EmptyString)
  | String c s' =>
      if identchar c then
        let '(w, rest) := span_ident s' in (String c w, rest)
      else (EmptyString, s)
  end.

(** [cmd.Cmd.parseline]; the class has no [do_shell]. *)
Definition parseline (line : string) : option string * string * string :=
  let line := Py.strip line in
  match line with
  | EmptyString => (None, EmptyString, line)
  | String c rest =>
      if Ascii.eqb c "!" then (None, EmptyString, line)
      else
        let line := if Ascii.eqb c "?" then "help " +:+ rest else line in
        let '(cmd, arg) := span_ident line in
        (Some cmd, Py.strip arg, line)
  end.

(** [cmd.Cmd.default] *)
Definition default_cmd (line : string) : M bool :=
  modify (λ p, set_stdout
                 (stdout p ++ ["*** Unknown syntax: " +:+ line +:+ nl]) p);;
  mret false.

(** [cmd.Cmd.onecmd] with the [do_*] methods of [CircuitShell];
    [emptyline] returns [False]. *)
Definition onecmd (line : string) : M bool :=
  let '(cmd, arg, line) := parseline line in
  if bool_decide (line = EmptyString) then mret false
  else
    match cmd with
    | None => default_cmd line
    | Some cmd =>
        if bool_decide (cmd = "add") then do_add arg;; mret false
        else if bool_decide (cmd = "edit") then do_edit arg;; mret false
        else if bool_decide (cmd = "index") then do_index arg;; mret false
        else if bool_decide (cmd = "layout") then do_layout arg;; mret false
        else if bool_decide (cmd = "log") then do_log arg;; mret false
        else if bool_decide (cmd = "cmd") then do_cmd arg;; mret false
        else if bool_decide (cmd = "help") then do_help arg;; mret false
        else if bool_decide (cmd = "exit") then do_exit arg
        else if bool_decide (cmd = "EOF") then do_EOF arg
        else default_cmd line
    end.

(** One turn of [cmd.Cmd.cmdloop]: prompt, read ([EOFError] reads as the
    line [EOF]), [precmd], [onecmd]. *)
Definition cmdloop_step : M bool :=
  pr ← get (λ p, prompt (self p));
  line ← (λ p, match input pr p with
               | (Raise EOFError, p') => (Ret "EOF", p')
               | r => r
               end);
  update_prompt;;
  onecmd line.

(** [CircuitShell.__init__] *)
Definition __init__ : M unit :=
  print "Welcome to Circuit - The circuit-style exercise automation tool";;
  print ("`cmd` for commands, `help` or `?` for help, and `exit` to exit shell."
         +:+ nl);;
  modify (set_self (set_current_group_id None));;
  update_prompt;;
  modify (set_self (set_date_display_format 1));;
  modify (set_self (set_exercise_display_format 3));;
  modify (set_self (set_group_display_enabled true)).

(** How the process stands after a bounded number of turns. *)
Inductive status := Running | Exited | Crashed (e : exn).

(** Lines 1026-1031 around [cmdloop]: a turn that returns true ends the
    loop and the process; [KeyboardInterrupt] is caught and the loop is
    entered again; any other exception leaves the process. *)
Fixpoint run (turns : nat) (p : process) : status * process :=
  match turns with
  | O => (Running, p)
  | S n =>
      match cmdloop_step p with
      | (Ret true, p') => (Exited, p')
      | (Ret false, p') => run n p'
      | (Raise KeyboardInterrupt, p') =>
          run n (snd (print_EOF p'))
      | (Raise e, p') => (Crashed e, p')
      end
  end.

(** The [__main__] block. *)
Definition main (turns : nat) (p : process) : status * process :=
  match __init__ p with
  | (Ret _, p') => run turns p'
  | (Raise e, p') => (Crashed e, p')
  end.

End Shell.

(** ** What the commands write *)

(** The effect of a run of [print_info] calls: the chunks go to the
    console or, under the export rebinding, to the buffer. *)
Definition emit (chunks : list string) (p : process) : process :=
  match print_info_global p with
  | module_print_info => set_stdout (stdout p ++ chunks) p
  | buffer_print_info => set_output_buffer (output_buffer p ++ chunks) p
  end.

(** [writes m s text]: on any process whose shell object is [s], the
    command [m] returns normally, having printed [text] through
    [print_info] and changed nothing else. *)
Definition writes (m : M unit) (s : CircuitShell) (text : list string) : Prop :=
  ∀ p, self p = s → m p = (Ret (), emit text p).

(** ** The weekly layout as the specification words it

    Dates ascending; on each date the groups in the order of the store
    query; within a group the matching slots in list order; within a block
    the exercises in query order. *)

Definition matching_slots (day : string) (group : group_row) :
  list (group_row * Z) :=
  omap (λ '(occ_idx, d),
          if bool_decide (d = day) then Some (group, occ_idx) else None)
       (slot_occurrences group).

Definition slots_on (day : string) (groups : list group_row) :
  list (group_row * Z) :=
  group ← groups; matching_slots day group.

Definition exercise_lines (exercises : list string) : list string :=
  (λ '(idx, ex), Py.str idx +:+ ". " +:+ ex +:+ nl) <$> Py.enumerate 1 exercises.

Definition block_text (s : CircuitShell) (entry : group_row * Z) : list string :=
  let '(group, occ_idx) := entry in
  let '(reps, cycles) := projection group occ_idx in
  (if group_display_enabled s then [g_name group +:+ nl] else [])
  ++ exercise_lines (select_exercises (conn s) (g_id group))
  ++ [exercise_format reps cycles (exercise_display_format s) +:+ nl; nl].

Definition section_text (s : CircuitShell) (groups : list group_row)
    (date_and_weekday : Date.date * string) : list string :=
  let '(date_obj, day_name) := date_and_weekday in
  match slots_on day_name groups with
  | [] => []
  | slots =>
      (day_display (date_display_format s) date_obj day_name +:+ nl)
      :: (entry ← slots; block_text s entry)
  end.

Definition spec_weekly_layout (s : CircuitShell) (today : Date.date) :
  list string :=
  match select_groups (conn s) with
  | [] => ["No workout groups available." +:+ nl]
  | groups => dw ← dates_and_weekdays today; section_text s groups dw
  end.

(** The blocks of the weekly layout in output order, each with its key:
    the offset of its date from today, the id of its group and the
    occurrence index of its slot. *)
Definition layout_entries (s : CircuitShell) (today : Date.date) :
  list (Z * Z * Z) :=
  i ← seqZ 0 7;
  (λ '(group, occ_idx), (i, g_id group, occ_idx))
    <$> slots_on (Date.strftime_a (Date.add_days today i))
                 (select_groups (conn s)).

(** Lexicographic order on the keys. *)
Definition entry_lt (a b : Z * Z * Z) : Prop :=
  let '(i, g, k) := a in
  let '(i', g', k') := b in
  i < i' ∨ (i = i' ∧ (g < g' ∨ (g = g' ∧ k < k'))).

(** The order of two blocks of one date: by group id, then by slot. *)
Definition slot_lt (a b : group_row * Z) : Prop :=
  g_id (fst a) < g_id (fst b)
  ∨ (g_id (fst a) = g_id (fst b) ∧ snd a < snd b).

(** ** The occurrence index as the specification words it

    The rank of a slot among the slots that hold the same weekday: the
    number of such slots from the start of the list up to and including
    the slot. *)
Definition spec_occurrence_index (days_list : list string) (i : nat) : Z :=
  match days_list !! i with
  | Some day => Z.of_nat (length (filter (λ d, d = day) (take (S i) days_list)))
  | None => 0
  end.

(** Every slot of the group is given its weekday rank. *)
Definition occurrence_is_weekday_rank (group : group_row) : Prop :=
  ∀ i occ_idx day,
    slot_occurrences group !! i = Some (occ_idx, day) →
    occ_idx = spec_occurrence_index (days_list group) i.

Definition group_mon_wed_mon : group_row :=
  mk_group 2 "Arms" 5 2 "Mon,Wed,Mon" 1 1.

(** What [layout index NUM] prints for the group at index [idx]. *)
Definition layout_index_text (s : CircuitShell) (idx : Z) (group : group_row) :
  list string :=
  let '(reps, cycles) :=
    match scheduled_days group with
    | [] => (reps_per_cycle group, cycles_per_circuit group)
    | _ => (reps_per_cycle group + add_reps group * 1,
            cycles_per_circuit group + add_cycles group * 1)
    end in
  [(Py.str idx +:+ ". " +:+ g_name group) +:+ nl]
  ++ exercise_lines (select_exercises (conn s) (g_id group))
  ++ [exercise_format reps cycles (exercise_display_format s) +:+ nl].

(** ** The log block *)

(** No group holds the day with at least one exercise. *)
Definition nothing_scheduled (db : database) (day : string) : Prop :=
  ∀ group, group ∈ groups db →
           day ∈ Py.strip <$> Py.split "," (days group) →
           select_exercises db (g_id group) = [].

(** The day list of the group is as [do_add] and [do_edit] store it. *)
Definition stored_days (group : group_row) : Prop :=
  ∃ l, Forall (λ d, d ∈ valid_days_order) l ∧ days group = Py.join "," l.

(** The sections of a log block as the specification words them: one per
    matching slot of the weekly layout, with that slot's occurrence
    index. *)
Definition spec_log_sections (db : database) (day : string)
    (groups : list group_row) : list string :=
  entry ← slots_on day groups;
  let '(group, occ_idx) := entry in
  match select_exercises db (g_id group) with
  | [] => []
  | exercises =>
      let '(reps, cycles) := projection group occ_idx in
      log_section group exercises reps cycles
  end.

Definition log_follows_layout_slots (db : database) (log_date : Date.date) :
  Prop :=
  fst (log_block db log_date)
  = log_header log_date
    :: spec_log_sections db (Date.strftime_a log_date) (select_groups db).

(** The sections that the code writes: one per group that holds the day
    and has exercises, with the occurrence index of the first of the
    group's matching layout slots. *)
Definition first_slot_log_sections (db : database) (day : string)
    (groups : list group_row) : list string :=
  group ← groups;
  match matching_slots day group with
  | [] => []
  | (_, occ_idx) :: _ =>
      match select_exercises db (g_id group) with
      | [] => []
      | exercises =>
          let '(reps, cycles) := projection group occ_idx in
          log_section group exercises reps cycles
      end
  end.

Definition db_mon_mon : database :=
  mk_database [mk_group 1 "Arms" 5 2 "Mon,Mon" 1 1] [mk_exercise 1 1 "Curls"].

(** ** A store to run the commands on

    Three groups, entered out of id order: "Leg Day" on Monday and
    Thursday (the scenario of the specification), "Arms" with Monday
    listed twice, and the unscheduled "Rest". *)

Definition leg_day : group_row := mk_group 1 "Leg Day" 10 3 "Mon,Thu" 2 0.
Definition arms : group_row := mk_group 2 "Arms" 5 2 "Mon,Wed,Mon" 1 1.
Definition rest_day : group_row := mk_group 3 "Rest" 5 2 "" 1 1.

Definition example_db : database :=
  mk_database [arms; leg_day; rest_day]
              [mk_exercise 1 1 "Squats"; mk_exercise 2 1 "Lunges";
               mk_exercise 3 2 "Curls"].

(** The shell as [__init__] leaves it, on Monday 2025-01-06, with the
    given console input. *)
Definition example_process (input_lines : list key_input) : process :=
  mk_process (mk_shell example_db None "(Circuit) [] " 1 3 true)
             [] input_lines ∅ ∅ (Date.mk_date 2025 1 6) module_print_info [].

(** ** Further notions used to state what the commands leave alone *)

(** [p'] differs from [p] at most in what was written to the console or
    to the export buffer. *)
Definition console_only (p p' : process) : Prop :=
  self p' = self p ∧ stdin p' = stdin p ∧ files p' = files p
  ∧ unwritable p' = unwritable p ∧ clock p' = clock p
  ∧ print_info_global p' = print_info_global p.

(** The two display codes hold values that [layout set] accepts. *)
Definition settings_in_range (s : CircuitShell) : Prop :=
  date_display_format s ∈ [1; 2; 3; 4]
  ∧ exercise_display_format s ∈ [1; 2; 3; 4].

(** The lines of the group listing of [index] when the group with id
    [cur] is selected (lines 449-452). *)
Definition listing_text (cur : option Z) (groups : list group_row) :
  list string :=
  (λ '(idx, group),
     ((if bool_decide (cur = Some (g_id group)) then "*" else " ")
      +:+ " " +:+ Py.str idx +:+ ". " +:+ g_name group) +:+ nl)
    <$> Py.enumerate 1 groups.

(** [p'] keeps the store, the display settings, the pending input, the
    files and the clock of [p]; the selection, the prompt and the console
    may differ. *)
Definition selection_only (p p' : process) : Prop :=
  conn (self p') = conn (self p)
  ∧ date_display_format (self p') = date_display_format (self p)
  ∧ exercise_display_format (self p') = exercise_display_format (self p)
  ∧ group_display_enabled (self p') = group_display_enabled (self p)
  ∧ stdin p' = stdin p ∧ files p' = files p
  ∧ unwritable p' = unwritable p ∧ clock p' = clock p
  ∧ print_info_global p' = print_info_global p.

(** What [index layout NUM] prints for the group at index [idx]. *)
Definition index_layout_text (s : CircuitShell) (idx : Z) (group : group_row) :
  list string :=
  [("Group " +:+ Py.str idx +:+ ": " +:+ g_name group) +:+ nl]
  ++ exercise_lines (select_exercises (conn s) (g_id group))
  ++ [exercise_format (reps_per_cycle group) (cycles_per_circuit group)
                      (exercise_display_format s) +:+ nl].

(** No character of the string is white space. *)
Fixpoint no_space (s : string) : bool :=
  match s with
  | EmptyString => true
  | String c s' => negb (Py.isspace c) && no_space s'
  end.

(** The name of the file that [layout export] writes on the day [today]
    (lines 701-702). *)
Definition export_filename (today : Date.date) : string :=
  "circuit_schedule[" +:+ Date.strftime_Ymd today +:+ "].txt".

(** The process once [layout export] has filled its buffer and restored
    [print_info] (lines 683-700): only the buffer differs. *)
Definition after_export_buffer (p : process) : process :=
  set_output_buffer (header :: spec_weekly_layout (self p) (clock p)) p.

(** [p'] differs from [p] at most in the display settings, which stay
    valid if they were, in what was written to the console or to the
    export buffer, and in the file that [layout export] writes. *)
Definition layout_only (p p' : process) : Prop :=
  conn (self p') = conn (self p)
  ∧ current_group_id (self p') = current_group_id (self p)
  ∧ prompt (self p') = prompt (self p)
  ∧ stdin p' = stdin p ∧ unwritable p' = unwritable p ∧ clock p' = clock p
  ∧ print_info_global p' = print_info_global p
  ∧ (∀ f, f ≠ export_filename (clock p) → files p' !! f = files p !! f)
  ∧ (settings_in_range (self p) → settings_in_range (self p')).

(** [p'] has the files of [p], but for text appended to the log. *)
Definition log_grows (p p' : process) : Prop :=
  files p' = files p
  ∨ ∃ added,
      files p'
      = <[LOG_FILENAME := default EmptyString (files p !! LOG_FILENAME)
                          +:+ added]> (files p).

(** Every character of the string is white space. *)
Fixpoint all_space (s : string) : bool :=
  match s with
  | EmptyString => true
  | String c s' => Py.isspace c && all_space s'
  end.

(** ** The week of the layout *)

(** [today] is a date of the calendar, and so are the six days after it:
    [date.max] is 9999-12-31, of ordinal 3652059. *)
Definition week_in_calendar (today : Date.date) : Prop :=
  Date.valid today = true ∧ Date.toordinal today + 6 ≤ 3652059.

(** Every day slot of every group, with its occurrence index. *)
Definition all_slots (groups : list group_row) : list (group_row * Z) :=
  group ← groups; (λ '(occ_idx, _), (group, occ_idx)) <$> slot_occurrences group.

(** The slots that get a block in the weekly layout, in output order. *)
Definition week_slots (groups : list group_row) (today : Date.date) :
  list (group_row * Z) :=
  dw ← dates_and_weekdays today; slots_on (snd dw) groups.

(** The shell as [__init__] leaves it on an empty store. *)
Definition empty_store_process : process :=
  mk_process (mk_shell (mk_database [] []) None "(Circuit) [] " 1 3 true)
             [] [] ∅ ∅ (Date.mk_date 2025 1 6) module_print_info [].

(** What the console delivers when nothing is asked of the shell: a blank
    line or Ctrl-C. *)
Definition idle (k : key_input) : Prop :=
  match k with
  | Line line => Py.strip line = EmptyString
  | Interrupt => True
  end.

(** ** The prompts of [do_add] and [do_edit]

    Of the two interactive editors the prompt loops and the parsing of
    their answers are embedded; the statements that write the store are
    not. *)

Module Str.

Definition upper_char (c : ascii) : ascii :=
  let n := N_of_ascii c in
  if (97 <=? n)%N && (n <=? 122)%N then ascii_of_N (n - 32) else c.

(** [s.upper()] *)
Fixpoint upper (s : string) : string :=
  match s with
  | EmptyString => EmptyString
  | String c s' => String (upper_char c) (upper s')
  end.

(** [s.capitalize()] *)
Definition capitalize (s : string) : string :=
  match s with
  | EmptyString => EmptyString
  | String c s' => String (upper_char c) (Py.lower s')
  end.

End Str.

(** [while True: body], where [body] answers [Some a] for [return a] (or
    [break] with the value [a]) and [None] for another turn.  [None] after
    [turns] turns means that the loop is still running. *)
Fixpoint while_true {A : Type} (turns : nat) (body : M (option A)) :
  M (option A) :=
  match turns with
  | O => mret None
  | S k =>
      r ← body;
      match r with
      | Some a => mret (Some a)
      | None => while_true k body
      end
  end.

(** [prompt_input(prompt_text)] *)
Definition prompt_input (prompt_text : string) : M string :=
  input (prompt_text +:+ " ").

(** The alternatives of [(Mon|Tue|Wed|Thu|Fri|Sat|Sun|N/?A)] under
    [re.IGNORECASE], in the order in which they are tried; the greedy
    [/?] tries "N/A" before "NA". *)
Definition day_alternatives : list string :=
  ["mon"; "tue"; "wed"; "thu"; "fri"; "sat"; "sun"; "n/a"; "na"].

(** The length of the match of the pattern at the start of [s]. *)
Definition match_day (s : string) : option nat :=
  String.length
    <$> find (λ alt, Py.startswith (Py.lower s) alt) day_alternatives.

(** [re.findall] of the pattern: the matches from left to right, the
    search going on behind each match; [skip] counts the characters of
    the last match that are still to be passed. *)
Fixpoint findall_go (skip : nat) (s : string) : list string :=
  match s with
  | EmptyString => []
  | String _ s' =>
      match skip with
      | S k => findall_go k s'
      | O =>
          match match_day s with
          | Some n => substring 0 n s :: findall_go (n - 1) s'
          | None => findall_go 0 s'
          end
      end
  end.

Definition findall_days (s : string) : list string := findall_go 0 s.

(** Lines 189, 349 and 354: [day.upper() if day.lower() == "n/a" else
    day.capitalize()] over the matches. *)
Definition normalized_days (days_input : string) : list string :=
  (λ day, if bool_decide (Py.lower day = "n/a") then Str.upper day
          else Str.capitalize day) <$> findall_days days_input.

(** Lines 188-196 (and 353-361): what one answer to the schedule prompt
    leads to.  [Some days_list] when the loop is left, [None] when the
    answer is refused. *)
Definition days_answer (days_input : string) : option (list string) :=
  let days_list := normalized_days days_input in
  if bool_decide (days_list = ["N/A"]) then Some []
  else if negb (bool_decide (days_list = []))
          && forallb (λ day, bool_decide (day ∈ valid_days_order)) days_list
  then Some days_list
  else None.

(** Lines 186-196: the schedule prompt of [do_add]. *)
Definition add_days_prompt (turns : nat) : M (option (list string)) :=
  while_true turns
    (line ← prompt_input
       ("Workout days on? (Mon|Tue|Wed|Thu|Fri|Sat|Sun, or N/A if not "
        +:+ "scheduled) (use `,` to separate): ");
     match days_answer (Py.strip line) with
     | Some days_list => mret (Some days_list)
     | None =>
         print_error
           ("Invalid days input. Please enter days as Mon, Tue, Wed, etc., "
            +:+ "separated by commas, or just 'N/A' if not scheduled.");;
         mret None
     end).

(** Lines 343-361: the schedule prompt of [do_edit], which on an empty
    answer reads the stored list again. *)
Definition edit_days_prompt (previous_days_str : string) (turns : nat) :
  M (option (list string)) :=
  while_true turns
    (line ← prompt_input
       ("Workout days on? (Mon|Tue|Wed|Thu|Fri|Sat|Sun, or N/A if not "
        +:+ "scheduled) (use `,` to separate) [" +:+ previous_days_str
        +:+ "]: ");
     let days_input := Py.strip line in
     if bool_decide (days_input = EmptyString) then
       let days_list := normalized_days previous_days_str in
       mret (Some (if bool_decide (days_list = ["N/A"]) then []
                   else days_list))
     else
       match days_answer days_input with
       | Some days_list => mret (Some days_list)
       | None =>
           print_error
             ("Invalid days input. Please enter days as Mon, Tue, Wed, etc., "
              +:+ "separated by commas, or just 'N/A' if not scheduled.");;
           mret None
       end).

(** Lines 210 and 387: the day list as it is stored. *)
Definition stored_days_str (days_list : list string) : string :=
  Py.join "," days_list.

(** Lines 102-109: [prompt_positive_int], the method that [do_edit]
    calls. *)
Definition prompt_positive_int (prompt_text : string) (default_value : Z)
    (turns : nat) : M (option Z) :=
  while_true turns
    (line ← prompt_input
       (prompt_text +:+ " [" +:+ Py.str default_value +:+ "]: ");
     let val := Py.strip line in
     if bool_decide (val = EmptyString) then mret (Some default_value)
     else if Py.isdigit val then mret (Some (default 0 (Py.int val)))
     else print_error "Please enter a valid positive integer.";; mret None).

(** Lines 170-177: [input_positive_int] of [do_add]. *)
Definition input_positive_int (prompt_text : string) (turns : nat) :
  M (option Z) :=
  while_true turns
    (line ← prompt_input prompt_text;
     let val := Py.strip line in
     if Py.isdigit val then
       let num := default 0 (Py.int val) in
       if 0 <=? num then mret (Some num)
       else print_error "Please enter a valid positive integer.";; mret None
     else print_error "Please enter a valid positive integer.";; mret None).

(** ** Dates as text *)

(** The decimal digit of a number below ten. *)
Definition digit_char (k : Z) : ascii := pretty_N_char (Z.to_N k).

(** * Properties *)

(** ** Strings *)

Lemma append_cons (x : ascii) (a b : string) :
  String x a +:+ b = String x (a +:+ b).
Proof. done. Qed.

Lemma append_assoc (a b c : string) : (a +:+ b) +:+ c = a +:+ (b +:+ c).
Proof.
  induction a as [|x a IH]; [done|]. by rewrite !append_cons, IH.
Qed.

Lemma append_nil_r (a : string) : a +:+ EmptyString = a.
Proof. induction a as [|x a IH]; [done|]. by rewrite append_cons, IH. Qed.

(** ** The monad and the console *)

Lemma emit_nil p : emit [] p = p.
Proof.
  destruct p as [s o i f u c b buf]. unfold emit. simpl.
  destruct b; unfold set_stdout, set_output_buffer; simpl;
    by rewrite app_nil_r.
Qed.

Lemma emit_app c1 c2 p : emit (c1 ++ c2) p = emit c2 (emit c1 p).
Proof.
  destruct p as [s o i f u c b buf]. unfold emit. simpl.
  destruct b; unfold set_stdout, set_output_buffer; simpl;
    by rewrite app_assoc.
Qed.

Lemma self_emit c p : self (emit c p) = self p.
Proof. unfold emit. by destruct (print_info_global p). Qed.

Lemma clock_emit c p : clock (emit c p) = clock p.
Proof. unfold emit. by destruct (print_info_global p). Qed.

Lemma files_emit c p : files (emit c p) = files p.
Proof. unfold emit. by destruct (print_info_global p). Qed.

Lemma binding_emit c p : print_info_global (emit c p) = print_info_global p.
Proof. unfold emit. by destruct (print_info_global p) eqn:E. Qed.

Lemma print_info_emit msg p : print_info msg p = (Ret (), emit [msg +:+ nl] p).
Proof.
  unfold print_info, emit, get, mbind, M_bind. simpl.
  by destruct (print_info_global p).
Qed.

Lemma bind_ret {A B : Type} (m : M A) (f : A → M B) a p p' :
  m p = (Ret a, p') → (m ≫= f) p = f a p'.
Proof. intros H. unfold mbind, M_bind. by rewrite H. Qed.

Lemma bind_get {A B : Type} (g : process → A) (f : A → M B) p :
  (get g ≫= f) p = f (g p) p.
Proof. done. Qed.

(** A loop whose body only prints, given the shell object it reads. *)
Lemma for_emit {A : Type} (s : CircuitShell) (body : A → M unit)
    (text : A → list string) (l : list A) :
  (∀ x p, x ∈ l → self p = s → body x p = (Ret (), emit (text x) p)) →
  ∀ p, self p = s → for_ l body p = (Ret (), emit (x ← l; text x) p).
Proof.
  induction l as [|x l IH]; intros Hbody p Hp; simpl.
  - by rewrite emit_nil.
  - assert (Hx : body x p = (Ret (), emit (text x) p)).
    { apply Hbody; [set_solver|done]. }
    rewrite (bind_ret _ _ _ _ _ Hx).
    rewrite IH.
    + by rewrite emit_app.
    + intros y q Hy Hq. apply Hbody; [set_solver|done].
    + by rewrite self_emit.
Qed.

(** ** The [day_workouts] dictionary *)

Lemma strftime_a_valid d : Date.strftime_a d ∈ valid_days_order.
Proof.
  unfold Date.strftime_a, Date.weekday.
  assert (Hn : (Z.to_nat ((Date.toordinal d + 6) mod 7) < 7)%nat).
  { pose proof (Z.mod_pos_bound (Date.toordinal d + 6) 7 eq_refl). lia. }
  revert Hn. generalize (Z.to_nat ((Date.toordinal d + 6) mod 7)). intros n Hn.
  unfold valid_days_order.
  do 7 (destruct n as [|n]; [simpl; rewrite !elem_of_cons; tauto|]). lia.
Qed.

Lemma days_list_valid group d : d ∈ days_list group → d ∈ valid_days_order.
Proof. unfold days_list. rewrite list_elem_of_filter. by intros [? _]. Qed.

Lemma enumerate_elem {A : Type} (l : list A) start k x :
  (k, x) ∈ Py.enumerate start l → x ∈ l.
Proof.
  revert start. induction l as [|y l IH]; intros start; simpl.
  - by rewrite elem_of_nil.
  - rewrite !elem_of_cons. intros [[= -> ->]|H]; [by left|right; eauto].
Qed.

Lemma day_workouts_init_lookup day :
  day_workouts_init !! day
  = if bool_decide (day ∈ valid_days_order) then Some [] else None.
Proof.
  case_bool_decide as Hday.
  - unfold valid_days_order in Hday.
    rewrite !elem_of_cons, elem_of_nil in Hday.
    destruct Hday as [E|[E|[E|[E|[E|[E|[E|[]]]]]]]]; by rewrite E.
  - by apply not_elem_of_list_to_map_1.
Qed.

Lemma add_slots_lookup group (l : list (Z * string))
    (dw : gmap string (list (group_row * Z))) day :
  foldl (λ dw '(occ_idx, d), alter (λ l, l ++ [(group, occ_idx)]) d dw) dw l
    !! day
  = (λ x, x ++ omap (λ '(occ_idx, d),
                       if bool_decide (d = day) then Some (group, occ_idx)
                       else None) l) <$> (dw !! day).
Proof.
  revert dw. induction l as [|[occ d] l IH]; intros dw; simpl.
  - destruct (dw !! day); simpl; [by rewrite app_nil_r|done].
  - rewrite IH. destruct (decide (d = day)) as [->|Hne].
    + rewrite lookup_alter_eq, bool_decide_eq_true_2 by done.
      destruct (dw !! day); simpl; [|done].
      by rewrite <- app_assoc.
    + by rewrite lookup_alter_ne, bool_decide_eq_false_2 by done.
Qed.

Lemma add_group_slots_lookup group dw day :
  add_group_slots dw group !! day
  = (λ x, x ++ matching_slots day group) <$> (dw !! day).
Proof. apply add_slots_lookup. Qed.

Lemma slots_on_cons day g groups :
  slots_on day (g :: groups) = matching_slots day g ++ slots_on day groups.
Proof. done. Qed.

Lemma slots_on_app day gs1 gs2 :
  slots_on day (gs1 ++ gs2) = slots_on day gs1 ++ slots_on day gs2.
Proof. unfold slots_on. apply bind_app. Qed.

Lemma day_workouts_fold groups (dw : gmap string (list (group_row * Z))) day :
  foldl add_group_slots dw groups !! day
  = (λ x, x ++ slots_on day groups) <$> (dw !! day).
Proof.
  revert dw. induction groups as [|g groups IH]; intros dw.
  - simpl. destruct (dw !! day); simpl; [by rewrite app_nil_r|done].
  - cbn [foldl]. rewrite IH, add_group_slots_lookup, slots_on_cons.
    destruct (dw !! day); simpl; [|done].
    by rewrite <- app_assoc.
Qed.

Lemma matching_slots_invalid day group :
  day ∉ valid_days_order → matching_slots day group = [].
Proof.
  intros Hday. unfold matching_slots, slot_occurrences.
  assert (H : ∀ k d, (k, d) ∈ Py.enumerate 1 (days_list group) → d ≠ day).
  { intros k d Hin ->. apply Hday, (days_list_valid group).
    by eapply enumerate_elem. }
  revert H. generalize (Py.enumerate 1 (days_list group)).
  induction l as [|[k d] l IH]; intros H; simpl; [done|].
  rewrite bool_decide_eq_false_2; [|eapply H; by left].
  apply IH. intros k' d' Hin. eapply H. by right.
Qed.

Lemma slots_on_invalid day groups :
  day ∉ valid_days_order → slots_on day groups = [].
Proof.
  intros Hday. induction groups as [|g groups IH]; [done|].
  by rewrite slots_on_cons, matching_slots_invalid, IH.
Qed.

(** What the dictionary holds for a day is the list of matching slots,
    group after group. *)
Lemma day_workouts_lookup groups day :
  default [] (day_workouts groups !! day) = slots_on day groups.
Proof.
  unfold day_workouts. rewrite day_workouts_fold, day_workouts_init_lookup.
  case_bool_decide as Hday; simpl; [done|].
  by rewrite slots_on_invalid.
Qed.

(** ** Commands that only print *)

Lemma writes_ret s : writes (mret ()) s [].
Proof. intros p _. by rewrite emit_nil. Qed.

Lemma writes_print_info s msg : writes (print_info msg) s [msg +:+ nl].
Proof. intros p _. apply print_info_emit. Qed.

Lemma writes_seq s (m1 m2 : M unit) t1 t2 :
  writes m1 s t1 → writes m2 s t2 → writes (m1 ;; m2) s (t1 ++ t2).
Proof.
  intros H1 H2 p Hp. erewrite bind_ret; [|by apply H1].
  rewrite H2, emit_app; [done|by rewrite self_emit].
Qed.

Lemma writes_get {A : Type} s (g : CircuitShell → A) (f : A → M unit) t :
  writes (f (g s)) s t → writes (get (λ p, g (self p)) ≫= f) s t.
Proof. intros H p Hp. rewrite bind_get, Hp. by apply H. Qed.

Lemma writes_for {A : Type} s (l : list A) (body : A → M unit)
    (text : A → list string) :
  (∀ x, x ∈ l → writes (body x) s (text x)) →
  writes (for_ l body) s (x ← l; text x).
Proof.
  intros H p Hp. apply (for_emit s); [|done].
  intros x q Hx Hq. by apply H.
Qed.

Lemma writes_eq m s t1 t2 : t1 = t2 → writes m s t1 → writes m s t2.
Proof. by intros ->. Qed.

Lemma exercise_lines_bind (exercises : list string) :
  (x ← Py.enumerate 1 exercises;
     (λ '(idx, ex), [(Py.str idx +:+ ". " +:+ ex) +:+ nl]) x)
  = exercise_lines exercises.
Proof.
  unfold exercise_lines. generalize 1.
  induction exercises as [|e l IH]; intros k; simpl; [done|].
  f_equal; [|apply IH].
  by rewrite !append_assoc.
Qed.

Lemma writes_exercises s (exercises : list string) :
  writes (for_ (Py.enumerate 1 exercises)
               (λ '(idx, ex), print_info (Py.str idx +:+ ". " +:+ ex)))
         s (exercise_lines exercises).
Proof.
  eapply writes_eq; [apply exercise_lines_bind|].
  apply writes_for. intros [idx ex] _. apply writes_print_info.
Qed.

Lemma writes_layout_block s entry :
  writes (layout_block entry) s (block_text s entry).
Proof.
  destruct entry as [group occ_idx]. unfold layout_block, block_text.
  apply (writes_get s (λ s, select_exercises (conn s) (g_id group))).
  destruct (projection group occ_idx) as [reps cycles].
  apply (writes_get s group_display_enabled).
  apply writes_seq.
  { destruct (group_display_enabled s);
      [apply writes_print_info|apply writes_ret]. }
  apply writes_seq; [apply writes_exercises|].
  apply (writes_get s exercise_display_format).
  apply (writes_seq _ _ _ [_] [_]); apply writes_print_info.
Qed.

Lemma writes_layout_date s groups dw :
  writes (layout_date (day_workouts groups) dw) s (section_text s groups dw).
Proof.
  destruct dw as [date_obj day_name]. unfold layout_date, section_text.
  rewrite day_workouts_lookup.
  destruct (slots_on day_name groups) as [|e slots] eqn:E;
    [apply writes_ret|].
  apply (writes_get s date_display_format).
  apply (writes_seq _ _ _ [_]); [apply writes_print_info|].
  apply writes_for. intros x _. apply writes_layout_block.
Qed.

(** The weekly layout prints exactly the text of [spec_weekly_layout]. *)
Lemma _layout_core_run p :
  _layout_core p = (Ret (), emit (spec_weekly_layout (self p) (clock p)) p).
Proof.
  unfold _layout_core, spec_weekly_layout. rewrite bind_get.
  destruct (select_groups (conn (self p))) as [|g groups] eqn:E.
  - apply print_info_emit.
  - rewrite bind_get. apply (writes_for (self p)); [|done].
    intros dw _. apply writes_layout_date.
Qed.

(** ** The store queries *)

Global Instance by_key_trans {A : Type} (key : A → Z) : Transitive (by_key key).
Proof. intros a b c. unfold by_key. lia. Qed.

Global Instance by_key_total {A : Type} (key : A → Z) : Total (by_key key).
Proof. intros a b. unfold by_key. lia. Qed.

Lemma select_groups_sorted db :
  StronglySorted (by_key g_id) (select_groups db).
Proof. apply StronglySorted_merge_sort; apply _. Qed.

Lemma select_groups_perm db : select_groups db ≡ₚ groups db.
Proof. apply merge_sort_Permutation. Qed.

Lemma select_groups_nil db : select_groups db = [] ↔ groups db = [].
Proof.
  split; intros H.
  - apply Permutation_nil_r. by rewrite <- H, select_groups_perm.
  - apply Permutation_nil_r. by rewrite <- H, select_groups_perm.
Qed.

Lemma sorted_strict {A : Type} (key : A → Z) (l : list A) :
  NoDup (key <$> l) → StronglySorted (by_key key) l →
  StronglySorted (λ a b, key a < key b) l.
Proof.
  induction l as [|x l IH]; intros Hnd Hs; [constructor|].
  rewrite fmap_cons, NoDup_cons in Hnd. destruct Hnd as [Hx Hnd].
  apply StronglySorted_cons in Hs as [Hall Hs].
  constructor; [by apply IH|].
  rewrite Forall_forall in Hall |- *. intros y Hy.
  specialize (Hall y Hy). unfold by_key in Hall.
  assert (key x ≠ key y); [|lia].
  intros E. apply Hx. rewrite E. by apply list_elem_of_fmap_2.
Qed.

(** With [id] a primary key, the query lists the groups by strictly
    ascending id. *)
Lemma select_groups_strict db :
  NoDup (g_id <$> groups db) →
  StronglySorted (λ a b, g_id a < g_id b) (select_groups db).
Proof.
  intros Hnd. apply sorted_strict; [|apply select_groups_sorted].
  by rewrite select_groups_perm.
Qed.

Lemma select_exercises_sorted db gid :
  ∃ rows,
    select_exercises db gid = ex_name <$> rows
    ∧ StronglySorted (by_key ex_id) rows
    ∧ rows ≡ₚ filter (λ e, ex_group_id e = gid) (exercises db).
Proof.
  eexists. split; [done|]. split.
  - apply StronglySorted_merge_sort; apply _.
  - apply merge_sort_Permutation.
Qed.

(** ** The order of the blocks *)

Lemma sorted_bind {A B : Type} (R : relation A) (S : relation B)
    (l : list A) (f : A → list B) :
  StronglySorted R l →
  (∀ x, x ∈ l → StronglySorted S (f x)) →
  (∀ x y a b, R x y → a ∈ f x → b ∈ f y → S a b) →
  StronglySorted S (x ← l; f x).
Proof.
  intros Hl Hin Hout. induction Hl as [|x l Hl IH Hx]; [constructor|].
  change (StronglySorted S (f x ++ (y ← l; f y))).
  apply StronglySorted_app_2.
  - intros a b Ha Hb. apply list_elem_of_bind in Hb as (y & Hb & Hy).
    rewrite Forall_forall in Hx. eapply Hout; [by apply Hx| |]; done.
  - apply Hin. by left.
  - apply IH. intros y Hy. apply Hin. by right.
Qed.

Lemma enumerate_sorted {A : Type} (l : list A) start :
  StronglySorted (λ a b, fst a < fst b) (Py.enumerate start l)
  ∧ Forall (λ a, start ≤ fst a) (Py.enumerate start l).
Proof.
  revert start. induction l as [|x l IH]; intros start; simpl.
  - split; constructor.
  - destruct (IH (start + 1)) as [Hs Hb]. split.
    + constructor; [done|]. eapply Forall_impl; [done|]. simpl. lia.
    + constructor; [simpl; lia|]. eapply Forall_impl; [done|]. simpl. lia.
Qed.

Lemma matching_slots_spec day group g k :
  (g, k) ∈ matching_slots day group ↔
  g = group ∧ (k, day) ∈ slot_occurrences group.
Proof.
  unfold matching_slots. rewrite list_elem_of_omap. split.
  - intros [[k' d] [Hin H]]. case_bool_decide; simplify_eq. done.
  - intros [-> Hin]. exists (k, day). split; [done|].
    by rewrite bool_decide_eq_true_2.
Qed.

Lemma matching_slots_sorted day group :
  StronglySorted (λ a b, snd a < snd b) (matching_slots day group).
Proof.
  unfold matching_slots, slot_occurrences.
  pose proof (proj1 (enumerate_sorted (days_list group) 1)) as Hs.
  revert Hs. generalize (Py.enumerate 1 (days_list group)). intros l Hs.
  induction Hs as [|[k d] l Hs IH Hx]; simpl; [constructor|].
  case_bool_decide; [|done].
  constructor; [done|].
  rewrite Forall_forall in Hx. rewrite Forall_forall. intros [g k'] Hin.
  apply list_elem_of_omap in Hin as [[k'' d'] [Hin H']].
  case_bool_decide; simplify_eq. by apply (Hx _ Hin).
Qed.

Lemma sorted_impl_in {A : Type} (R S : relation A) (l : list A) :
  (∀ a b, a ∈ l → b ∈ l → R a b → S a b) →
  StronglySorted R l → StronglySorted S l.
Proof.
  intros H Hs. induction Hs as [|x l Hs IH Hx]; [constructor|].
  constructor.
  - apply IH. intros a b Ha Hb. apply H; by right.
  - rewrite Forall_forall in Hx |- *. intros y Hy.
    apply H; [by left|by right|by apply Hx].
Qed.

Lemma slots_on_sorted day groups :
  StronglySorted (λ a b, g_id a < g_id b) groups →
  StronglySorted slot_lt (slots_on day groups).
Proof.
  intros Hs. unfold slots_on.
  eapply sorted_bind; [done| |].
  - intros g _.
    eapply sorted_impl_in; [|apply matching_slots_sorted].
    intros [g1 k1] [g2 k2] H1 H2 Hlt.
    apply matching_slots_spec in H1 as [-> _].
    apply matching_slots_spec in H2 as [-> _]. by right.
  - intros g1 g2 [ga ka] [gb kb] Hlt Ha Hb.
    apply matching_slots_spec in Ha as [-> _].
    apply matching_slots_spec in Hb as [-> _]. by left.
Qed.

Lemma seqZ_sorted m n : StronglySorted Z.lt (seqZ m n).
Proof.
  destruct (decide (0 ≤ n)) as [Hn|Hn]; [|rewrite seqZ_nil by lia; constructor].
  revert m. pattern n. apply natlike_ind; [| |done].
  - intros m. rewrite seqZ_nil by lia. constructor.
  - intros k Hk IH m. rewrite seqZ_cons by lia.
    replace (Z.pred (Z.succ k)) with k by lia.
    constructor; [apply IH|].
    rewrite Forall_forall. intros y Hy.
    apply list_elem_of_lookup in Hy as [i Hi].
    apply lookup_seqZ in Hi. lia.
Qed.

(** The blocks come by ascending date, then ascending group id, then
    ascending slot position. *)
Lemma layout_entries_sorted s today :
  NoDup (g_id <$> groups (conn s)) →
  StronglySorted entry_lt (layout_entries s today).
Proof.
  intros Hnd. unfold layout_entries.
  eapply sorted_bind; [apply seqZ_sorted| |].
  - intros i _.
    eapply StronglySorted_fmap with (R1 := slot_lt).
    + intros [g1 k1] [g2 k2] H. unfold slot_lt in H. simpl in *. right.
      by split.
    + apply slots_on_sorted, select_groups_strict, Hnd.
  - intros i j [[i1 g1] k1] [[i2 g2] k2] Hij H1 H2.
    apply list_elem_of_fmap in H1 as [[ga ka] [E1 _]].
    apply list_elem_of_fmap in H2 as [[gb kb] [E2 _]].
    simplify_eq. by left.
Qed.

(** ** Day lists as the shell stores them

    [do_add] and [do_edit] write [",".join(days_list)] with every token
    one of the seven weekday names. *)

Ltac valid_day_cases H :=
  unfold valid_days_order in H;
  rewrite !elem_of_cons, elem_of_nil in H;
  destruct H as [->|[->|[->|[->|[->|[->|[->|[]]]]]]]].

Lemma strip_valid d : d ∈ valid_days_order → Py.strip d = d.
Proof. intros H. valid_day_cases H; reflexivity. Qed.

Lemma valid_nonempty d : d ∈ valid_days_order → d ≠ EmptyString.
Proof. intros H. valid_day_cases H; discriminate. Qed.

Lemma split_valid d : d ∈ valid_days_order → Py.split "," d = [d].
Proof. intros H. valid_day_cases H; reflexivity. Qed.

Lemma split_valid_cons d rest :
  d ∈ valid_days_order →
  Py.split "," (d +:+ "," +:+ rest) = d :: Py.split "," rest.
Proof.
  intros H. valid_day_cases H; reflexivity.
Qed.

Lemma join_cons2 sep d d' (l : list string) :
  Py.join sep (d :: d' :: l) = d +:+ sep +:+ Py.join sep (d' :: l).
Proof. done. Qed.

Lemma split_join l :
  Forall (λ d, d ∈ valid_days_order) l → l ≠ [] →
  Py.split "," (Py.join "," l) = l.
Proof.
  induction 1 as [|d l Hd Hl IH]; intros Hne; [done|].
  destruct l as [|d' l].
  - by apply split_valid.
  - rewrite join_cons2, split_valid_cons by done. f_equal. by apply IH.
Qed.

Lemma fmap_strip_valid l :
  Forall (λ d, d ∈ valid_days_order) l → Py.strip <$> l = l.
Proof.
  induction 1 as [|d l Hd Hl IH]; [done|].
  by rewrite fmap_cons, strip_valid, IH.
Qed.

(** The tokens that both parsers of a stored day list start from. *)
Lemma tokens_join l :
  Forall (λ d, d ∈ valid_days_order) l →
  Py.strip <$> Py.split "," (Py.join "," l)
  = match l with [] => [EmptyString] | _ => l end.
Proof.
  intros Hl. destruct l as [|d l]; [done|].
  rewrite split_join by done. by apply fmap_strip_valid.
Qed.

Lemma filter_valid l :
  Forall (λ d, d ∈ valid_days_order) l →
  filter (λ d, d ∈ valid_days_order) l = l.
Proof.
  induction 1 as [|d l Hd Hl IH]; [done|].
  by rewrite filter_cons_True, IH.
Qed.

Lemma filter_nonempty l :
  Forall (λ d, d ∈ valid_days_order) l →
  filter (λ d, d ≠ EmptyString) l = l.
Proof.
  induction 1 as [|d l Hd Hl IH]; [done|].
  rewrite filter_cons_True, IH; [done|by apply valid_nonempty].
Qed.

Lemma days_list_join group l :
  Forall (λ d, d ∈ valid_days_order) l → days group = Py.join "," l →
  days_list group = l.
Proof.
  intros Hl E. unfold days_list. rewrite E, tokens_join by done.
  destruct l; [done|]. by apply filter_valid.
Qed.

Lemma scheduled_days_join group l :
  Forall (λ d, d ∈ valid_days_order) l → days group = Py.join "," l →
  scheduled_days group = l.
Proof.
  intros Hl E. unfold scheduled_days. rewrite E, tokens_join by done.
  destruct l; [done|]. by apply filter_nonempty.
Qed.

(** ** Occurrence indices *)

Lemma enumerate_elem_iff {A : Type} (l : list A) start k x :
  (k, x) ∈ Py.enumerate start l
  ↔ start ≤ k ∧ l !! Z.to_nat (k - start) = Some x.
Proof.
  revert start. induction l as [|y l IH]; intros start; simpl.
  - rewrite elem_of_nil. split; [done|]. by intros [_ ?].
  - rewrite elem_of_cons, IH. split.
    + intros [[= -> ->]|[Hk Hl]].
      * split; [lia|]. by replace (start - start) with 0 by lia.
      * split; [lia|].
        replace (Z.to_nat (k - start)) with (S (Z.to_nat (k - (start + 1))))
          by lia.
        done.
    + intros [Hk Hl]. destruct (decide (k = start)) as [->|Hne].
      * left. replace (start - start) with 0 in Hl by lia.
        simpl in Hl. by simplify_eq.
      * right. split; [lia|].
        replace (Z.to_nat (k - start)) with (S (Z.to_nat (k - (start + 1))))
          in Hl by lia.
        done.
Qed.

(** C1, as the code has it: the occurrence index that the weekly layout
    gives to a slot is the 1-based position of the slot in the group's list
    of day slots, whatever weekdays the earlier slots hold and whatever the
    date: the entries recorded for a weekday are exactly the slots holding
    that weekday, each with its position.  For [Mon, Wed, Mon] the first
    Mon slot has index 1, the Wed slot index 2 and the second Mon slot
    index 3. *)
Theorem occurrence_index_is_slot_position
    (groups : list group_row) (group : group_row) (occ_idx : Z) (day : string) :
  ((group, occ_idx) ∈ default [] (day_workouts groups !! day)
   ↔ group ∈ groups ∧ 1 ≤ occ_idx
     ∧ days_list group !! Z.to_nat (occ_idx - 1) = Some day)
  ∧ (∀ gid name reps cycles more_reps more_cycles,
       slot_occurrences
         (mk_group gid name reps cycles "Mon,Wed,Mon" more_reps more_cycles)
       = [(1, "Mon"); (2, "Wed"); (3, "Mon")]).
Proof.
  split; [|done].
  rewrite day_workouts_lookup. unfold slots_on.
  rewrite list_elem_of_bind. split.
  - intros (g & Hin & Hg). apply matching_slots_spec in Hin as [-> Hin].
    apply enumerate_elem_iff in Hin as [Hk Hl]. by repeat split.
  - intros (Hg & Hk & Hl). exists group. split; [|done].
    apply matching_slots_spec. split; [done|].
    by apply enumerate_elem_iff.
Qed.

(** C1 as stated fails: in [Mon, Wed, Mon] the Wed slot is given
    occurrence 2 and the second Mon slot occurrence 3, where the weekday
    ranks are 1 and 2. *)
Lemma occurrence_rank_counterexample :
  ¬ occurrence_is_weekday_rank group_mon_wed_mon
  ∧ day_workouts [group_mon_wed_mon] !! "Wed" = Some [(group_mon_wed_mon, 2)]
  ∧ day_workouts [group_mon_wed_mon] !! "Mon"
    = Some [(group_mon_wed_mon, 1); (group_mon_wed_mon, 3)]
  ∧ spec_occurrence_index (days_list group_mon_wed_mon) 1 = 1
  ∧ spec_occurrence_index (days_list group_mon_wed_mon) 2 = 2.
Proof.
  split; [|by vm_compute].
  intros H. specialize (H 1%nat 2 "Wed" eq_refl). vm_compute in H.
  discriminate.
Qed.

(** ** Overload projection *)

(** C2: for non-negative base values and increments and every occurrence
    index [k >= 1] the projection used by the layout and by the log is
    exactly [(base_reps + add_reps * k, base_cycles + add_cycles * k)]; it
    is printed unclamped, is non-decreasing in [k], and with a positive
    increment exceeds every bound. *)
Theorem projection_exact_and_monotone (group : group_row) (k k' : Z) :
  0 ≤ reps_per_cycle group → 0 ≤ cycles_per_circuit group →
  0 ≤ add_reps group → 0 ≤ add_cycles group →
  1 ≤ k → k ≤ k' →
  projection group k
  = (reps_per_cycle group + add_reps group * k,
     cycles_per_circuit group + add_cycles group * k)
  ∧ fst (projection group k) ≤ fst (projection group k')
  ∧ snd (projection group k) ≤ snd (projection group k')
  ∧ (0 < add_reps group →
     ∀ bound, ∃ j, 1 ≤ j ∧ bound < fst (projection group j))
  ∧ (0 < add_cycles group →
     ∀ bound, ∃ j, 1 ≤ j ∧ bound < snd (projection group j))
  ∧ (∀ p, layout_block (group, k) p
          = (Ret (),
             emit ((if group_display_enabled (self p)
                    then [g_name group +:+ nl] else [])
                   ++ exercise_lines
                        (select_exercises (conn (self p)) (g_id group))
                   ++ [exercise_format
                         (reps_per_cycle group + add_reps group * k)
                         (cycles_per_circuit group + add_cycles group * k)
                         (exercise_display_format (self p)) +:+ nl;
                       nl]) p))
  ∧ (∀ exercises,
       let '(reps, cycles) := projection group k in
       log_section group exercises reps cycles
       = [nl +:+ g_name group +:+ ":"]
         ++ ((λ '(idx, ex), Py.str idx +:+ ". " +:+ ex)
               <$> Py.enumerate 1 exercises)
         ++ [Py.str (reps_per_cycle group + add_reps group * k) +:+ " reps";
             Py.str (cycles_per_circuit group + add_cycles group * k)
             +:+ " cycles"]).
Proof.
  intros Hr Hc Har Hac Hk Hkk'.
  split; [done|]. split; [unfold projection; simpl; nia|].
  split; [unfold projection; simpl; nia|].
  split; [|split; [|split]].
  - intros Hpos bound. exists (Z.max 1 (bound + 1)). split; [lia|].
    unfold projection; simpl. nia.
  - intros Hpos bound. exists (Z.max 1 (bound + 1)). split; [lia|].
    unfold projection; simpl. nia.
  - intros p. by rewrite (writes_layout_block (self p) (group, k) p eq_refl).
  - done.
Qed.

(** [k = 2], [k' = 5] for the group of the specification's scenario. *)
Lemma projection_exact_and_monotone_witness :
  projection (mk_group 1 "Leg Day" 10 3 "Mon,Thu" 2 0) 2 = (14, 3)
  ∧ fst (projection (mk_group 1 "Leg Day" 10 3 "Mon,Thu" 2 0) 2)
    ≤ fst (projection (mk_group 1 "Leg Day" 10 3 "Mon,Thu" 2 0) 5).
Proof.
  pose proof (projection_exact_and_monotone
                (mk_group 1 "Leg Day" 10 3 "Mon,Thu" 2 0) 2 5) as H.
  simpl in H.
  destruct H as (H1 & H2 & _); [lia|lia|lia|lia|lia|lia|].
  split; [exact H1|exact H2].
Defined.

(** ** Format fallback *)

(** C6: a format code outside 1..4 renders like code 1, for the
    reps/cycles line and for the date header alike; codes 1 to 4 render
    the four documented shapes. *)
Theorem format_fallback (fmt r c : Z) (d : Date.date) (day_name : string) :
  fmt ∉ [1; 2; 3; 4] →
  exercise_format r c fmt = exercise_format r c 1
  ∧ day_display fmt d day_name = day_display 1 d day_name
  ∧ exercise_format r c 1
    = Py.str r +:+ " reps each per cycle" +:+ nl
      +:+ Py.str c +:+ " cycles in circuit"
  ∧ exercise_format r c 2 = Py.str r +:+ " reps" +:+ nl +:+ Py.str c +:+ " cycles"
  ∧ exercise_format r c 3 = Py.str r +:+ " reps | " +:+ Py.str c +:+ " cycles"
  ∧ exercise_format r c 4 = Py.str r +:+ "r " +:+ Py.str c +:+ "c".
Proof.
  intros Hfmt. rewrite !elem_of_cons, elem_of_nil in Hfmt.
  unfold exercise_format, day_display.
  destruct (fmt =? 1) eqn:E1; [lia|].
  destruct (fmt =? 2) eqn:E2; [lia|].
  destruct (fmt =? 3) eqn:E3; [lia|].
  destruct (fmt =? 4) eqn:E4; [lia|].
  done.
Qed.

(** Code 7, with the values of the specification's scenarios. *)
Lemma format_fallback_witness :
  exercise_format 16 6 7 = exercise_format 16 6 1
  ∧ day_display 7 (Date.mk_date 2025 1 6) "Mon" = "Mon"
  ∧ exercise_format 16 6 4 = "16r 6c"
  ∧ day_display 3 (Date.mk_date 2025 1 6) "Mon" = "1/6"
  ∧ day_display 4 (Date.mk_date 2025 1 6) "Mon" = "1/6/25".
Proof.
  destruct (format_fallback 7 16 6 (Date.mk_date 2025 1 6) "Mon")
    as (H1 & H2 & _).
  { rewrite !elem_of_cons, elem_of_nil. lia. }
  split; [exact H1|]. split; [exact H2|]. by vm_compute.
Defined.

(** ** Unscheduled groups *)

Lemma sorted_filter {A : Type} (R : relation A) (P : A → Prop)
    `{∀ x, Decision (P x)} (l : list A) :
  StronglySorted R l → StronglySorted R (filter P l).
Proof.
  induction 1 as [|x l Hs IH Hx]; [constructor|].
  rewrite filter_cons. case_decide; [|done].
  constructor; [done|].
  rewrite Forall_forall in Hx. rewrite Forall_forall. intros y Hy.
  apply list_elem_of_filter in Hy as [_ Hy]. by apply Hx.
Qed.

Lemma key_inj_on {A : Type} (key : A → Z) (l : list A) x y :
  NoDup (key <$> l) → x ∈ l → y ∈ l → key x = key y → x = y.
Proof.
  intros Hnd Hx Hy E.
  apply list_elem_of_lookup in Hx as [i Hi].
  apply list_elem_of_lookup in Hy as [j Hj].
  assert (i = j); [|by simplify_eq].
  eapply NoDup_lookup; [done| |].
  - by rewrite list_lookup_fmap, Hi.
  - by rewrite list_lookup_fmap, Hj, E.
Qed.

(** Deleting a row and querying is querying and dropping the row. *)
Lemma select_groups_delete db gid :
  NoDup (g_id <$> groups db) →
  select_groups (delete_group gid db)
  = filter (λ g, g_id g ≠ gid) (select_groups db).
Proof.
  intros Hnd. apply (StronglySorted_unique_strong (by_key g_id)).
  - intros x1 x2 H1 H2 H12 H21. unfold by_key in *.
    apply (key_inj_on g_id (groups db)); [done| | |lia].
    + rewrite select_groups_perm in H1. simpl in H1.
      by apply list_elem_of_filter in H1 as [_ ?].
    + apply list_elem_of_filter in H2 as [_ H2].
      by rewrite select_groups_perm in H2.
  - apply select_groups_sorted.
  - apply sorted_filter, select_groups_sorted.
  - rewrite select_groups_perm. simpl. by rewrite select_groups_perm.
Qed.

Lemma select_exercises_delete db gid gid' :
  gid' ≠ gid →
  select_exercises (delete_group gid db) gid' = select_exercises db gid'.
Proof.
  intros Hne. unfold select_exercises. simpl. do 2 f_equal.
  induction (exercises db) as [|e l IH]; [done|].
  rewrite !filter_cons. repeat case_decide; try congruence; rewrite ?filter_cons;
    repeat case_decide; try congruence; by rewrite IH.
Qed.

Lemma matching_slots_unscheduled day group :
  days_list group = [] → matching_slots day group = [].
Proof. intros E. unfold matching_slots, slot_occurrences. by rewrite E. Qed.

Lemma slots_on_filter day groups gid :
  (∀ g, g ∈ groups → g_id g = gid → days_list g = []) →
  slots_on day (filter (λ g, g_id g ≠ gid) groups) = slots_on day groups.
Proof.
  induction groups as [|g groups IH]; intros H; [done|].
  rewrite filter_cons, !slots_on_cons.
  rewrite <- IH by (intros; apply H; [by right|done]).
  case_decide as E; [by rewrite slots_on_cons|].
  rewrite matching_slots_unscheduled; [done|].
  apply H; [by left|]. by destruct (decide (g_id g = gid)).
Qed.

Lemma slots_on_elem day groups g k :
  (g, k) ∈ slots_on day groups → g ∈ groups ∧ (k, day) ∈ slot_occurrences g.
Proof.
  unfold slots_on. rewrite list_elem_of_bind.
  intros (g' & Hin & Hg'). by apply matching_slots_spec in Hin as [-> ?].
Qed.

Lemma bind_ext_in {A B : Type} (f g : A → list B) (l : list A) :
  (∀ x, x ∈ l → f x = g x) → (x ← l; f x) = (x ← l; g x).
Proof.
  induction l as [|x l IH]; intros H; [done|].
  change (f x ++ (y ← l; f y) = g x ++ (y ← l; g y)).
  rewrite H by (by left). f_equal. apply IH. intros y Hy. apply H. by right.
Qed.

Lemma block_text_delete s gid entry :
  g_id (fst entry) ≠ gid →
  block_text (set_conn (delete_group gid (conn s)) s) entry
  = block_text s entry.
Proof.
  destruct entry as [g k]. intros Hne. unfold block_text. simpl.
  by rewrite select_exercises_delete.
Qed.

(** C7: a group whose list of day slots is empty has no entry under any
    weekday, and the weekly layout prints what it prints for the store
    without that group; a date on which no slot matches prints nothing at
    all, neither header nor blank line. *)
Theorem unscheduled_group_absent (p : process) (group : group_row) :
  NoDup (g_id <$> groups (conn (self p))) →
  group ∈ groups (conn (self p)) →
  days_list group = [] →
  (∀ day occ_idx,
     (group, occ_idx)
       ∉ default [] (day_workouts (select_groups (conn (self p))) !! day))
  ∧ (∀ q, self q = set_conn (delete_group (g_id group) (conn (self p))) (self p) →
          clock q = clock p →
          groups (conn (self q)) ≠ [] →
          ∃ text, _layout_core p = (Ret (), emit text p)
                  ∧ _layout_core q = (Ret (), emit text q))
  ∧ (∀ groups date_obj day_name,
       slots_on day_name groups = [] →
       layout_date (day_workouts groups) (date_obj, day_name) p = (Ret (), p)).
Proof.
  intros Hnd Hin Hdays. split; [|split].
  - intros day k. rewrite day_workouts_lookup. intros H.
    apply slots_on_elem in H as [_ H]. unfold slot_occurrences in H.
    rewrite Hdays in H. by apply elem_of_nil in H.
  - intros q Hq Hclock Hne. exists (spec_weekly_layout (self p) (clock p)).
    split; [apply _layout_core_run|].
    rewrite _layout_core_run. do 2 f_equal.
    rewrite Hclock. unfold spec_weekly_layout.
    assert (Hsel : select_groups (conn (self q))
                   = filter (λ g, g_id g ≠ g_id group)
                            (select_groups (conn (self p)))).
    { rewrite Hq. simpl. by apply select_groups_delete. }
    assert (Hq_ne : select_groups (conn (self q)) ≠ []).
    { by rewrite select_groups_nil. }
    assert (Hp_ne : select_groups (conn (self p)) ≠ []).
    { rewrite select_groups_nil. intros E. rewrite E in Hin.
      by apply elem_of_nil in Hin. }
    destruct (select_groups (conn (self q))) as [|g1 gs1] eqn:Eq; [done|].
    destruct (select_groups (conn (self p))) as [|g2 gs2] eqn:Ep; [done|].
    apply bind_ext_in. intros [date_obj day_name] _.
    unfold section_text. rewrite Hsel, slots_on_filter.
    + destruct (slots_on day_name (g2 :: gs2)) as [|e slots] eqn:Es; [done|].
      rewrite Hq. apply (f_equal2 cons); [done|].
      apply bind_ext_in. intros [g k] Hg.
      apply block_text_delete. simpl. intros E.
      rewrite <- Es in Hg. apply slots_on_elem in Hg as [Hg Hk].
      assert (g = group).
      { apply (key_inj_on g_id (groups (conn (self p)))); [done| |done|done].
        by rewrite <- select_groups_perm, Ep. }
      subst g. unfold slot_occurrences in Hk. rewrite Hdays in Hk.
      by apply elem_of_nil in Hk.
    + intros g Hg E.
      assert (g = group); [|by subst].
      apply (key_inj_on g_id (groups (conn (self p)))); [done| |done|done].
      by rewrite <- select_groups_perm, Ep.
  - intros gs date_obj day_name Hs.
    rewrite (writes_layout_date (self p) gs (date_obj, day_name) p eq_refl).
    unfold section_text. by rewrite Hs, emit_nil.
Qed.

(** ** Determinism and order of the weekly layout *)

Lemma spec_weekly_layout_by_offset s today :
  spec_weekly_layout s today
  = match select_groups (conn s) with
    | [] => ["No workout groups available." +:+ nl]
    | groups =>
        i ← seqZ 0 7;
        section_text s groups (Date.add_days today i,
                               Date.strftime_a (Date.add_days today i))
    end.
Proof. done. Qed.

(** C8: the weekly layout is a function of the store, of today and of the
    display settings: two runs on processes that agree on these print the
    same text, and a second run prints it again.  The text is that of
    [spec_weekly_layout]: the dates today+0 .. today+6 in this order, on
    each date the groups by ascending id, in a group the matching slots by
    position, in a block the exercises by ascending id. *)
Theorem weekly_layout_deterministic (p1 p2 : process) :
  self p1 = self p2 → clock p1 = clock p2 →
  NoDup (g_id <$> groups (conn (self p1))) →
  _layout_core p1
  = (Ret (), emit (spec_weekly_layout (self p1) (clock p1)) p1)
  ∧ _layout_core p2
    = (Ret (), emit (spec_weekly_layout (self p1) (clock p1)) p2)
  ∧ _layout_core (snd (_layout_core p1))
    = (Ret (), emit (spec_weekly_layout (self p1) (clock p1)
                     ++ spec_weekly_layout (self p1) (clock p1)) p1)
  ∧ spec_weekly_layout (self p1) (clock p1)
    = match select_groups (conn (self p1)) with
      | [] => ["No workout groups available." +:+ nl]
      | groups =>
          i ← seqZ 0 7;
          section_text (self p1) groups
            (Date.add_days (clock p1) i,
             Date.strftime_a (Date.add_days (clock p1) i))
      end
  ∧ StronglySorted entry_lt (layout_entries (self p1) (clock p1))
  ∧ (∀ gid, ∃ rows,
       select_exercises (conn (self p1)) gid = ex_name <$> rows
       ∧ StronglySorted (by_key ex_id) rows
       ∧ rows ≡ₚ filter (λ e, ex_group_id e = gid)
                        (exercises (conn (self p1)))).
Proof.
  intros Hself Hclock Hnd.
  split; [apply _layout_core_run|].
  split; [rewrite Hself, Hclock; apply _layout_core_run|].
  split.
  { rewrite (_layout_core_run p1). cbn [snd].
    by rewrite _layout_core_run, self_emit, clock_emit, <- emit_app. }
  split; [apply spec_weekly_layout_by_offset|].
  split; [by apply layout_entries_sorted|].
  intros gid. apply select_exercises_sorted.
Qed.

(** ** Export *)

Lemma getvalue_cons (chunk : string) (buf : list string) :
  getvalue (chunk :: buf) = chunk +:+ getvalue buf.
Proof.
  unfold getvalue. destruct buf as [|c buf]; simpl; [|done].
  by rewrite append_nil_r.
Qed.

Section LayoutExport.

Variable do_layout__doc__ : string.

Lemma do_layout_body_empty (f : string → M unit) :
  do_layout_body do_layout__doc__ f EmptyString = _layout_core.
Proof. done. Qed.

(** C9: [layout export] writes, to the file named
    [circuit_schedule[YYYY-MM-DD].txt] after the current date, the banner
    followed by exactly the text that the weekly layout prints under the
    current settings. *)
Theorem export_is_banner_then_layout (p : process) :
  print_info_global p = module_print_info →
  unwritable p
    !! ("circuit_schedule[" +:+ Date.strftime_Ymd (clock p) +:+ "].txt")
  = None →
  ∃ text p',
    _layout_core p = (Ret (), set_stdout (stdout p ++ text) p)
    ∧ do_layout do_layout__doc__ "export" p = (Ret (), p')
    ∧ files p'
      = <["circuit_schedule[" +:+ Date.strftime_Ymd (clock p) +:+ "].txt"
          := header +:+ getvalue text]> (files p)
    ∧ stdout p'
      = stdout p
        ++ [("Exported workout schedule to "
             +:+ "circuit_schedule[" +:+ Date.strftime_Ymd (clock p)
             +:+ "].txt") +:+ nl]
    ∧ self p' = self p
    ∧ print_info_global p' = module_print_info.
Proof.
  intros Hbind Hw.
  exists (spec_weekly_layout (self p) (clock p)).
  destruct p as [s out inp fs unw today b buf]. simpl in *. subst b.
  eexists. split.
  { by rewrite _layout_core_run. }
  unfold do_layout.
  change (do_layout_body do_layout__doc__ _ "export")
    with (layout_export
            (do_layout_body do_layout__doc__ (λ _ : string, mret ()))).
  unfold layout_export.
  unfold mbind, M_bind, modify, get, try_finally, try_except. simpl.
  rewrite do_layout_body_empty, _layout_core_run. simpl.
  unfold write_file. simpl. rewrite Hw. simpl.
  split; [reflexivity|]. unfold emit. simpl.
  by rewrite getvalue_cons.
Qed.

End LayoutExport.

(** ** The single-group lookup *)

Lemma writes_layout_index s idx group :
  1 ≤ idx →
  select_groups (conn s) !! Z.to_nat (idx - 1) = Some group →
  writes (layout_index idx) s (layout_index_text s idx group).
Proof.
  intros Hidx Hlook. unfold layout_index, layout_index_text.
  apply (writes_get s (λ s, select_groups (conn s))).
  pose proof (lookup_lt_Some _ _ _ Hlook) as Hlen.
  destruct (select_groups (conn s)) as [|g gs] eqn:E; [simpl in Hlen; lia|].
  rewrite <- E in *. clear E.
  assert (Hin : (idx <? 1) || (Z.of_nat (length (select_groups (conn s))) <? idx)
                = false).
  { apply orb_false_iff. split; [lia|]. apply Z.ltb_ge. lia. }
  rewrite Hin, Hlook.
  apply (writes_get s (λ s, select_exercises (conn s) (g_id group))).
  unfold projection.
  destruct (scheduled_days group) as [|d ds]; cbv beta iota;
    (apply (writes_seq _ _ _ [_]); [apply writes_print_info|];
     apply writes_seq; [apply writes_exercises|];
     apply (writes_get s exercise_display_format);
     apply writes_print_info).
Qed.

Lemma prefix_cons a s1 b s2 :
  String.prefix (String a s1) (String b s2)
  = if ascii_dec a b then String.prefix s1 s2 else false.
Proof. done. Qed.

Lemma index_prefix_first (a : string) :
  Py.startswith (Py.lower a) "index " = true →
  ∃ c a', a = String c a' ∧ Py.lower_char c = "i"%char.
Proof.
  destruct a as [|c a']; [discriminate|]. intros H. exists c, a'.
  split; [done|]. unfold Py.startswith in H.
  change (Py.lower (String c a'))
    with (String (Py.lower_char c) (Py.lower a')) in H.
  rewrite prefix_cons in H.
  by destruct (ascii_dec "i" (Py.lower_char c)).
Qed.

Section Lookup.

Variable do_layout__doc__ : string.

(** C10: whenever the argument of [layout] reads [index NUM], the lookup
    prints the group at that index with the overload applied once
    (occurrence index fixed at 1) if the group has any day slot, and
    with the base values if it has none; neither the weekdays listed,
    nor their number, nor the date enter the result. *)
Theorem layout_index_fixed_occurrence
    (p : process) (arg word num : string) (idx : Z) (group : group_row) :
  Py.startswith (Py.lower (Py.strip arg)) "index " = true →
  Py.split_ws (Py.strip arg) = [word; num] →
  Py.isdigit num = true →
  Py.int num = Some idx →
  1 ≤ idx →
  select_groups (conn (self p)) !! Z.to_nat (idx - 1) = Some group →
  do_layout do_layout__doc__ arg p
  = (Ret (),
     emit ([(Py.str idx +:+ ". " +:+ g_name group) +:+ nl]
           ++ exercise_lines (select_exercises (conn (self p)) (g_id group))
           ++ [exercise_format
                 (match scheduled_days group with
                  | [] => reps_per_cycle group
                  | _ => reps_per_cycle group + add_reps group * 1
                  end)
                 (match scheduled_days group with
                  | [] => cycles_per_circuit group
                  | _ => cycles_per_circuit group + add_cycles group * 1
                  end)
                 (exercise_display_format (self p)) +:+ nl]) p)
    ∧ (∀ l, Forall (λ d, d ∈ valid_days_order) l →
            days group = Py.join "," l → scheduled_days group = l).
Proof.
  intros Hpre Hparts Hdigit Hint Hidx Hlook.
  split; [|intros l Hl E; by apply scheduled_days_join].
  unfold do_layout, do_layout_body.
  destruct (index_prefix_first _ Hpre) as (c & a' & Ea & Hc).
  set (a := Py.strip arg) in *.
  rewrite bool_decide_eq_false_2
    by (intros E; rewrite E in Hpre; discriminate).
  rewrite bool_decide_eq_false_2
    by (intros E; rewrite E in Hpre; discriminate).
  assert (Hset : Py.startswith a "set " = false).
  { rewrite Ea. unfold Py.startswith. rewrite prefix_cons.
    destruct (ascii_dec "s" c) as [<-|]; [discriminate|done]. }
  rewrite Hset.
  rewrite bool_decide_eq_false_2
    by (intros E; rewrite E in Hpre; discriminate).
  rewrite Hpre, Hparts. simpl. rewrite Hdigit, Hint. simpl.
  unfold mbind, M_bind. simpl.
  rewrite (writes_layout_index (self p) idx group Hidx Hlook p eq_refl).
  unfold layout_index_text. by destruct (scheduled_days group).
Qed.

End Lookup.

(** ** The log *)

Lemma log_block_fold db day groups lines any :
  (∀ group, group ∈ groups →
            day ∈ Py.strip <$> Py.split "," (days group) →
            select_exercises db (g_id group) = []) →
  foldl (log_group db day) (lines, any) groups = (lines, any).
Proof.
  induction groups as [|g groups IH]; intros H; [done|].
  cbn [foldl]. unfold log_group at 2.
  case_bool_decide as Hday.
  - rewrite (H g) by (by left || done).
    destruct (projection g _). apply IH. intros g' Hg'. apply H. by right.
  - apply IH. intros g' Hg'. apply H. by right.
Qed.

Lemma log_block_nothing db log_date :
  nothing_scheduled db (Date.strftime_a log_date) →
  log_block db log_date = ([log_header log_date], false).
Proof.
  intros H. unfold log_block. apply log_block_fold.
  intros g Hg. apply H. by rewrite <- select_groups_perm.
Qed.

(** What [log add] does once the date is known, on a store with groups. *)
Lemma log_add_date_run log_date p :
  print_info_global p = module_print_info →
  select_groups (conn (self p)) ≠ [] →
  log_add_date log_date p
  = match log_block (conn (self p)) log_date with
    | (log_lines, true) =>
        match unwritable p !! LOG_FILENAME with
        | None =>
            (Ret (),
             set_stdout
               (stdout p
                ++ [("Workout layout for " +:+ Date.strftime_mdy log_date
                     +:+ " added to log.") +:+ nl])
               (set_files
                  (<[LOG_FILENAME :=
                       default EmptyString (files p !! LOG_FILENAME)
                       +:+ (Py.join nl (log_lines ++ [Py.repeat_char "-" 40])
                            +:+ nl)]> (files p)) p))
        | Some msg =>
            (Ret (),
             set_stdout
               (stdout p
                ++ [("ERROR: " +:+ "Failed to write to log: " +:+ msg) +:+ nl])
               p)
        end
    | (_, false) =>
        (Ret (),
         set_stdout
           (stdout p
            ++ [("No workouts scheduled for " +:+ Date.strftime_A log_date
                 +:+ " (" +:+ Date.strftime_a log_date +:+ "), nothing added.")
                +:+ nl]) p)
    end.
Proof.
  intros Hb Hne. unfold log_add_date.
  rewrite bool_decide_eq_true_2 by apply strftime_a_valid.
  rewrite bind_get.
  destruct (select_groups (conn (self p))) as [|g gs] eqn:E; [done|].
  rewrite bind_get.
  destruct (log_block (conn (self p)) log_date) as [log_lines [|]].
  - unfold try_except, append_file, mbind, M_bind.
    destruct (unwritable p !! LOG_FILENAME) as [msg|] eqn:Ew.
    + cbn [is_Exception exn_str]. unfold print_error, print, modify.
      do 2 f_equal.
    + unfold print_info, get, mbind, M_bind. cbn. rewrite Hb. done.
  - unfold print_info, get, mbind, M_bind. rewrite Hb. done.
Qed.

(** C4: when no group is scheduled on the target date with at least one
    exercise, [log add] writes nothing to any file, and only reports
    through [print_info]: "No workouts scheduled ..., nothing added.", or
    "No workout groups available." when the store holds no group at all.
    The console receives the date prompt and that one line, which does
    not carry the "ERROR: " mark of [print_error]. *)
Theorem log_nothing_scheduled
    (p : process) (line : string) (rest : list key_input)
    (log_date : Date.date) :
  stdin p = Line line :: rest →
  (if bool_decide (Py.strip line = EmptyString) then log_date = clock p
   else Date.strptime_Ymd (Py.strip line) = Some log_date) →
  print_info_global p = module_print_info →
  nothing_scheduled (conn (self p)) (Date.strftime_a log_date) →
  do_log "add" p
  = (Ret (),
     set_stdout
       (stdout p
        ++ ["Enter date to log (YYYY-MM-DD) [default: today]: ";
            (if bool_decide (groups (conn (self p)) = [])
             then "No workout groups available."
             else "No workouts scheduled for " +:+ Date.strftime_A log_date
                  +:+ " (" +:+ Date.strftime_a log_date
                  +:+ "), nothing added.") +:+ nl])
       (set_stdin rest p))
  ∧ files (snd (do_log "add" p)) = files p
  ∧ Py.startswith
      (if bool_decide (groups (conn (self p)) = [])
       then "No workout groups available."
       else "No workouts scheduled for " +:+ Date.strftime_A log_date
            +:+ " (" +:+ Date.strftime_a log_date +:+ "), nothing added.")
      "ERROR: " = false
  ∧ fst (log_block (conn (self p)) log_date) = [log_header log_date]
  ∧ snd (log_block (conn (self p)) log_date) = false.
Proof.
  intros Hin Hdate Hb Hnone.
  assert (Hrun : do_log "add" p
    = (Ret (),
       set_stdout
         (stdout p
          ++ ["Enter date to log (YYYY-MM-DD) [default: today]: ";
              (if bool_decide (groups (conn (self p)) = [])
               then "No workout groups available."
               else "No workouts scheduled for " +:+ Date.strftime_A log_date
                    +:+ " (" +:+ Date.strftime_a log_date
                    +:+ "), nothing added.") +:+ nl])
         (set_stdin rest p))).
  { change (do_log "add") with log_add. unfold log_add.
    set (p1 := set_stdin rest
                 (set_stdout
                    (stdout p
                     ++ ["Enter date to log (YYYY-MM-DD) [default: today]: "])
                    p)).
    assert (Hinput : input "Enter date to log (YYYY-MM-DD) [default: today]: " p
                     = (Ret line, p1)).
    { unfold input. simpl. by rewrite Hin. }
    rewrite (bind_ret _ _ _ _ _ Hinput).
    assert (Hlog : log_add_date log_date p1
      = (Ret (),
         set_stdout
           (stdout p1
            ++ [(if bool_decide (groups (conn (self p)) = [])
                 then "No workout groups available."
                 else "No workouts scheduled for "
                      +:+ Date.strftime_A log_date
                      +:+ " (" +:+ Date.strftime_a log_date
                      +:+ "), nothing added.") +:+ nl]) p1)).
    { destruct (decide (groups (conn (self p)) = [])) as [Hg|Hg];
        [rewrite (bool_decide_eq_true_2 _ Hg)
        |rewrite (bool_decide_eq_false_2 _ Hg)].
      - unfold log_add_date.
        rewrite bool_decide_eq_true_2 by apply strftime_a_valid.
        rewrite bind_get.
        replace (select_groups (conn (self p1))) with (@nil group_row)
          by (symmetry; apply select_groups_nil; exact Hg).
        rewrite print_info_emit. unfold emit.
        replace (print_info_global p1) with module_print_info by done.
        done.
      - rewrite log_add_date_run;
          [|done|rewrite select_groups_nil; exact Hg].
        replace (conn (self p1)) with (conn (self p)) by done.
        by rewrite log_block_nothing. }
    assert (Hend : set_stdout
         (stdout p1
          ++ [(if bool_decide (groups (conn (self p)) = [])
               then "No workout groups available."
               else "No workouts scheduled for "
                    +:+ Date.strftime_A log_date
                    +:+ " (" +:+ Date.strftime_a log_date
                    +:+ "), nothing added.") +:+ nl]) p1
       = set_stdout
         (stdout p
          ++ ["Enter date to log (YYYY-MM-DD) [default: today]: ";
              (if bool_decide (groups (conn (self p)) = [])
               then "No workout groups available."
               else "No workouts scheduled for " +:+ Date.strftime_A log_date
                    +:+ " (" +:+ Date.strftime_a log_date
                    +:+ "), nothing added.") +:+ nl])
         (set_stdin rest p)).
    { unfold p1, set_stdout, set_stdin. simpl. by rewrite <- app_assoc. }
    destruct (decide (Py.strip line = EmptyString)) as [Hline|Hline].
    - rewrite (bool_decide_eq_true_2 _ Hline) in Hdate.
      rewrite (bool_decide_eq_true_2 _ Hline).
      rewrite bind_get. replace (clock p1) with log_date by done.
      by rewrite Hlog, Hend.
    - rewrite (bool_decide_eq_false_2 _ Hline) in Hdate.
      rewrite (bool_decide_eq_false_2 _ Hline).
      rewrite Hdate. by rewrite Hlog, Hend. }
  split; [exact Hrun|]. split; [by rewrite Hrun|].
  split; [by destruct (bool_decide (groups (conn (self p)) = []))|].
  by rewrite log_block_nothing.
Qed.

(** ** The log and the layout slots *)

Lemma first_match_head (group : group_row) (l : list string) start day :
  match omap (λ '(occ_idx, d),
                if bool_decide (d = day) then Some (group, occ_idx) else None)
             (Py.enumerate start l) with
  | [] => (day ∉ l) ∧ first_match (Py.enumerate start l) day 0 = 0
  | (_, k) :: _ =>
      day ∈ l ∧ first_match (Py.enumerate start l) day 0 = k ∧ start ≤ k
  end.
Proof.
  revert start. induction l as [|d l IH]; intros start.
  - split; [apply not_elem_of_nil|done].
  - cbn [Py.enumerate omap list_omap first_match].
    destruct (decide (d = day)) as [->|E].
    + rewrite !bool_decide_eq_true_2 by done.
      split; [by left|]. split; [done|lia].
    + rewrite !bool_decide_eq_false_2 by done.
      specialize (IH (start + 1)).
      destruct (omap _ (Py.enumerate (start + 1) l)) as [|[g k] rest].
      * destruct IH as [Hnot Hfm]. split; [|done].
        rewrite not_elem_of_cons. split; [congruence|done].
      * destruct IH as (Hin & Hfm & Hk). split; [by right|].
        split; [done|lia].
Qed.

(** On a stored day list the log's test and index agree with the first
    matching slot of the layout. *)
Lemma log_group_stored db day group lines any :
  day ∈ valid_days_order → stored_days group →
  log_group db day (lines, any) group
  = match matching_slots day group with
    | [] => (lines, any)
    | (_, occ_idx) :: _ =>
        match select_exercises db (g_id group) with
        | [] => (lines, any)
        | exercises =>
            let '(reps, cycles) := projection group occ_idx in
            (lines ++ log_section group exercises reps cycles, true)
        end
    end.
Proof.
  intros Hday (l & Hl & E). unfold log_group, get_occurrence_index.
  change (filter (λ d, d ≠ EmptyString) (Py.strip <$> Py.split "," (days group)))
    with (scheduled_days group).
  rewrite (scheduled_days_join group l Hl E).
  rewrite E, (tokens_join l Hl).
  unfold matching_slots, slot_occurrences.
  rewrite (days_list_join group l Hl E).
  pose proof (first_match_head group l 1 day) as H.
  destruct (omap _ (Py.enumerate 1 l)) as [|[g k] rest].
  - destruct H as [Hnot _]. rewrite bool_decide_eq_false_2; [done|].
    destruct l; [|done].
    rewrite list_elem_of_singleton. intros ->.
    by apply valid_nonempty in Hday.
  - destruct H as (Hin & Hfm & Hk).
    rewrite bool_decide_eq_true_2 by (by destruct l; [apply elem_of_nil in Hin|]).
    rewrite Hfm. replace (0 <? k) with true by (symmetry; apply Z.ltb_lt; lia).
    destruct (projection group k). by destruct (select_exercises db _).
Qed.

Lemma first_slot_log_sections_cons db day g groups :
  first_slot_log_sections db day (g :: groups)
  = first_slot_log_sections db day [g]
    ++ first_slot_log_sections db day groups.
Proof.
  unfold first_slot_log_sections.
  change (g :: groups) with ([g] ++ groups). by rewrite bind_app.
Qed.

Lemma log_block_fold_stored db day groups lines any :
  day ∈ valid_days_order →
  (∀ group, group ∈ groups → stored_days group) →
  ∃ any',
    foldl (log_group db day) (lines, any) groups
    = (lines ++ first_slot_log_sections db day groups, any')
    ∧ (any' = true ↔ any = true ∨ first_slot_log_sections db day groups ≠ []).
Proof.
  intros Hday. revert lines any.
  induction groups as [|g groups IH]; intros lines any Hst.
  - exists any. simpl. rewrite app_nil_r. split; [done|].
    split; [by left|]. by intros [H|H].
  - cbn [foldl]. rewrite log_group_stored; [|done|apply Hst; by left].
    rewrite first_slot_log_sections_cons.
    unfold first_slot_log_sections at 1 3. cbn [mbind list_bind].
    destruct (matching_slots day g) as [|[g' k] rest].
    + destruct (IH lines any) as (any' & Hf & Hany);
        [intros; apply Hst; by right|].
      exists any'. rewrite Hf. simpl. split; [done|exact Hany].
    + destruct (select_exercises db (g_id g)) as [|e es] eqn:Ee.
      * destruct (IH lines any) as (any' & Hf & Hany);
          [intros; apply Hst; by right|].
        exists any'. rewrite Hf. simpl. split; [done|exact Hany].
      * destruct (projection g k) as [reps cycles] eqn:Ep.
        destruct (IH (lines ++ log_section g (e :: es) reps cycles) true)
          as (any' & Hf & Hany); [intros; apply Hst; by right|].
        exists any'. rewrite Hf, app_nil_r, <- app_assoc.
        split; [done|]. split; [intros _; right; done|].
        intros _. apply Hany. by left.
Qed.

(** C5, as the code has it: on a store whose day lists are as the shell
    writes them, the log block holds one section per group that is
    scheduled on the target weekday and has exercises (not one per slot);
    its occurrence index, and with it the projected reps and cycles, is the
    one that the weekly layout gives to the first of the group's matching
    slots.  The block is what [log add] appends to the log file. *)
Theorem log_uses_first_matching_slot (p : process) (log_date : Date.date) :
  (∀ group, group ∈ groups (conn (self p)) → stored_days group) →
  fst (log_block (conn (self p)) log_date)
  = log_header log_date
    :: first_slot_log_sections (conn (self p)) (Date.strftime_a log_date)
         (select_groups (conn (self p)))
  ∧ (snd (log_block (conn (self p)) log_date) = true
     ↔ first_slot_log_sections (conn (self p)) (Date.strftime_a log_date)
         (select_groups (conn (self p))) ≠ [])
  ∧ (∀ group occ_idx rest,
       group ∈ groups (conn (self p)) →
       default [] (day_workouts [group] !! Date.strftime_a log_date)
       = (group, occ_idx) :: rest →
       get_occurrence_index (days group) (Date.strftime_a log_date) = occ_idx)
  ∧ (print_info_global p = module_print_info →
     unwritable p !! LOG_FILENAME = None →
     snd (log_block (conn (self p)) log_date) = true →
     files (snd (log_add_date log_date p))
     = <[LOG_FILENAME :=
           default EmptyString (files p !! LOG_FILENAME)
           +:+ (Py.join nl
                  (log_header log_date
                   :: first_slot_log_sections (conn (self p))
                        (Date.strftime_a log_date)
                        (select_groups (conn (self p)))
                   ++ [Py.repeat_char "-" 40])
                +:+ nl)]> (files p)).
Proof.
  intros Hst.
  destruct (log_block_fold_stored (conn (self p)) (Date.strftime_a log_date)
              (select_groups (conn (self p))) [log_header log_date] false)
    as (any & Hf & Hany).
  { apply strftime_a_valid. }
  { intros g Hg. apply Hst. by rewrite <- select_groups_perm. }
  assert (Hblock : log_block (conn (self p)) log_date
                   = (log_header log_date
                      :: first_slot_log_sections (conn (self p))
                           (Date.strftime_a log_date)
                           (select_groups (conn (self p))), any)).
  { exact Hf. }
  split; [by rewrite Hblock|]. split.
  { rewrite Hblock. simpl. rewrite Hany. split; [by intros [?|?]|by right]. }
  split.
  - intros group k rest Hg Hslots.
    rewrite day_workouts_lookup in Hslots. unfold slots_on in Hslots.
    simpl in Hslots. rewrite app_nil_r in Hslots.
    destruct (Hst group Hg) as (l & Hl & E).
    unfold get_occurrence_index.
    change (filter (λ d, d ≠ EmptyString)
                   (Py.strip <$> Py.split "," (days group)))
      with (scheduled_days group).
    rewrite (scheduled_days_join group l Hl E).
    unfold matching_slots, slot_occurrences in Hslots.
    rewrite (days_list_join group l Hl E) in Hslots.
    pose proof (first_match_head group l 1 (Date.strftime_a log_date)) as H.
    rewrite Hslots in H. destruct H as (_ & -> & Hk).
    by replace (0 <? k) with true by (symmetry; apply Z.ltb_lt; lia).
  - intros Hb Hw Hany'.
    assert (Hne : select_groups (conn (self p)) ≠ []).
    { intros E. rewrite Hblock in Hany'. simpl in Hany'.
      apply Hany in Hany' as [?|Hs]; [done|]. by rewrite E in Hs. }
    rewrite log_add_date_run by done.
    rewrite Hblock in *. simpl in Hany'. subst any. by rewrite Hw.
Qed.

(** C5 as stated fails: a group scheduled twice on Monday has two blocks
    in the weekly layout, with occurrence indices 1 and 2, and a single
    section in the log, with index 1. *)
Lemma log_slots_counterexample :
  ¬ log_follows_layout_slots db_mon_mon (Date.mk_date 2025 1 6)
  ∧ Date.strftime_a (Date.mk_date 2025 1 6) = "Mon"
  ∧ snd <$> default [] (day_workouts (select_groups db_mon_mon) !! "Mon")
    = [1; 2]
  ∧ fst (log_block db_mon_mon (Date.mk_date 2025 1 6))
    = ["Workout Log for 01/06/25 (Mon):"; nl +:+ "Arms:"; "1. Curls";
       "6 reps"; "3 cycles"].
Proof.
  split; [|by vm_compute].
  unfold log_follows_layout_slots. vm_compute. discriminate.
Qed.

(** ** Errors and the command loop *)

Lemma do_index_remove_raises (p : process) :
  groups (conn (self p)) ≠ [] →
  do_index "remove 1" p = (Raise (NameError "skip_confirm"), p).
Proof.
  intros Hne. unfold do_index. rewrite bind_get.
  destruct (select_groups (conn (self p))) as [|g gs] eqn:E.
  { by apply select_groups_nil in E. }
  change (index_remove (g :: gs) ["remove"; "1"] p
          = (Raise (NameError "skip_confirm"), p)).
  unfold index_remove.
  change (mapM Py.int (drop 1 ["remove"; "1"])) with (Some [1]).
  assert (Hr : out_of_range (g :: gs) 1 = false).
  { unfold out_of_range. apply orb_false_iff. split; [done|].
    apply Z.ltb_ge. simpl length. lia. }
  cbn [length Nat.ltb Nat.leb]. rewrite filter_cons, Hr. simpl.
  reflexivity.
Qed.

Section Loop.

Variable do_layout__doc__ : string.
Variables do_add do_edit do_help : string → M unit.

Lemma init_run (p : process) :
  ∃ p', __init__ p = (Ret (), p')
        ∧ conn (self p') = conn (self p) ∧ stdin p' = stdin p.
Proof. by eexists. Qed.

Lemma cmdloop_step_remove (p : process) (rest : list key_input) :
  groups (conn (self p)) ≠ [] →
  stdin p = Line "index remove 1" :: rest →
  ∃ p', cmdloop_step do_layout__doc__ do_add do_edit do_help p
        = (Raise (NameError "skip_confirm"), p')
        ∧ stdin p' = rest.
Proof.
  intros Hne Hin.
  destruct p as [s out inp fs unw today b buf]. simpl in Hne, Hin. subst inp.
  unfold cmdloop_step.
  change (onecmd do_layout__doc__ do_add do_edit do_help)
    with (λ line, onecmd do_layout__doc__ do_add do_edit do_help line).
  unfold mbind, M_bind, get, input, update_prompt, modify.
  cbn [stdin set_stdout set_stdin set_self self stdout files unwritable
       clock print_info_global output_buffer].
  cbv beta iota.
  change (onecmd do_layout__doc__ do_add do_edit do_help "index remove 1")
    with (do_index "remove 1" ≫= λ _ : (), (mret false : M bool)).
  unfold mbind, M_bind.
  rewrite do_index_remove_raises by done.
  by eexists.
Qed.

(** C3 fails on the code: with at least one group in the store, the
    command [index remove 1] reads the unbound name [skip_confirm]; the
    [NameError] is caught neither in [do_index] nor around [cmdloop]
    (which handles [KeyboardInterrupt] only), so the process ends and no
    further command is read. *)
Theorem index_remove_ends_process
    (p : process) (rest : list key_input) (turns : nat) :
  groups (conn (self p)) ≠ [] →
  stdin p = Line "index remove 1" :: rest →
  fst (do_index "remove 1" p) = Raise (NameError "skip_confirm")
  ∧ fst (main do_layout__doc__ do_add do_edit do_help (S turns) p)
    = Crashed (NameError "skip_confirm")
  ∧ stdin (snd (main do_layout__doc__ do_add do_edit do_help (S turns) p))
    = rest.
Proof.
  intros Hne Hin. split; [by rewrite do_index_remove_raises|].
  destruct (init_run p) as (p1 & Hinit & Hconn & Hstdin).
  destruct (cmdloop_step_remove p1 rest) as (p2 & Hstep & Hrest).
  { by rewrite Hconn. }
  { by rewrite Hstdin. }
  unfold main. rewrite Hinit. cbn [run]. by rewrite Hstep.
Qed.

End Loop.

(** ** The theorems at work on the example store *)

Lemma example_ids_distinct : NoDup (g_id <$> groups example_db).
Proof. apply (bool_decide_unpack _). by vm_compute. Qed.

Lemma example_days_stored group : group ∈ groups example_db → stored_days group.
Proof.
  unfold example_db. simpl. rewrite !elem_of_cons, elem_of_nil.
  intros [->|[->|[->|[]]]].
  - exists ["Mon"; "Wed"; "Mon"]. split; [|done].
    repeat constructor; unfold valid_days_order;
      rewrite !elem_of_cons; tauto.
  - exists ["Mon"; "Thu"]. split; [|done].
    repeat constructor; unfold valid_days_order;
      rewrite !elem_of_cons; tauto.
  - exists []. split; [constructor|done].
Qed.

Lemma example_tuesday_free :
  nothing_scheduled example_db (Date.strftime_a (Date.mk_date 2025 1 7)).
Proof.
  intros group Hg Hday. exfalso. revert Hday.
  unfold example_db in Hg. simpl in Hg.
  rewrite !elem_of_cons, elem_of_nil in Hg.
  destruct Hg as [->|[->|[->|[]]]];
    apply (bool_decide_unpack _); by vm_compute.
Qed.

Lemma index_remove_ends_process_witness :
  fst (main EmptyString (λ _, mret ()) (λ _, mret ()) (λ _, mret ()) 2
            (example_process [Line "index remove 1"; Line "exit"]))
  = Crashed (NameError "skip_confirm").
Proof.
  apply (index_remove_ends_process EmptyString (λ _, mret ()) (λ _, mret ())
           (λ _, mret ())
           (example_process [Line "index remove 1"; Line "exit"])
           [Line "exit"] 1).
  - discriminate.
  - reflexivity.
Defined.

Lemma log_nothing_scheduled_witness :
  files (snd (do_log "add" (example_process [Line "2025-01-07"]))) = ∅
  ∧ stdout (snd (do_log "add" (example_process [Line "2025-01-07"])))
    = ["Enter date to log (YYYY-MM-DD) [default: today]: ";
       "No workouts scheduled for Tuesday (Tue), nothing added." +:+ nl].
Proof.
  destruct (log_nothing_scheduled (example_process [Line "2025-01-07"])
              "2025-01-07" [] (Date.mk_date 2025 1 7))
    as (Hrun & Hfiles & _).
  - reflexivity.
  - reflexivity.
  - reflexivity.
  - exact example_tuesday_free.
  - split; [exact Hfiles|]. rewrite Hrun. reflexivity.
Defined.

Lemma log_uses_first_matching_slot_witness :
  fst (log_block example_db (Date.mk_date 2025 1 6))
  = ["Workout Log for 01/06/25 (Mon):";
     nl +:+ "Leg Day:"; "1. Squats"; "2. Lunges"; "12 reps"; "3 cycles";
     nl +:+ "Arms:"; "1. Curls"; "6 reps"; "3 cycles"].
Proof.
  destruct (log_uses_first_matching_slot (example_process [])
              (Date.mk_date 2025 1 6)) as (H & _).
  - exact example_days_stored.
  - etrans; [exact H|]. reflexivity.
Defined.

Lemma unscheduled_group_absent_witness :
((rest_day, 1)
     ∉ default [] (day_workouts (select_groups example_db) !! "Mon"))
  ∧ layout_date (day_workouts (select_groups example_db))
                (Date.mk_date 2025 1 7, "Tue") (example_process [])
    = (Ret (), example_process []).
Proof.
  destruct (unscheduled_group_absent (example_process []) rest_day)
    as (H1 & _ & H3).
  - exact example_ids_distinct.
  - unfold example_process, example_db. simpl.
    rewrite !elem_of_cons. tauto.
  - reflexivity.
  - split; [exact (H1 "Mon" 1)|]. apply H3. reflexivity.
Defined.

Lemma weekly_layout_deterministic_witness :
  stdout (snd (_layout_core (snd (_layout_core (example_process [])))))
  = stdout (snd (_layout_core (example_process [])))
    ++ stdout (snd (_layout_core (example_process []))).
Proof.
  destruct (weekly_layout_deterministic (example_process [])
              (example_process [])) as (H1 & _ & H3 & _).
  - reflexivity.
  - reflexivity.
  - exact example_ids_distinct.
  - rewrite H3, H1. reflexivity.
Defined.

Lemma export_is_banner_then_layout_witness :
  files (snd (do_layout EmptyString "export" (example_process [])))
    !! "circuit_schedule[2025-01-06].txt"
  = Some (header
          +:+ getvalue (stdout (snd (_layout_core (example_process []))))).
Proof.
  destruct (export_is_banner_then_layout EmptyString (example_process []))
    as (text & p' & Hcore & Hrun & Hfiles & _).
  - reflexivity.
  - reflexivity.
  - rewrite Hrun, Hcore. simpl. rewrite Hfiles.
    apply lookup_insert_eq.
Defined.

Lemma layout_index_fixed_occurrence_witness :
  stdout (snd (do_layout EmptyString "index 2" (example_process [])))
  = ["2. Arms" +:+ nl; "1. Curls" +:+ nl; "6 reps | 3 cycles" +:+ nl].
Proof.
  destruct (layout_index_fixed_occurrence EmptyString (example_process [])
              "index 2" "index" "2" 2 arms) as (H & _).
  - reflexivity.
  - reflexivity.
  - reflexivity.
  - reflexivity.
  - lia.
  - reflexivity.
  - rewrite H. reflexivity.
Defined.

(** * Further properties of the shell *)

(** ** What only the console sees *)

Lemma console_only_refl p : console_only p p.
Proof. by repeat split. Qed.

Lemma console_only_trans p1 p2 p3 :
  console_only p1 p2 → console_only p2 p3 → console_only p1 p3.
Proof.
  unfold console_only. intros (?&?&?&?&?&?) (?&?&?&?&?&?).
  repeat split; congruence.
Qed.

Lemma console_only_emit c p : console_only p (emit c p).
Proof. unfold console_only, emit. by destruct (print_info_global p) eqn:E. Qed.

Lemma console_only_stdout out p : console_only p (set_stdout out p).
Proof. by repeat split. Qed.

Lemma print_run s p : print s p = (Ret (), set_stdout (stdout p ++ [s +:+ nl]) p).
Proof. done. Qed.

Lemma print_error_run msg p :
  print_error msg p
  = (Ret (), set_stdout (stdout p ++ [("ERROR: " +:+ msg) +:+ nl]) p).
Proof. done. Qed.

Lemma print_usage_run msg p :
  print_usage msg p
  = (Ret (), set_stdout (stdout p ++ [("USAGE: " +:+ msg) +:+ nl]) p).
Proof. done. Qed.

(** ** More on strings: stripping and splitting words *)

Lemma rev_app_rev_app (s a b : string) :
  String.rev_app (String.rev_app s a) b = String.rev_app a (s +:+ b).
Proof.
  revert a b. induction s as [|c s IH]; intros a b; [done|].
  cbn [String.rev_app]. by rewrite IH.
Qed.

Lemma rev_involutive (s : string) : String.rev (String.rev s) = s.
Proof.
  unfold String.rev. rewrite rev_app_rev_app. cbn [String.rev_app].
  apply append_nil_r.
Qed.

Lemma rev_app_append (a b acc : string) :
  String.rev_app (a +:+ b) acc = String.rev_app b (String.rev_app a acc).
Proof.
  revert acc. induction a as [|c a IH]; intros acc; [done|].
  rewrite append_cons. cbn [String.rev_app]. by rewrite IH.
Qed.

Lemma digit_not_space c d : Ascii.is_nat c = Some d → Py.isspace c = false.
Proof. destruct c as [[][][][][][][][]]; try discriminate; by intros _. Qed.

Lemma all_digits_no_space s : Py.all_digits s = true → no_space s = true.
Proof.
  induction s as [|c s IH]; [done|]. simpl.
  destruct (Ascii.is_nat c) as [d|] eqn:E; [|discriminate].
  intros H. by rewrite (digit_not_space c d E), IH.
Qed.

Lemma isdigit_no_space s : Py.isdigit s = true → no_space s = true.
Proof. destruct s; [discriminate|]. apply all_digits_no_space. Qed.

Lemma rev_app_head (s acc : string) :
  s ≠ EmptyString → no_space s = true →
  ∃ c r, String.rev_app s acc = String c r ∧ Py.isspace c = false.
Proof.
  revert acc. induction s as [|c s IH]; intros acc Hne Hs; [done|].
  simpl in Hs. apply andb_true_iff in Hs as [Hc Hs].
  apply negb_true_iff in Hc. cbn [String.rev_app].
  destruct s as [|c' s']; [by exists c, acc|].
  by apply IH.
Qed.

Lemma lstrip_head c r : Py.isspace c = false → Py.lstrip (String c r) = String c r.
Proof. intros H. simpl. by rewrite H. Qed.

(** A string that begins and ends with something other than white space
    is its own [strip]. *)
Lemma strip_edges (a b : string) c r :
  a = String c r → Py.isspace c = false →
  b ≠ EmptyString → no_space b = true →
  Py.strip (a +:+ b) = a +:+ b.
Proof.
  intros -> Hc Hb Hs. unfold Py.strip.
  rewrite append_cons, (lstrip_head _ _ Hc), <- append_cons.
  unfold Py.rstrip, String.rev at 2. rewrite rev_app_append.
  destruct (rev_app_head b (String.rev_app (String c r) "") Hb Hs)
    as (c' & r' & E & Hc').
  rewrite E, (lstrip_head _ _ Hc'), <- E, <- rev_app_append.
  apply rev_involutive.
Qed.

Lemma strip_no_space (s : string) : no_space s = true → Py.strip s = s.
Proof.
  destruct s as [|c s]; [done|]. intros Hs.
  pose proof Hs as Hs'. simpl in Hs'. apply andb_true_iff in Hs' as [Hc _].
  apply negb_true_iff in Hc.
  unfold Py.strip. rewrite (lstrip_head _ _ Hc).
  unfold Py.rstrip, String.rev at 2.
  destruct (rev_app_head (String c s) "" ltac:(done) Hs) as (c' & r' & E & Hc').
  rewrite E, (lstrip_head _ _ Hc'), <- E.
  exact (rev_involutive (String c s)).
Qed.

Lemma split_ws_go_no_space (s cur : string) :
  no_space s = true →
  Py.split_ws_go (Some cur) s = [String.rev (String.rev_app s cur)].
Proof.
  revert cur. induction s as [|c s IH]; intros cur Hs; [done|].
  simpl in Hs. apply andb_true_iff in Hs as [Hc Hs].
  apply negb_true_iff in Hc. cbn [Py.split_ws_go]. rewrite Hc.
  by rewrite IH.
Qed.

(** A non-empty string without white space is a single word. *)
Lemma split_ws_word (s : string) :
  s ≠ EmptyString → no_space s = true → Py.split_ws s = [s].
Proof.
  destruct s as [|c s]; [done|]. intros _ Hs.
  simpl in Hs. apply andb_true_iff in Hs as [Hc Hs].
  apply negb_true_iff in Hc. unfold Py.split_ws. cbn [Py.split_ws_go].
  rewrite Hc. rewrite split_ws_go_no_space by done.
  f_equal. exact (rev_involutive (String c s)).
Qed.

Lemma elem_of_1234 (n : Z) : n ∈ [1; 2; 3; 4] → n = 1 ∨ n = 2 ∨ n = 3 ∨ n = 4.
Proof.
  intros H. repeat (apply elem_of_cons in H as [H|H]; [tauto|]).
  by apply elem_of_nil in H.
Qed.

(** ** [do_index] *)

Lemma console_only_selection p p' : console_only p p' → selection_only p p'.
Proof.
  unfold console_only, selection_only. intros (Hs&?&?&?&?&?).
  rewrite Hs. by repeat split.
Qed.

Lemma index_remove_shape groups parts p :
  (∃ out, index_remove groups parts p = (Ret (), set_stdout out p))
  ∨ index_remove groups parts p = (Raise (NameError "skip_confirm"), p).
Proof.
  unfold index_remove.
  destruct (length parts <? 2)%nat; [left; by eexists|].
  destruct (mapM Py.int (drop 1 parts)) as [indexes|]; [|left; by eexists].
  destruct (filter _ indexes); [by right|left; by eexists].
Qed.

Lemma select_group_by_id_found db group :
  NoDup (g_id <$> groups db) → group ∈ groups db →
  select_group_by_id db (g_id group) = Some group.
Proof.
  intros Hnd Hin. unfold select_group_by_id.
  induction (groups db) as [|g gs IH]; [by apply elem_of_nil in Hin|].
  rewrite fmap_cons, NoDup_cons in Hnd. destruct Hnd as [Hg Hnd].
  rewrite filter_cons. apply elem_of_cons in Hin as [->|Hin].
  - by rewrite decide_True.
  - rewrite decide_False; [by apply IH|].
    intros E. apply Hg. rewrite E. by apply list_elem_of_fmap_2.
Qed.

Lemma writes_index_layout_body s idx group exercises :
  writes
    (print_info ("Group " +:+ Py.str idx +:+ ": " +:+ g_name group);;
     for_ (Py.enumerate 1 exercises)
          (λ '(i, ex), print_info (Py.str i +:+ ". " +:+ ex));;
     fmt ← get (λ p, exercise_display_format (self p));
     print_info (exercise_format (reps_per_cycle group)
                                 (cycles_per_circuit group) fmt))
    s ([("Group " +:+ Py.str idx +:+ ": " +:+ g_name group) +:+ nl]
       ++ exercise_lines exercises
       ++ [exercise_format (reps_per_cycle group) (cycles_per_circuit group)
                           (exercise_display_format s) +:+ nl]).
Proof.
  apply (writes_seq _ _ _ [_]); [apply writes_print_info|].
  apply writes_seq; [apply writes_exercises|].
  apply (writes_get s exercise_display_format), writes_print_info.
Qed.

Lemma index_layout_shape groups parts p :
  ∃ p', index_layout groups parts p = (Ret (), p') ∧ console_only p p'.
Proof.
  unfold index_layout.
  destruct (negb _); [eexists; split; [done|apply console_only_stdout]|].
  destruct (Py.int _) as [idx|];
    [|eexists; split; [done|apply console_only_stdout]].
  destruct (out_of_range groups idx);
    [eexists; split; [done|apply console_only_stdout]|].
  destruct (groups !! _) as [brief|];
    [|eexists; split; [done|apply console_only_refl]].
  rewrite bind_get.
  destruct (select_group_by_id _ _) as [group|];
    [|eexists; split; [done|apply console_only_stdout]].
  cbv zeta.
  rewrite (writes_index_layout_body (self p) idx group _ p eq_refl).
  eexists; split; [done|apply console_only_emit].
Qed.

Lemma index_select_shape groups parts p :
  ∃ p', index_select groups parts p = (Ret (), p') ∧ selection_only p p'.
Proof.
  unfold index_select.
  destruct (negb _);
    [eexists; split; [done|apply console_only_selection, console_only_stdout]|].
  destruct (Py.int _) as [idx|];
    [|eexists; split; [done|apply console_only_selection, console_only_stdout]].
  destruct (out_of_range groups idx);
    [eexists; split; [done|apply console_only_selection, console_only_stdout]|].
  destruct (groups !! _) as [group|];
    [|eexists; split; [done|apply console_only_selection, console_only_refl]].
  unfold mbind, M_bind, update_prompt, modify. cbv beta iota.
  rewrite print_info_emit. eexists. split; [done|].
  unfold selection_only, emit. simpl.
  by destruct (print_info_global p) eqn:E.
Qed.

Lemma writes_print_groups s groups :
  writes (print_groups groups) s (listing_text (current_group_id s) groups).
Proof.
  unfold print_groups, listing_text.
  eapply writes_eq;
    [|apply (writes_for s _ _
               (λ '(idx, group),
                  [((if bool_decide (current_group_id s = Some (g_id group))
                     then "*" else " ")
                    +:+ " " +:+ Py.str idx +:+ ". " +:+ g_name group) +:+ nl]))].
  - generalize 1. induction groups as [|g gs IH]; intros k; [done|].
    cbn [Py.enumerate fmap list_fmap]. rewrite <- IH. done.
  - intros [idx group] _.
    apply (writes_get s current_group_id). apply writes_print_info.
Qed.

Lemma do_index_shape (arg : string) (p : process) :
  ∃ r p',
    do_index arg p = (r, p') ∧ selection_only p p'
    ∧ (r = Ret () ∨ (r = Raise (NameError "skip_confirm") ∧ p' = p)).
Proof.
  unfold do_index. rewrite bind_get.
  destruct (select_groups (conn (self p))) as [|g gs].
  { rewrite print_info_emit. eexists _, _. split; [done|].
    split; [apply console_only_selection, console_only_emit|by left]. }
  destruct (bool_decide (Py.strip arg = EmptyString)).
  { rewrite (writes_print_groups (self p) _ p eq_refl).
    eexists _, _. split; [done|].
    split; [apply console_only_selection, console_only_emit|by left]. }
  destruct (bool_decide (_ = "remove")).
  { destruct (index_remove_shape (g :: gs) (Py.split_ws (Py.strip arg)) p)
      as [[out ->]| ->].
    - eexists _, _. split; [done|].
      split; [apply console_only_selection, console_only_stdout|by left].
    - eexists _, _. split; [done|].
      split; [apply console_only_selection, console_only_refl|by right]. }
  destruct (bool_decide (_ = "layout")).
  { destruct (index_layout_shape (g :: gs) (Py.split_ws (Py.strip arg)) p)
      as (p' & -> & Hp').
    eexists _, _. split; [done|].
    split; [by apply console_only_selection|by left]. }
  destruct (index_select_shape (g :: gs) (Py.split_ws (Py.strip arg)) p)
    as (p' & -> & Hp').
  eexists _, _. split; [done|]. split; [done|by left].
Qed.

Lemma selection_only_refl p : selection_only p p.
Proof. by repeat split. Qed.

Lemma selection_only_trans p1 p2 p3 :
  selection_only p1 p2 → selection_only p2 p3 → selection_only p1 p3.
Proof.
  unfold selection_only. intros (?&?&?&?&?&?&?&?&?) (?&?&?&?&?&?&?&?&?).
  repeat split; congruence.
Qed.

(** X1: No sequence of [index] commands changes the store, the display
    settings, the pending input or the files: at most the selection, the
    prompt and the console differ afterwards.  The sequence runs to its
    end or stops at the [NameError] of the removal branch; no group and
    no exercise is ever deleted. *)
Theorem index_commands_keep_store (args : list string) (p : process) :
  ∃ r p',
    for_ args do_index p = (r, p') ∧ selection_only p p'
    ∧ (r = Ret () ∨ r = Raise (NameError "skip_confirm")).
Proof.
  revert p. induction args as [|arg args IH]; intros p.
  { exists (Ret ()), p. split; [done|]. split; [|by left].
    apply selection_only_refl. }
  cbn [for_]. unfold mbind, M_bind.
  destruct (do_index_shape arg p) as (r & p1 & -> & Hp1 & [->|[-> ->]]).
  - destruct (IH p1) as (r' & p' & -> & Hp' & Hr').
    exists r', p'. split; [done|]. split; [|done].
    by eapply selection_only_trans.
  - eexists _, _. split; [done|]. split; [done|by right].
Qed.

Lemma split_ws_nonempty (s : string) w ws :
  Py.split_ws s = w :: ws → s ≠ EmptyString.
Proof. by intros H ->. Qed.

Lemma digit_lower_char c d : Ascii.is_nat c = Some d → Py.lower_char c = c.
Proof.
  destruct c as [[][][][][][][][]]; try discriminate; by intros _.
Qed.

Lemma isdigit_lower_head s :
  Py.isdigit s = true →
  ∃ c rest, Py.lower s = String c rest ∧ is_Some (Ascii.is_nat c).
Proof.
  destruct s as [|c s]; [discriminate|]. unfold Py.isdigit, Py.all_digits.
  destruct (Ascii.is_nat c) as [d|] eqn:E; [|discriminate]. intros _.
  exists c, (Py.lower s). split; [|by rewrite E].
  change (Py.lower (String c s)) with (String (Py.lower_char c) (Py.lower s)).
  by rewrite (digit_lower_char c d).
Qed.

Lemma isdigit_not_word s w c rest :
  Py.isdigit s = true → w = String c rest → Ascii.is_nat c = None →
  Py.lower s ≠ w.
Proof.
  intros Hd -> Hc E. destruct (isdigit_lower_head s Hd) as (c' & r & El & Hs).
  rewrite El in E. simplify_eq. rewrite Hc in Hs. by destruct Hs.
Qed.

Lemma select_groups_length db :
  length (select_groups db) = length (groups db).
Proof. by rewrite select_groups_perm. Qed.

Lemma in_range_lookup (groups : list group_row) idx group :
  1 ≤ idx → groups !! Z.to_nat (idx - 1) = Some group →
  out_of_range groups idx = false.
Proof.
  intros Hidx Hl. apply lookup_lt_Some in Hl. unfold out_of_range.
  apply orb_false_iff. split; [lia|]. apply Z.ltb_ge. lia.
Qed.

(** X2: Every [index remove] whose indexes are integers in range ends in the
    [NameError] of line 475, with nothing printed and nothing removed:
    the removal below that line cannot be reached. *)
Theorem index_remove_always_raises
    (arg word : string) (nums : list string) (indexes : list Z) (p : process) :
  Py.split_ws (Py.strip arg) = word :: nums →
  Py.lower word = "remove" →
  nums ≠ [] →
  mapM Py.int nums = Some indexes →
  Forall (λ i, 1 ≤ i ≤ Z.of_nat (length (groups (conn (self p))))) indexes →
  do_index arg p = (Raise (NameError "skip_confirm"), p).
Proof.
  intros Hparts Hword Hnums Hints Hrange.
  assert (Hidx : indexes ≠ []).
  { intros ->. apply length_mapM in Hints. by destruct nums. }
  unfold do_index. rewrite bind_get.
  pose proof (select_groups_length (conn (self p))) as Hlen.
  destruct (select_groups (conn (self p))) as [|g gs] eqn:E.
  { destruct indexes as [|i ixs]; [done|].
    apply Forall_cons in Hrange as [Hi _]. simpl in Hlen. lia. }
  rewrite bool_decide_eq_false_2 by (by eapply split_ws_nonempty).
  rewrite Hparts. cbn [nth]. rewrite Hword.
  rewrite bool_decide_eq_true_2 by done.
  unfold index_remove.
  replace (length (word :: nums) <? 2)%nat with false
    by (symmetry; apply Nat.ltb_ge; destruct nums; [done|simpl; lia]).
  change (drop 1 (word :: nums)) with nums. rewrite Hints.
  replace (filter (λ i, out_of_range (g :: gs) i) indexes) with (@nil Z).
  { reflexivity. }
  symmetry. clear Hints Hidx. induction Hrange as [|i ixs Hi Hixs IH]; [done|].
  rewrite filter_cons, decide_False; [exact IH|].
  unfold out_of_range. rewrite Hlen. intros H. apply Is_true_true in H.
  apply orb_true_iff in H as [H|H]; lia.
Qed.

Lemma index_remove_always_raises_witness :
  do_index "Remove 3 1" (example_process [])
  = (Raise (NameError "skip_confirm"), example_process []).
Proof.
  apply (index_remove_always_raises "Remove 3 1" "Remove" ["3"; "1"] [3; 1]).
  - reflexivity.
  - reflexivity.
  - discriminate.
  - reflexivity.
  - repeat constructor; simpl; lia.
Defined.

Lemma do_index_dispatch_digit (arg num : string) (rest : list string)
    (g : group_row) (gs : list group_row) (p : process) :
  Py.split_ws (Py.strip arg) = num :: rest →
  Py.isdigit num = true →
  select_groups (conn (self p)) = g :: gs →
  do_index arg p = index_select (g :: gs) (num :: rest) p.
Proof.
  intros Hparts Hd E. unfold do_index. rewrite bind_get, E.
  rewrite bool_decide_eq_false_2 by (by eapply split_ws_nonempty).
  rewrite Hparts. cbn [nth].
  rewrite bool_decide_eq_false_2
    by (by eapply (isdigit_not_word num "remove")).
  rewrite bool_decide_eq_false_2
    by (by eapply (isdigit_not_word num "layout")).
  done.
Qed.

Lemma listing_text_lookup cur (groups : list group_row) (i : nat) g :
  groups !! i = Some g →
  listing_text cur groups !! i
  = Some (((if bool_decide (cur = Some (g_id g)) then "*" else " ")
           +:+ " " +:+ Py.str (Z.of_nat i + 1) +:+ ". " +:+ g_name g) +:+ nl).
Proof.
  unfold listing_text. rewrite list_lookup_fmap.
  assert (H : ∀ k, groups !! i = Some g →
                   Py.enumerate k groups !! i = Some (k + Z.of_nat i, g)).
  { clear. revert i. induction groups as [|x l IH]; intros i k; [done|].
    destruct i as [|i]; simpl.
    - intros [= ->]. by replace (k + Z.of_nat 0) with k by lia.
    - intros H. rewrite (IH i (k + 1) H).
      by replace (k + Z.of_nat (S i)) with (k + 1 + Z.of_nat i) by lia. }
  intros Hg. rewrite (H 1 Hg). simpl.
  by replace (1 + Z.of_nat i) with (Z.of_nat i + 1) by lia.
Qed.

(** X3: [index NUM] with [NUM] in range selects the group listed at that
    position: its id becomes the current group, the prompt shows its
    name, one confirmation line is printed, and the store and settings
    stay as they were.  In the listing that [index] prints afterwards the
    selected group, and no other, carries the star. *)
Theorem index_select_marks_group
    (arg num : string) (idx : Z) (group : group_row) (p : process) :
  Py.split_ws (Py.strip arg) = [num] →
  Py.isdigit num = true →
  Py.int num = Some idx →
  1 ≤ idx →
  select_groups (conn (self p)) !! Z.to_nat (idx - 1) = Some group →
  NoDup (g_id <$> groups (conn (self p))) →
  ∃ p',
    do_index arg p = (Ret (), p')
    ∧ current_group_id (self p') = Some (g_id group)
    ∧ prompt (self p') = "(Circuit) [" +:+ g_name group +:+ "] "
    ∧ selection_only p p'
    ∧ (print_info_global p = module_print_info →
       stdout p'
       = stdout p
         ++ [("Selected workout group " +:+ Py.str idx +:+ ". "
              +:+ g_name group) +:+ nl])
    ∧ do_index EmptyString p'
      = (Ret (),
         emit (listing_text (Some (g_id group))
                            (select_groups (conn (self p)))) p')
    ∧ (∀ (i : nat) g,
         select_groups (conn (self p)) !! i = Some g →
         listing_text (Some (g_id group)) (select_groups (conn (self p))) !! i
         = Some (((if bool_decide (Z.of_nat i + 1 = idx) then "*" else " ")
                  +:+ " " +:+ Py.str (Z.of_nat i + 1) +:+ ". " +:+ g_name g)
                 +:+ nl)).
Proof.
  intros Hparts Hd Hint Hidx Hlook Hnd.
  destruct (select_groups (conn (self p))) as [|g0 gs] eqn:E; [done|].
  rewrite (do_index_dispatch_digit arg num [] g0 gs p Hparts Hd E).
  unfold index_select. cbn [length Nat.eqb negb nth]. rewrite Hint.
  rewrite (in_range_lookup _ _ _ Hidx Hlook), Hlook.
  assert (Hin : group ∈ groups (conn (self p))).
  { rewrite <- select_groups_perm, E. by eapply list_elem_of_lookup_2. }
  unfold mbind, M_bind, update_prompt, modify. cbv beta iota.
  rewrite print_info_emit. eexists. split; [reflexivity|].
  assert (Hname : select_group_by_id (conn (self p)) (g_id group) = Some group)
    by (by apply select_group_by_id_found).
  split; [by rewrite self_emit|].
  split.
  { rewrite self_emit. simpl. by rewrite Hname. }
  split.
  { unfold selection_only, emit. simpl.
    by destruct (print_info_global p) eqn:Eb. }
  split.
  { intros Hb. unfold emit. simpl. by rewrite Hb. }
  split.
  { unfold do_index. rewrite bind_get, self_emit.
    cbn [self set_self conn set_current_group_id set_prompt].
    rewrite E.
    change (bool_decide (Py.strip EmptyString = EmptyString)) with true.
    cbv iota.
    rewrite (writes_print_groups _ (g0 :: gs) _ eq_refl).
    by rewrite self_emit. }
  intros i g Hg. rewrite (listing_text_lookup _ _ _ _ Hg).
  assert (Hgin : g ∈ groups (conn (self p))).
  { rewrite <- select_groups_perm, E. by eapply list_elem_of_lookup_2. }
  destruct (decide (Z.of_nat i + 1 = idx)) as [Hi|Hi].
  - rewrite (bool_decide_eq_true_2 _ Hi).
    replace (Z.to_nat (idx - 1)) with i in Hlook by lia.
    rewrite Hg in Hlook. simplify_eq. by rewrite bool_decide_eq_true_2.
  - rewrite (bool_decide_eq_false_2 _ Hi).
    rewrite bool_decide_eq_false_2; [done|]. intros [= Eid].
    assert (group = g) by (by eapply (key_inj_on g_id)). subst g.
    assert (Hsn : NoDup (g0 :: gs)).
    { rewrite <- E. eapply NoDup_fmap_1 with (f := g_id).
      by rewrite select_groups_perm. }
    pose proof (NoDup_lookup _ _ _ _ Hsn Hg Hlook). lia.
Qed.

Lemma index_select_marks_group_witness :
  current_group_id (self (snd (do_index "2" (example_process [])))) = Some 2
  ∧ prompt (self (snd (do_index "2" (example_process []))))
    = "(Circuit) [Arms] "
  ∧ stdout (snd (do_index EmptyString
                          (snd (do_index "2" (example_process [])))))
    = ["Selected workout group 2. Arms" +:+ nl;
       "  1. Leg Day" +:+ nl; "* 2. Arms" +:+ nl; "  3. Rest" +:+ nl].
Proof.
  destruct (index_select_marks_group "2" "2" 2 arms (example_process []))
    as (p' & Hrun & Hcur & Hprompt & _).
  - reflexivity.
  - reflexivity.
  - reflexivity.
  - lia.
  - reflexivity.
  - exact example_ids_distinct.
  - rewrite Hrun. split; [exact Hcur|]. split; [exact Hprompt|].
    injection Hrun as <-. reflexivity.
Defined.

(** X4: [index layout NUM] prints the group at that position with its stored
    reps and cycles: unlike [layout index NUM] it applies no overload,
    scheduled or not. *)
Theorem index_layout_prints_base_values
    (arg word num : string) (idx : Z) (group : group_row) (p : process) :
  Py.split_ws (Py.strip arg) = [word; num] →
  Py.lower word = "layout" →
  Py.int num = Some idx →
  1 ≤ idx →
  select_groups (conn (self p)) !! Z.to_nat (idx - 1) = Some group →
  NoDup (g_id <$> groups (conn (self p))) →
  do_index arg p = (Ret (), emit (index_layout_text (self p) idx group) p).
Proof.
  intros Hparts Hword Hint Hidx Hlook Hnd.
  unfold index_layout_text, do_index. rewrite bind_get.
  destruct (select_groups (conn (self p))) as [|g0 gs] eqn:E; [done|].
  rewrite bool_decide_eq_false_2 by (by eapply split_ws_nonempty).
  rewrite Hparts. cbn [nth]. rewrite Hword.
  rewrite bool_decide_eq_false_2 by discriminate.
  rewrite bool_decide_eq_true_2 by done.
  unfold index_layout. cbn [length Nat.eqb negb nth]. rewrite Hint.
  rewrite (in_range_lookup _ _ _ Hidx Hlook), Hlook. rewrite bind_get.
  assert (Hin : group ∈ groups (conn (self p))).
  { rewrite <- select_groups_perm, E. by eapply list_elem_of_lookup_2. }
  rewrite (select_group_by_id_found _ _ Hnd Hin). cbv zeta.
  by rewrite (writes_index_layout_body (self p) idx group _ p eq_refl).
Qed.

Lemma index_layout_prints_base_values_witness :
  stdout (snd (do_index "layout 1" (example_process [])))
  = ["Group 1: Leg Day" +:+ nl; "1. Squats" +:+ nl; "2. Lunges" +:+ nl;
     "10 reps | 3 cycles" +:+ nl].
Proof.
  rewrite (index_layout_prints_base_values "layout 1" "layout" "1" 1 leg_day).
  - reflexivity.
  - reflexivity.
  - reflexivity.
  - reflexivity.
  - lia.
  - reflexivity.
  - exact example_ids_distinct.
Defined.

(** X5: [index NUM] with [NUM] below 1 or beyond the number of groups is
    refused with one error line; nothing is selected, and index 0 or a
    large index never wraps around to another group. *)
Theorem index_select_out_of_range
    (arg num : string) (idx : Z) (p : process) :
  Py.split_ws (Py.strip arg) = [num] →
  Py.isdigit num = true →
  Py.int num = Some idx →
  groups (conn (self p)) ≠ [] →
  idx < 1 ∨ Z.of_nat (length (groups (conn (self p)))) < idx →
  do_index arg p
  = (Ret (),
     set_stdout
       (stdout p
        ++ [("ERROR: " +:+ "Index " +:+ Py.str idx +:+ " does not exist.")
            +:+ nl]) p).
Proof.
  intros Hparts Hd Hint Hne Hout.
  pose proof (select_groups_length (conn (self p))) as Hlen.
  destruct (select_groups (conn (self p))) as [|g0 gs] eqn:E.
  { by apply select_groups_nil in E. }
  rewrite (do_index_dispatch_digit arg num [] g0 gs p Hparts Hd E).
  unfold index_select. cbn [length Nat.eqb negb nth]. rewrite Hint.
  replace (out_of_range (g0 :: gs) idx) with true; [done|].
  symmetry. unfold out_of_range. rewrite Hlen.
  apply orb_true_iff. destruct Hout; [left|right]; lia.
Qed.

Lemma index_select_out_of_range_witness :
  do_index "0" (example_process [])
  = (Ret (),
     set_stdout ["ERROR: Index 0 does not exist." +:+ nl] (example_process []))
  ∧ do_index "4" (example_process [])
    = (Ret (),
       set_stdout ["ERROR: Index 4 does not exist." +:+ nl]
                  (example_process [])).
Proof.
  split.
  - rewrite (index_select_out_of_range "0" "0" 0); try reflexivity.
    + discriminate.
    + left. lia.
  - rewrite (index_select_out_of_range "4" "4" 4); try reflexivity.
    + discriminate.
    + right. simpl. lia.
Defined.

(** ** [do_layout] *)

Lemma int_go_digits (s : string) (acc : Z) (b : bool) :
  Py.all_digits s = true → s ≠ EmptyString ∨ b = true → 0 ≤ acc →
  ∃ n, Py.int_go acc b s = Some n ∧ 0 ≤ n.
Proof.
  revert acc b. induction s as [|c s IH]; intros acc b Hd Hb Hacc.
  - destruct Hb as [?| ->]; [done|]. by exists acc.
  - simpl in Hd. cbn [Py.int_go].
    destruct (Ascii.is_nat c) as [d|] eqn:E; [|discriminate].
    replace (Ascii.eqb c "_") with false
      by (by destruct c as [[][][][][][][][]]).
    apply IH; [done|by right|lia].
Qed.

(** [int] of a digit string is a non-negative number. *)
Lemma int_isdigit (s : string) :
  Py.isdigit s = true → ∃ n, Py.int s = Some n ∧ 0 ≤ n.
Proof.
  intros Hd. unfold Py.int. rewrite (strip_no_space s (isdigit_no_space s Hd)).
  destruct s as [|c s]; [discriminate|].
  assert (Hs : ∃ n, Py.int_go 0 false (String c s) = Some n ∧ 0 ≤ n).
  { apply int_go_digits; [done|by left|done]. }
  unfold Py.isdigit, Py.all_digits in Hd.
  destruct (Ascii.is_nat c) as [d|] eqn:E; [|discriminate].
  by destruct c as [[][][][][][][][]].
Qed.

Section Layout.

Variable do_layout__doc__ : string.

Lemma do_layout_index_dispatch (num : string) (idx : Z) (p : process) :
  Py.isdigit num = true → Py.int num = Some idx →
  do_layout do_layout__doc__ ("index " +:+ num) p
  = (layout_index idx ≫= λ _, mret ()) p.
Proof.
  intros Hd Hint. unfold do_layout, do_layout_body.
  assert (Hnum : num ≠ EmptyString) by (by destruct num).
  rewrite (strip_edges "index " num "i" "ndex ")
    by (done || by apply isdigit_no_space).
  change (bool_decide ("index " +:+ num = "set")) with false.
  change (bool_decide ("index " +:+ num = EmptyString)) with false.
  change (Py.startswith ("index " +:+ num) "set ") with false.
  cbv iota.
  assert (Hexp : bool_decide ("index " +:+ num = "export") = false).
  { apply bool_decide_eq_false_2. discriminate. }
  replace (Py.startswith (Py.lower ("index " +:+ num)) "index ") with true
    by (by destruct num).
  change (Py.split_ws ("index " +:+ num))
    with ("index" :: Py.split_ws_go None num).
  change (Py.split_ws_go None num) with (Py.split_ws num).
  rewrite (split_ws_word num) by (done || by apply isdigit_no_space).
  cbn [length Nat.eqb nth andb]. rewrite Hd, Hint.
  unfold mbind at 1, M_bind at 1. unfold mret at 1, M_ret at 1.
  cbv beta iota. rewrite Hexp.
  unfold mbind, M_bind. change (default 0 (Some idx)) with idx.
  by destruct (layout_index idx p) as [[[]|e] p'].
Qed.

(** What [layout export] does, whatever [print_info] is bound to. *)
Lemma layout_export_run (p : process) :
  layout_export (do_layout_body do_layout__doc__ (λ _ : string, mret ())) p
  = match unwritable p !! export_filename (clock p) with
    | None =>
        (Ret (),
         emit [("Exported workout schedule to "
                +:+ export_filename (clock p)) +:+ nl]
              (set_files
                 (<[export_filename (clock p) :=
                      getvalue (header
                                :: spec_weekly_layout (self p) (clock p))]>
                    (files p))
                 (after_export_buffer p)))
    | Some msg =>
        (Ret (),
         set_stdout
           (stdout p
            ++ [("ERROR: " +:+ "Failed to export to file: " +:+ msg) +:+ nl])
           (after_export_buffer p))
    end.
Proof.
  unfold layout_export.
  change (do_layout_body do_layout__doc__ (λ _ : string, mret ()) EmptyString)
    with _layout_core.
  destruct p as [s out inp fs unw today b buf].
  unfold export_filename, after_export_buffer.
  unfold mbind, M_bind, modify, get, try_finally, try_except. simpl.
  rewrite _layout_core_run. simpl.
  unfold write_file. simpl.
  destruct (unw !! _) as [msg|]; simpl; [done|].
  rewrite print_info_emit. simpl. unfold emit. simpl.
  by destruct b.
Qed.

Lemma layout_only_console p p' : console_only p p' → layout_only p p'.
Proof.
  intros (Hs&?&Hf&?&?&?). unfold layout_only. rewrite Hs, Hf.
  repeat (split; [done|]). done.
Qed.

Lemma layout_only_emit c p : layout_only p (emit c p).
Proof. apply layout_only_console, console_only_emit. Qed.

Lemma layout_only_stdout out p : layout_only p (set_stdout out p).
Proof. apply layout_only_console, console_only_stdout. Qed.

Lemma layout_only_trans p1 p2 p3 :
  layout_only p1 p2 → layout_only p2 p3 → layout_only p1 p3.
Proof.
  unfold layout_only.
  intros (?&?&?&?&?&Hc&?&Hf&Hs) (?&?&?&?&?&?&?&Hf'&Hs').
  repeat (split; [congruence|]). split.
  - intros f Hne. rewrite Hf', Hf; [done|done|by rewrite Hc].
  - intros Hr. by apply Hs', Hs.
Qed.

Lemma layout_index_shape idx p :
  ∃ p', layout_index idx p = (Ret (), p') ∧ console_only p p'.
Proof.
  destruct (select_groups (conn (self p))) as [|g gs] eqn:E.
  { exists (emit ["No workout groups available." +:+ nl] p).
    split; [|apply console_only_emit].
    unfold layout_index. rewrite bind_get, E. apply print_info_emit. }
  destruct ((idx <? 1) || (Z.of_nat (length (g :: gs)) <? idx)) eqn:Hr.
  { eexists. split; [|apply console_only_stdout].
    unfold layout_index. rewrite bind_get, E, Hr. apply print_error_run. }
  apply orb_false_iff in Hr as [H1 H2].
  destruct ((g :: gs) !! Z.to_nat (idx - 1)) as [group|] eqn:Hl.
  - exists (emit (layout_index_text (self p) idx group) p).
    split; [|apply console_only_emit].
    apply writes_layout_index; [lia|by rewrite E|done].
  - exists p. split; [|apply console_only_refl].
    unfold layout_index. by rewrite bind_get, E, H1, H2, Hl.
Qed.

Lemma layout_only_date num p :
  num ∈ [1; 2; 3; 4] →
  layout_only p (set_self (set_date_display_format num) p).
Proof.
  intros Hn. unfold layout_only. do 8 (split; [done|]).
  intros [_ He]. by split.
Qed.

Lemma layout_only_exercise fmt p :
  fmt ∈ [1; 2; 3; 4] →
  layout_only p (set_self (set_exercise_display_format fmt) p).
Proof.
  intros Hn. unfold layout_only. do 8 (split; [done|]).
  intros [Hd _]. by split.
Qed.

Lemma layout_only_group b p :
  layout_only p (set_self (set_group_display_enabled b) p).
Proof. unfold layout_only. do 8 (split; [done|]). done. Qed.

Lemma layout_set_shape arg p :
  ∃ b p', layout_set arg p = (Ret b, p') ∧ layout_only p p'
          ∧ (b = false → p' = p).
Proof.
  unfold layout_set.
  destruct (length (Py.split_ws arg) <? 3)%nat.
  { eexists true, _. split; [done|]. split; [apply layout_only_stdout|done]. }
  destruct (decide (Py.lower (nth 1 (Py.split_ws arg) EmptyString) = "date"))
    as [Hk|Hk].
  { rewrite (bool_decide_eq_true_2 _ Hk).
    destruct ((length (Py.split_ws arg) =? 3)%nat
              && Py.isdigit (nth 2 (Py.split_ws arg) EmptyString)).
    - set (num := default 0 (Py.int (nth 2 (Py.split_ws arg) EmptyString))).
      destruct (decide (num ∈ [1; 2; 3; 4])) as [Hn|Hn].
      + rewrite (bool_decide_eq_true_2 _ Hn).
        eexists true, _. split.
        { unfold mbind, M_bind, modify. rewrite print_info_emit. done. }
        split; [|done].
        eapply layout_only_trans;
          [by apply layout_only_date|apply layout_only_emit].
      + rewrite (bool_decide_eq_false_2 _ Hn).
        eexists true, _. split; [done|].
        split; [apply layout_only_stdout|done].
    - exists false, p. split; [done|]. split; [|done].
      apply layout_only_console, console_only_refl. }
  rewrite (bool_decide_eq_false_2 _ Hk).
  destruct (decide (Py.lower (nth 1 (Py.split_ws arg) EmptyString)
                    = "exercise")) as [Hk2|Hk2].
  { rewrite (bool_decide_eq_true_2 _ Hk2).
    destruct ((length (Py.split_ws arg) =? 4)%nat
              && bool_decide (Py.lower (nth 2 (Py.split_ws arg) EmptyString)
                              = "display")
              && Py.isdigit (nth 3 (Py.split_ws arg) EmptyString)).
    - set (fmt := default 0 (Py.int (nth 3 (Py.split_ws arg) EmptyString))).
      destruct (decide (fmt ∈ [1; 2; 3; 4])) as [Hn|Hn].
      + rewrite (bool_decide_eq_true_2 _ Hn).
        eexists true, _. split.
        { unfold mbind, M_bind, modify. rewrite print_info_emit. done. }
        split; [|done].
        eapply layout_only_trans;
          [by apply layout_only_exercise|apply layout_only_emit].
      + rewrite (bool_decide_eq_false_2 _ Hn).
        eexists true, _. split; [done|].
        split; [apply layout_only_stdout|done].
    - eexists true, _. split; [done|].
      split; [apply layout_only_stdout|done]. }
  rewrite (bool_decide_eq_false_2 _ Hk2).
  destruct (decide (Py.lower (nth 1 (Py.split_ws arg) EmptyString) = "group"))
    as [Hk3|Hk3].
  { rewrite (bool_decide_eq_true_2 _ Hk3).
    destruct ((length (Py.split_ws arg) =? 4)%nat
              && bool_decide (Py.lower (nth 2 (Py.split_ws arg) EmptyString)
                              = "display")).
    - set (val := Py.lower (nth 3 (Py.split_ws arg) EmptyString)).
      destruct (decide (val ∈ ["on"; "off"])) as [Hn|Hn].
      + rewrite (bool_decide_eq_true_2 _ Hn).
        eexists true, _. split.
        { unfold mbind, M_bind, modify. rewrite print_info_emit. done. }
        split; [|done].
        eapply layout_only_trans;
          [by apply layout_only_group|apply layout_only_emit].
      + rewrite (bool_decide_eq_false_2 _ Hn).
        eexists true, _. split; [done|].
        split; [apply layout_only_stdout|done].
    - eexists true, _. split; [done|].
      split; [apply layout_only_stdout|done]. }
  rewrite (bool_decide_eq_false_2 _ Hk3).
  eexists true, _. split; [done|]. split; [apply layout_only_stdout|done].
Qed.

Lemma layout_export_shape p :
  ∃ p', layout_export (do_layout_body do_layout__doc__ (λ _ : string, mret ()))
                      p = (Ret (), p')
        ∧ layout_only p p'.
Proof.
  rewrite layout_export_run.
  destruct (unwritable p !! export_filename (clock p)) as [msg|].
  - eexists. split; [done|]. unfold layout_only, after_export_buffer.
    do 8 (split; [done|]). done.
  - eexists. split; [done|].
    eapply layout_only_trans; [|apply layout_only_emit].
    unfold layout_only, after_export_buffer.
    do 7 (split; [done|]). split; [|done].
    intros f Hf. cbn. by rewrite lookup_insert_ne.
Qed.

Lemma do_layout_shape (arg : string) (p : process) :
  ∃ p', do_layout do_layout__doc__ arg p = (Ret (), p') ∧ layout_only p p'.
Proof.
  unfold do_layout. unfold do_layout_body at 1.
  case_bool_decide.
  { eexists. split; [done|]. apply layout_only_stdout. }
  case_bool_decide.
  { eexists. split; [apply _layout_core_run|]. apply layout_only_emit. }
  assert (Hset : ∃ b p1,
    (if Py.startswith (Py.strip arg) "set " then layout_set (Py.strip arg)
     else mret false) p = (Ret b, p1)
    ∧ layout_only p p1 ∧ (b = false → p1 = p)).
  { destruct (Py.startswith (Py.strip arg) "set ").
    - apply layout_set_shape.
    - exists false, p. split; [done|]. split; [|done].
      apply layout_only_console, console_only_refl. }
  destruct Hset as (b & p1 & Hrun & Hp1 & Hb).
  unfold mbind at 1, M_bind at 1. rewrite Hrun.
  destruct b; [by exists p1|]. rewrite (Hb eq_refl). clear Hrun Hp1 Hb p1.
  case_bool_decide.
  { apply layout_export_shape. }
  destruct (Py.startswith (Py.lower (Py.strip arg)) "index ");
    [destruct ((length (Py.split_ws (Py.strip arg)) =? 2)%nat
               && Py.isdigit (nth 1 (Py.split_ws (Py.strip arg)) EmptyString))|].
  - destruct (layout_index_shape
                (default 0 (Py.int (nth 1 (Py.split_ws (Py.strip arg))
                                        EmptyString))) p)
      as (p' & Hrun & Hp').
    exists p'. split; [|by apply layout_only_console].
    unfold mbind, M_bind. by rewrite Hrun.
  - eexists. split; [done|]. apply layout_only_stdout.
  - eexists. split; [done|]. apply layout_only_stdout.
Qed.

(** X6: [layout set date N] and [layout set exercise display N] with [N]
    from 1 to 4 store the code and confirm it; the layout printed next is
    the weekly layout under the new setting. *)
Theorem layout_set_takes_effect (n : Z) (p : process) :
  n ∈ [1; 2; 3; 4] →
  let p1 :=
    emit [("Date format set to option " +:+ Py.str n) +:+ nl]
         (set_self (set_date_display_format n) p) in
  let p2 :=
    emit [("Exercise display format set to option " +:+ Py.str n) +:+ nl]
         (set_self (set_exercise_display_format n) p) in
  do_layout do_layout__doc__ ("set date " +:+ Py.str n) p = (Ret (), p1)
  ∧ do_layout do_layout__doc__ EmptyString p1
    = (Ret (),
       emit (spec_weekly_layout (set_date_display_format n (self p)) (clock p))
            p1)
  ∧ do_layout do_layout__doc__ ("set exercise display " +:+ Py.str n) p
    = (Ret (), p2)
  ∧ do_layout do_layout__doc__ EmptyString p2
    = (Ret (),
       emit (spec_weekly_layout (set_exercise_display_format n (self p))
                                (clock p))
            p2).
Proof.
  intros Hn p1 p2.
  assert (Hcore : ∀ q, do_layout do_layout__doc__ EmptyString q
                       = (Ret (), emit (spec_weekly_layout (self q) (clock q)) q)).
  { intros q. change (do_layout do_layout__doc__ EmptyString) with _layout_core.
    apply _layout_core_run. }
  split; [|split; [|split]].
  - subst p1. destruct p as [s out inp fs unw today b buf].
    destruct (elem_of_1234 n Hn) as [->|[->|[->| ->]]]; by destruct b.
  - rewrite Hcore. subst p1. by rewrite self_emit, clock_emit.
  - subst p2. destruct p as [s out inp fs unw today b buf].
    destruct (elem_of_1234 n Hn) as [->|[->|[->| ->]]]; by destruct b.
  - rewrite Hcore. subst p2. by rewrite self_emit, clock_emit.
Qed.

(** X7: A word that is no number after [layout set date] or [layout index]
    is not answered with the usage line of the branch: control leaves the
    branch and arrives at the final "Unknown argument" error.  After
    [layout set exercise display] the same word gets the usage line. *)
Theorem layout_non_number_argument (w : string) (p : process) :
  w ≠ EmptyString → no_space w = true → Py.isdigit w = false →
  do_layout do_layout__doc__ ("set date " +:+ w) p
  = (Ret (),
     set_stdout
       (stdout p
        ++ [("ERROR: " +:+ "Unknown argument '" +:+ ("set date " +:+ w)
             +:+ "' for layout.") +:+ nl]) p)
  ∧ do_layout do_layout__doc__ ("index " +:+ w) p
    = (Ret (),
       set_stdout
         (stdout p
          ++ [("ERROR: " +:+ "Unknown argument '" +:+ ("index " +:+ w)
               +:+ "' for layout.") +:+ nl]) p)
  ∧ do_layout do_layout__doc__ ("set exercise display " +:+ w) p
    = (Ret (),
       set_stdout
         (stdout p
          ++ [("USAGE: " +:+ "layout set exercise display <1-4>") +:+ nl]) p).
Proof.
  intros Hne Hs Hd.
  assert (Hw : Py.split_ws_go None w = [w]) by (by apply split_ws_word).
  split; [|split].
  - unfold do_layout, do_layout_body.
    rewrite (strip_edges "set date " w "s" "et date ") by done.
    change (bool_decide ("set date " +:+ w = "set")) with false.
    change (bool_decide ("set date " +:+ w = EmptyString)) with false.
    change (Py.startswith ("set date " +:+ w) "set ") with true.
    cbv iota. unfold layout_set.
    change (Py.split_ws ("set date " +:+ w))
      with ("set" :: "date" :: Py.split_ws_go None w).
    rewrite Hw. cbn [length Nat.ltb Nat.leb nth Nat.eqb andb].
    change (bool_decide (Py.lower "date" = "date")) with true.
    cbv iota. rewrite Hd.
    unfold mbind at 1, M_bind at 1. unfold mret at 1, M_ret at 1.
    cbv beta iota.
    rewrite bool_decide_eq_false_2 by discriminate.
    change (Py.startswith (Py.lower ("set date " +:+ w)) "index ") with false.
    cbv iota. unfold mbind at 1, M_bind at 1. unfold mret at 1, M_ret at 1.
    cbv beta iota. apply print_error_run.
  - unfold do_layout, do_layout_body.
    rewrite (strip_edges "index " w "i" "ndex ") by done.
    change (bool_decide ("index " +:+ w = "set")) with false.
    change (bool_decide ("index " +:+ w = EmptyString)) with false.
    change (Py.startswith ("index " +:+ w) "set ") with false.
    cbv iota. unfold mbind at 1, M_bind at 1. unfold mret at 1, M_ret at 1.
    cbv beta iota.
    rewrite bool_decide_eq_false_2 by discriminate.
    replace (Py.startswith (Py.lower ("index " +:+ w)) "index ") with true
      by (by destruct w).
    change (Py.split_ws ("index " +:+ w))
      with ("index" :: Py.split_ws_go None w).
    rewrite Hw. cbn [length Nat.eqb nth andb]. rewrite Hd.
    unfold mbind at 1, M_bind at 1. unfold mret at 1, M_ret at 1.
    cbv beta iota. apply print_error_run.
  - unfold do_layout, do_layout_body.
    rewrite (strip_edges "set exercise display " w "s" "et exercise display ")
      by done.
    change (bool_decide ("set exercise display " +:+ w = "set")) with false.
    change (bool_decide ("set exercise display " +:+ w = EmptyString))
      with false.
    change (Py.startswith ("set exercise display " +:+ w) "set ") with true.
    cbv iota. unfold layout_set.
    change (Py.split_ws ("set exercise display " +:+ w))
      with ("set" :: "exercise" :: "display" :: Py.split_ws_go None w).
    rewrite Hw. cbn [length Nat.ltb Nat.leb nth Nat.eqb andb].
    change (bool_decide (Py.lower "exercise" = "date")) with false.
    change (bool_decide (Py.lower "exercise" = "exercise")) with true.
    change (bool_decide (Py.lower "display" = "display")) with true.
    cbv iota. rewrite Hd. cbn [andb].
    unfold mbind at 1, M_bind at 1.
    unfold mbind at 1, M_bind at 1. rewrite print_usage_run.
    reflexivity.
Qed.

(** X8: [layout index NUM] with [NUM] zero or beyond the number of groups is
    refused with one error line, and prints no group. *)
Theorem layout_index_out_of_range (num : string) (idx : Z) (p : process) :
  Py.isdigit num = true →
  Py.int num = Some idx →
  groups (conn (self p)) ≠ [] →
  idx = 0 ∨ Z.of_nat (length (groups (conn (self p)))) < idx →
  do_layout do_layout__doc__ ("index " +:+ num) p
  = (Ret (),
     set_stdout
       (stdout p
        ++ [("ERROR: " +:+ "Index " +:+ Py.str idx +:+ " does not exist.")
            +:+ nl]) p).
Proof.
  intros Hd Hint Hne Hout.
  rewrite (do_layout_index_dispatch num idx p Hd Hint).
  pose proof (select_groups_length (conn (self p))) as Hlen.
  unfold layout_index, mbind at 1, M_bind at 1. rewrite bind_get.
  destruct (select_groups (conn (self p))) as [|g0 gs] eqn:E.
  { by apply select_groups_nil in E. }
  replace ((idx <? 1) || (Z.of_nat (length (g0 :: gs)) <? idx)) with true;
    [done|].
  symmetry. rewrite Hlen. apply orb_true_iff.
  destruct Hout; [left|right]; lia.
Qed.

(** X9: [layout export] puts [print_info] back to what it was and leaves the
    shell object alone, whether the file can be written or not; when it
    cannot, no file changes; and a second export on the same day leaves
    the files as the first one left them. *)
Theorem export_restores_and_repeats (p : process) :
  let p1 := snd (do_layout do_layout__doc__ "export" p) in
  let p2 := snd (do_layout do_layout__doc__ "export" p1) in
  print_info_global p1 = print_info_global p
  ∧ self p1 = self p
  ∧ (is_Some (unwritable p !! export_filename (clock p)) → files p1 = files p)
  ∧ files p2 = files p1.
Proof.
  assert (Hrun : ∀ q, do_layout do_layout__doc__ "export" q
    = layout_export (do_layout_body do_layout__doc__ (λ _ : string, mret ())) q)
    by done.
  intros p1 p2. subst p2 p1. rewrite !Hrun, (layout_export_run p).
  destruct (unwritable p !! export_filename (clock p)) as [msg|] eqn:Ew.
  - cbn [snd]. rewrite layout_export_run.
    cbn [unwritable set_stdout after_export_buffer set_output_buffer clock].
    unfold after_export_buffer.
    cbn [unwritable set_stdout after_export_buffer set_output_buffer clock].
    rewrite Ew. by repeat split.
  - cbn [snd]. rewrite layout_export_run.
    set (p1 := emit _ _).
    assert (Hu : unwritable p1 = unwritable p).
    { subst p1. unfold emit. by destruct (print_info_global _). }
    assert (Hc : clock p1 = clock p) by (subst p1; by rewrite clock_emit).
    assert (Hs : self p1 = self p) by (subst p1; by rewrite self_emit).
    assert (Hf : files p1
                 = <[export_filename (clock p) :=
                       getvalue (header
                                 :: spec_weekly_layout (self p) (clock p))]>
                     (files p))
      by (subst p1; by rewrite files_emit).
    assert (Hb : print_info_global p1 = print_info_global p)
      by (subst p1; by rewrite binding_emit).
    clearbody p1. rewrite Hu, Hc, Ew. split; [done|]. split; [done|].
    split; [by intros [? ?]|].
    cbn [snd]. rewrite files_emit. cbn [files set_files].
    unfold after_export_buffer. cbn [files set_output_buffer].
    rewrite Hs, Hf. apply insert_insert_eq.
Qed.



End Layout.

(** ** [do_log] *)

Lemma stdin_emit c p : stdin (emit c p) = stdin p.
Proof. unfold emit. by destruct (print_info_global p). Qed.

Lemma log_add_date_shape (log_date : Date.date) (p : process) :
  ∃ p', log_add_date log_date p = (Ret (), p')
        ∧ self p' = self p ∧ stdin p' = stdin p ∧ log_grows p p'.
Proof.
  unfold log_add_date.
  rewrite bool_decide_eq_true_2 by apply strftime_a_valid.
  rewrite bind_get.
  destruct (select_groups (conn (self p))) as [|g gs] eqn:E.
  { rewrite print_info_emit. eexists. split; [done|]. unfold log_grows.
    rewrite self_emit, files_emit, stdin_emit.
    split; [done|]. split; [done|by left]. }
  rewrite bind_get.
  destruct (log_block (conn (self p)) log_date) as [log_lines [|]].
  - unfold try_except, append_file, mbind, M_bind.
    destruct (unwritable p !! LOG_FILENAME) as [msg|] eqn:Ew.
    + cbn [is_Exception exn_str]. rewrite print_error_run.
      eexists. split; [done|]. split; [done|]. split; [done|]. by left.
    + rewrite print_info_emit. eexists. split; [done|]. unfold log_grows.
      rewrite self_emit, files_emit, stdin_emit.
      split; [done|]. split; [done|]. right. by eexists.
  - rewrite print_info_emit. eexists. split; [done|]. unfold log_grows.
    rewrite self_emit, files_emit, stdin_emit.
    split; [done|]. split; [done|by left].
Qed.

Lemma do_log_shape (arg : string) (p : process) :
  ∃ r p',
    do_log arg p = (r, p')
    ∧ self p' = self p
    ∧ log_grows p p'
    ∧ (stdin p' = stdin p ∨ stdin p' = drop 1 (stdin p))
    ∧ (r = Ret () ∨ ((r = Raise EOFError ∨ r = Raise KeyboardInterrupt)
                     ∧ files p' = files p)).
Proof.
  unfold do_log.
  case_bool_decide.
  - unfold log_add, mbind at 1, M_bind at 1, input.
    destruct (stdin p) as [|[line|] rest] eqn:Ein;
      cbn [stdin set_stdout].
    + rewrite Ein. eexists _, _. split; [done|].
      split; [done|]. split; [by left|]. split; [by left|].
      right. split; [by left|done].
    + rewrite Ein.
      set (p0 := set_stdin rest _).
      assert (H0 : self p0 = self p ∧ files p0 = files p ∧ stdin p0 = rest)
        by done.
      destruct H0 as (Hs0 & Hf0 & Hi0). clearbody p0.
      assert (Hdate : ∀ d, ∃ p', log_add_date d p0 = (Ret (), p')
                ∧ self p' = self p ∧ log_grows p p' ∧ stdin p' = rest).
      { intros d. destruct (log_add_date_shape d p0) as (p' & Hr & Hs & Hi & Hg).
        exists p'. split; [done|]. split; [congruence|].
        split; [|congruence]. unfold log_grows in *. by rewrite Hf0 in Hg. }
      case_bool_decide.
      * rewrite bind_get.
        destruct (Hdate (clock p0)) as (p' & Hr & Hs & Hg & Hi).
        exists (Ret ()), p'. rewrite Hr. split; [done|].
        split; [done|]. split; [done|]. split; [by right|by left].
      * destruct (Date.strptime_Ymd (Py.strip line)) as [d|].
        -- destruct (Hdate d) as (p' & Hr & Hs & Hg & Hi).
           exists (Ret ()), p'. rewrite Hr. split; [done|].
           split; [done|]. split; [done|]. split; [by right|by left].
        -- rewrite print_error_run. eexists _, _. split; [done|].
           split; [done|]. split; [by left|]. split; [by right|by left].
    + rewrite Ein. eexists _, _. split; [done|].
      split; [done|]. split; [by left|]. split; [by right|].
      right. split; [by right|done].
  - case_bool_decide.
    + unfold log_display. rewrite bind_get.
      destruct (files p !! LOG_FILENAME) as [content|].
      * case_bool_decide.
        -- rewrite print_info_emit. eexists _, _. split; [done|].
           unfold log_grows. rewrite self_emit, files_emit, stdin_emit.
           split; [done|]. split; [by left|]. split; [by left|by left].
        -- unfold mbind, M_bind. rewrite print_info_emit, print_run.
           eexists _, _. split; [done|]. unfold log_grows.
           cbn [self files stdin set_stdout].
           rewrite self_emit, files_emit, stdin_emit.
           split; [done|]. split; [by left|]. split; [by left|by left].
      * rewrite print_info_emit. eexists _, _. split; [done|].
        unfold log_grows. rewrite self_emit, files_emit, stdin_emit.
        split; [done|]. split; [by left|]. split; [by left|by left].
    + rewrite print_error_run. eexists _, _. split; [done|].
      split; [done|]. split; [by left|]. split; [by left|by left].
Qed.

Lemma log_grows_trans p1 p2 p3 :
  log_grows p1 p2 → log_grows p2 p3 → log_grows p1 p3.
Proof.
  unfold log_grows. intros [H1|[a H1]] [H2|[b H2]].
  - left. congruence.
  - right. exists b. by rewrite H2, H1.
  - right. exists a. by rewrite H2, H1.
  - right. exists (a +:+ b).
    rewrite H2, H1, lookup_insert_eq, insert_insert_eq.
    cbn [from_option id]. by rewrite append_assoc.
Qed.

(** X12: No sequence of [log] commands changes the shell object or any file
    but the log, and the log only grows at its end; each command reads
    at most one line, and the only exceptions that stop the sequence are
    the [EOFError] and the [KeyboardInterrupt] of such a read. *)
Theorem log_commands_append_only (args : list string) (p : process) :
  ∃ r p',
    for_ args do_log p = (r, p')
    ∧ self p' = self p
    ∧ log_grows p p'
    ∧ stdin p' `suffix_of` stdin p
    ∧ (length (stdin p) ≤ length (stdin p') + length args)%nat
    ∧ (r = Ret () ∨ r = Raise EOFError ∨ r = Raise KeyboardInterrupt).
Proof.
  revert p. induction args as [|arg args IH]; intros p.
  { exists (Ret ()), p. split; [done|]. split; [done|].
    split; [by left|]. split; [done|]. split; [cbn; lia|by left]. }
  cbn [for_]. unfold mbind, M_bind.
  destruct (do_log_shape arg p) as (r & p1 & -> & Hs & Hg & Hi & Hr).
  assert (Hsuf : stdin p1 `suffix_of` stdin p
                 ∧ (length (stdin p) ≤ length (stdin p1) + 1)%nat).
  { destruct Hi as [-> | ->]; [split; [done|lia]|].
    split; [apply suffix_drop|]. rewrite length_drop. lia. }
  destruct Hsuf as [Hsuf Hlen].
  destruct Hr as [->|[Hr _]].
  - destruct (IH p1) as (r' & p' & -> & Hs' & Hg' & Hi' & Hl' & Hr').
    exists r', p'. split; [done|]. split; [congruence|].
    split; [by eapply log_grows_trans|].
    split; [by etrans|]. split; [cbn [length]; lia|done].
  - exists r, p1. split; [by destruct Hr as [-> | ->]|].
    split; [done|]. split; [done|]. split; [done|].
    split; [cbn [length]; lia|]. destruct Hr as [-> | ->]; auto.
Qed.

Lemma all_space_app (a b : string) :
  all_space (a +:+ b) = all_space a && all_space b.
Proof.
  induction a as [|c a IH]; [done|].
  rewrite append_cons. cbn [all_space]. by rewrite IH, andb_assoc.
Qed.

Lemma all_space_rev_app (s acc : string) :
  all_space (String.rev_app s acc) = all_space s && all_space acc.
Proof.
  revert acc. induction s as [|c s IH]; intros acc; [done|].
  cbn [String.rev_app all_space]. rewrite IH. cbn [all_space].
  by destruct (Py.isspace c), (all_space s), (all_space acc).
Qed.

Lemma lstrip_empty (s : string) : Py.lstrip s = EmptyString → all_space s = true.
Proof.
  induction s as [|c s IH]; [done|]. cbn [Py.lstrip all_space].
  destruct (Py.isspace c); [exact IH|discriminate].
Qed.

Lemma all_space_lstrip (s : string) :
  all_space (Py.lstrip s) = true → all_space s = true.
Proof.
  induction s as [|c s IH]; [done|]. cbn [Py.lstrip].
  destruct (Py.isspace c) eqn:E; [|done].
  cbn [all_space]. rewrite E. exact IH.
Qed.

(** Only white space strips to nothing. *)
Lemma strip_empty (s : string) : Py.strip s = EmptyString → all_space s = true.
Proof.
  unfold Py.strip, Py.rstrip. intros H.
  apply all_space_lstrip.
  assert (Hl : Py.lstrip (String.rev (Py.lstrip s)) = EmptyString).
  { rewrite <- (rev_involutive (Py.lstrip (String.rev (Py.lstrip s)))).
    by rewrite H. }
  apply lstrip_empty in Hl. unfold String.rev in Hl.
  rewrite all_space_rev_app in Hl. by apply andb_true_iff in Hl as [? _].
Qed.

Lemma all_space_join_last sep (l : list string) (d : string) :
  all_space d = false → all_space (Py.join sep (l ++ [d])) = false.
Proof.
  intros Hd. induction l as [|x l IH]; [done|].
  destruct l as [|y l].
  - change (Py.join sep ([x] ++ [d])) with (x +:+ sep +:+ d).
    rewrite !all_space_app, Hd. by rewrite !andb_false_r.
  - change (Py.join sep ((x :: y :: l) ++ [d]))
      with (x +:+ sep +:+ Py.join sep ((y :: l) ++ [d])).
    rewrite !all_space_app, IH. by rewrite !andb_false_r.
Qed.

Lemma emit_module c p :
  print_info_global p = module_print_info →
  emit c p = set_stdout (stdout p ++ c) p.
Proof. intros H. unfold emit. by rewrite H. Qed.

Lemma log_block_empty_store db log_date :
  select_groups db = [] → snd (log_block db log_date) = false.
Proof. intros H. unfold log_block. by rewrite H. Qed.

(** X13: A block that [log add] has written is shown by the next
    [log display]: after the banner line comes the whole file, the new
    block at its end and what the log held before in front of it. *)
Theorem log_add_then_display
    (p : process) (line : string) (rest : list key_input)
    (log_lines : list string) :
  stdin p = Line line :: rest →
  Py.strip line = EmptyString →
  print_info_global p = module_print_info →
  log_block (conn (self p)) (clock p) = (log_lines, true) →
  unwritable p !! LOG_FILENAME = None →
  let block := Py.join nl (log_lines ++ [Py.repeat_char "-" 40]) +:+ nl in
  let content := default EmptyString (files p !! LOG_FILENAME) +:+ block in
  ∃ p1,
    do_log "add" p = (Ret (), p1)
    ∧ stdin p1 = rest
    ∧ files p1 !! LOG_FILENAME = Some content
    ∧ do_log "display" p1
      = (Ret (),
         set_stdout
           (stdout p1
            ++ [("--- Workout Log (" +:+ LOG_FILENAME +:+ ") ---") +:+ nl;
                content +:+ nl]) p1).
Proof.
  intros Hin Hline Hb Hblock Hw block content.
  assert (Hne : select_groups (conn (self p)) ≠ []).
  { intros E. apply (log_block_empty_store _ (clock p)) in E.
    by rewrite Hblock in E. }
  change (do_log "add") with log_add.
  change (do_log "display") with log_display.
  unfold log_add, mbind at 1, M_bind at 1, input.
  cbn [stdin set_stdout]. rewrite Hin.
  rewrite bool_decide_eq_true_2 by done.
  rewrite bind_get. cbn [clock set_stdin set_stdout].
  rewrite log_add_date_run by done.
  cbn [self set_stdin set_stdout unwritable files stdout].
  rewrite Hblock, Hw.
  eexists. split; [done|]. split; [done|].
  cbn [files set_stdout set_files]. rewrite lookup_insert_eq.
  split; [done|].
  unfold log_display. rewrite bind_get.
  cbn [files set_stdout set_files]. rewrite lookup_insert_eq.
  rewrite bool_decide_eq_false_2.
  - unfold mbind, M_bind. rewrite print_info_emit, emit_module by done.
    rewrite print_run. cbn [stdout set_stdout]. by rewrite <- app_assoc.
  - intros E. apply strip_empty in E.
    rewrite !all_space_app in E.
    rewrite (all_space_join_last nl log_lines (Py.repeat_char "-" 40)) in E
      by done.
    by rewrite andb_false_r in E.
Qed.

Lemma first_match_spec (l : list string) (start dflt : Z) (day : string) :
  (day ∉ l → first_match (Py.enumerate start l) day dflt = dflt)
  ∧ (day ∈ l →
     ∃ i : nat,
       first_match (Py.enumerate start l) day dflt = start + Z.of_nat i
       ∧ l !! i = Some day
       ∧ ∀ j : nat, (j < i)%nat → l !! j ≠ Some day).
Proof.
  revert start. induction l as [|d l IH]; intros start.
  { split; [done|]. intros H. by apply elem_of_nil in H. }
  cbn [Py.enumerate first_match].
  destruct (decide (d = day)) as [->|Hne].
  - rewrite bool_decide_eq_true_2 by done. split.
    + intros H. destruct H. apply list_elem_of_here.
    + intros _. exists 0%nat. split; [lia|]. split; [done|]. lia.
  - rewrite bool_decide_eq_false_2 by done.
    destruct (IH (start + 1)) as [IH1 IH2]. split.
    + intros H. apply IH1. intros H'. apply H. by apply list_elem_of_further.
    + intros H. apply elem_of_cons in H as [H|H]; [congruence|].
      destruct (IH2 H) as (i & Hi & Hl & Hj).
      exists (S i). split; [lia|]. split; [done|].
      intros [|j] Hlt; cbn; [congruence|]. apply Hj. lia.
Qed.

(** X14: [get_occurrence_index] answers with the position, counted from 1, of
    the first non-blank token of the day list that equals the day, and
    with 1 when no token does. *)
Theorem get_occurrence_index_first (group_days day : string) :
  let tokens :=
    filter (λ d, d ≠ EmptyString) (Py.strip <$> Py.split "," group_days) in
  let k := get_occurrence_index group_days day in
  1 ≤ k
  ∧ (day ∉ tokens → k = 1)
  ∧ (day ∈ tokens →
     tokens !! Z.to_nat (k - 1) = Some day
     ∧ ∀ j : nat, (j < Z.to_nat (k - 1))%nat → tokens !! j ≠ Some day).
Proof.
  intros tokens k. subst k. unfold get_occurrence_index. fold tokens.
  destruct (first_match_spec tokens 1 0 day) as [Hout Hin].
  destruct (decide (day ∈ tokens)) as [H|H].
  - destruct (Hin H) as (i & Hi & Hl & Hj). rewrite Hi.
    replace (0 <? 1 + Z.of_nat i) with true by (symmetry; apply Z.ltb_lt; lia).
    replace (Z.to_nat (1 + Z.of_nat i - 1)) with i by lia.
    split; [lia|]. split; [done|]. by intros _.
  - rewrite (Hout H). cbn. split; [lia|]. split; [done|]. by intros ?.
Qed.

(** ** The command loop *)

Section Session.

Variable do_layout__doc__ : string.
Variables do_add do_edit do_help : string → M unit.

Lemma update_prompt_run p :
  ∃ p', update_prompt p = (Ret (), p')
        ∧ conn (self p') = conn (self p) ∧ stdin p' = stdin p
        ∧ stdout p' = stdout p ∧ files p' = files p.
Proof. by eexists. Qed.

Lemma parseline_line (line arg l : string) (cmd : string) :
  parseline line = (Some cmd, arg, l) → l ≠ EmptyString.
Proof.
  unfold parseline. destruct (Py.strip line) as [|c rest]; [done|].
  destruct (Ascii.eqb c "!"); [done|].
  destruct (span_ident _) as [w r]. intros [= _ _ <-].
  by destruct (Ascii.eqb c "?").
Qed.

Lemma blank_line_run (line : string) (p : process) :
  Py.strip line = EmptyString →
  onecmd do_layout__doc__ do_add do_edit do_help line p = (Ret false, p).
Proof. intros H. unfold onecmd, parseline. by rewrite H. Qed.

(** X15: A line whose command word is [exit] ends the session at once,
    whatever follows the word: "Goodbye!" is printed and the lines still
    pending are not read. *)
Theorem exit_ends_session
    (line arg l : string) (rest : list key_input) (turns : nat) (p : process) :
  parseline line = (Some "exit", arg, l) →
  stdin p = Line line :: rest →
  ∃ p', run do_layout__doc__ do_add do_edit do_help (S turns) p = (Exited, p')
        ∧ stdin p' = rest
        ∧ stdout p' = stdout p ++ [prompt (self p); "Goodbye!" +:+ nl]
        ∧ conn (self p') = conn (self p) ∧ files p' = files p.
Proof.
  intros Hparse Hin.
  pose proof (parseline_line _ _ _ _ Hparse) as Hl.
  cbn [run]. unfold cmdloop_step.
  rewrite bind_get. unfold mbind at 1, M_bind at 1, input.
  cbn [stdin set_stdout]. rewrite Hin.
  unfold mbind at 1, M_bind at 1.
  destruct (update_prompt_run (set_stdin rest
              (set_stdout (stdout p ++ [prompt (self p)]) p)))
    as (p1 & Hup & Hc & Hi & Ho & Hf).
  rewrite Hup. unfold onecmd. rewrite Hparse.
  rewrite bool_decide_eq_false_2 by done.
  change (bool_decide ("exit" = "add")) with false.
  change (bool_decide ("exit" = "edit")) with false.
  change (bool_decide ("exit" = "index")) with false.
  change (bool_decide ("exit" = "layout")) with false.
  change (bool_decide ("exit" = "log")) with false.
  change (bool_decide ("exit" = "cmd")) with false.
  change (bool_decide ("exit" = "help")) with false.
  change (bool_decide ("exit" = "exit")) with true.
  cbv iota. unfold do_exit, mbind, M_bind. rewrite print_run.
  eexists. split; [done|].
  cbn [stdin stdout self files set_stdout].
  rewrite Hi, Ho, Hc, Hf. cbn [stdin stdout self files set_stdout set_stdin].
  by rewrite <- app_assoc.
Qed.

Lemma cmdloop_step_end_of_input (p : process) :
  stdin p = [] →
  ∃ p', cmdloop_step do_layout__doc__ do_add do_edit do_help p = (Ret false, p')
        ∧ stdin p' = [] ∧ conn (self p') = conn (self p)
        ∧ files p' = files p.
Proof.
  intros Hin. unfold cmdloop_step.
  rewrite bind_get. unfold mbind at 1, M_bind at 1, input.
  cbn [stdin set_stdout]. rewrite Hin.
  unfold mbind at 1, M_bind at 1.
  destruct (update_prompt_run (set_stdout (stdout p ++ [prompt (self p)]) p))
    as (p1 & Hup & Hc & Hi & Ho & Hf).
  rewrite Hup.
  change (onecmd do_layout__doc__ do_add do_edit do_help "EOF")
    with (do_EOF EmptyString).
  eexists. split; [done|]. cbn [stdin self files set_stdout].
  by rewrite Hi, Hc, Hf.
Qed.

Lemma cmdloop_step_interrupt (p : process) (rest : list key_input) :
  stdin p = Interrupt :: rest →
  ∃ p', cmdloop_step do_layout__doc__ do_add do_edit do_help p
        = (Raise KeyboardInterrupt, p')
        ∧ stdin p' = rest ∧ self p' = self p ∧ files p' = files p.
Proof.
  intros Hin. unfold cmdloop_step.
  rewrite bind_get. unfold mbind at 1, M_bind at 1, input.
  cbn [stdin set_stdout]. rewrite Hin. by eexists.
Qed.

Lemma end_of_input_keeps_running (turns : nat) (p : process) :
  stdin p = [] →
  ∃ p', run do_layout__doc__ do_add do_edit do_help turns p = (Running, p')
        ∧ conn (self p') = conn (self p) ∧ files p' = files p.
Proof.
  revert p. induction turns as [|turns IH]; intros p Hin.
  { by exists p. }
  cbn [run].
  destruct (cmdloop_step_end_of_input p Hin) as (p1 & -> & Hi & Hc & Hf).
  destruct (IH p1 Hi) as (p' & Hrun & Hc' & Hf').
  exists p'. split; [done|]. split; congruence.
Qed.

Lemma cmdloop_step_blank (p : process) (line : string) (rest : list key_input) :
  stdin p = Line line :: rest → Py.strip line = EmptyString →
  ∃ p', cmdloop_step do_layout__doc__ do_add do_edit do_help p = (Ret false, p')
        ∧ stdin p' = rest ∧ conn (self p') = conn (self p)
        ∧ files p' = files p.
Proof.
  intros Hin Hline. unfold cmdloop_step.
  rewrite bind_get. unfold mbind at 1, M_bind at 1, input.
  cbn [stdin set_stdout]. rewrite Hin.
  unfold mbind at 1, M_bind at 1.
  destruct (update_prompt_run (set_stdin rest
              (set_stdout (stdout p ++ [prompt (self p)]) p)))
    as (p1 & Hup & Hc & Hi & Ho & Hf).
  rewrite Hup, (blank_line_run line p1 Hline).
  exists p1. by rewrite Hi, Hc, Hf.
Qed.

(** X16: Blank lines, Ctrl-C at the prompt and the end of the input neither
    close the shell nor run anything: on a console that delivers only
    these the loop is still running after any number of turns, with the
    store and the files untouched.  In particular a blank line does not
    run the last command again. *)
Theorem idle_input_keeps_running (turns : nat) (p : process) :
  Forall idle (stdin p) →
  ∃ p', run do_layout__doc__ do_add do_edit do_help turns p = (Running, p')
        ∧ conn (self p') = conn (self p) ∧ files p' = files p.
Proof.
  revert p. induction turns as [|turns IH]; intros p Hidle.
  { by exists p. }
  cbn [run]. destruct (stdin p) as [|[line|] rest] eqn:Hin.
  - destruct (cmdloop_step_end_of_input p Hin) as (p1 & -> & Hi & Hc & Hf).
    destruct (IH p1) as (p' & Hrun & Hc' & Hf'); [by rewrite Hi|].
    exists p'. split; [done|]. split; congruence.
  - apply Forall_cons in Hidle as [Hline Hidle]. cbn [idle] in Hline.
    destruct (cmdloop_step_blank p line rest Hin Hline)
      as (p1 & -> & Hi & Hc & Hf).
    destruct (IH p1) as (p' & Hrun & Hc' & Hf'); [by rewrite Hi|].
    exists p'. split; [done|]. split; congruence.
  - apply Forall_cons in Hidle as [_ Hidle].
    destruct (cmdloop_step_interrupt p rest Hin) as (p1 & -> & Hi & Hs & Hf).
    destruct (IH (snd (print_EOF p1))) as (p' & Hrun & Hc' & Hf');
      [by rewrite <- Hi in Hidle|].
    exists p'. split; [done|]. rewrite Hc', Hf'. cbn. by rewrite Hs, Hf.
Qed.

Section Editors.

(** The commands taken as given read from the console at most. *)
Hypothesis do_add_reads :
  ∀ arg p, stdin (snd (do_add arg p)) `suffix_of` stdin p.
Hypothesis do_edit_reads :
  ∀ arg p, stdin (snd (do_edit arg p)) `suffix_of` stdin p.
Hypothesis do_help_reads :
  ∀ arg p, stdin (snd (do_help arg p)) `suffix_of` stdin p.

Lemma then_false_shape (m : M unit) (p : process) :
  stdin (snd (m p)) `suffix_of` stdin p →
  stdin (snd ((m;; mret false) p)) `suffix_of` stdin p
  ∧ fst ((m;; (mret false : M bool)) p) ≠ Ret true.
Proof.
  unfold mbind, M_bind. by destruct (m p) as [[[]|e] p'].
Qed.

Lemma onecmd_shape (line : string) (p : process) :
  stdin (snd (onecmd do_layout__doc__ do_add do_edit do_help line p))
    `suffix_of` stdin p
  ∧ (fst (onecmd do_layout__doc__ do_add do_edit do_help line p) = Ret true →
     fst (fst (parseline line)) = Some "exit").
Proof.
  unfold onecmd. destruct (parseline line) as [[cmd arg] l].
  case_bool_decide; [done|].
  destruct cmd as [cmd|]; [|done]. cbn [fst].
  assert (Hthen : ∀ m : M unit,
    stdin (snd (m p)) `suffix_of` stdin p →
    stdin (snd ((m;; mret false) p)) `suffix_of` stdin p
    ∧ (fst ((m;; (mret false : M bool)) p) = Ret true → Some cmd = Some "exit")).
  { intros m Hm. destruct (then_false_shape m p Hm) as [? ?]. by split. }
  case_bool_decide; [by apply Hthen|].
  case_bool_decide; [by apply Hthen|].
  case_bool_decide.
  { apply Hthen. destruct (do_index_shape arg p) as (r & p' & Hr & Hp & _).
    rewrite Hr. cbn [snd]. destruct Hp as (_ & _ & _ & _ & Hi & _).
    by rewrite Hi. }
  case_bool_decide.
  { apply Hthen.
    destruct (do_layout_shape do_layout__doc__ arg p) as (p' & Hr & Hp).
    rewrite Hr. cbn [snd]. destruct Hp as (_ & _ & _ & Hi & _).
    by rewrite Hi. }
  case_bool_decide.
  { apply Hthen. destruct (do_log_shape arg p) as (r & p' & Hr & _ & _ & Hi & _).
    rewrite Hr. cbn [snd].
    destruct Hi as [Hi|Hi]; rewrite Hi; [done|]. apply suffix_drop. }
  case_bool_decide.
  { apply Hthen. unfold do_cmd. by case_bool_decide. }
  case_bool_decide; [by apply Hthen|].
  case_bool_decide; [by subst|].
  by case_bool_decide.
Qed.

(** X17: The session ends normally only through an [exit] line: if the loop
    has exited, one of the lines that were waiting to be read has [exit]
    as its command word. *)
Theorem session_exits_only_on_exit (turns : nat) (p : process) :
  fst (run do_layout__doc__ do_add do_edit do_help turns p) = Exited →
  ∃ line, Line line ∈ stdin p ∧ fst (fst (parseline line)) = Some "exit".
Proof.
  revert p. induction turns as [|turns IH]; intros p; [done|].
  cbn [run]. unfold cmdloop_step.
  rewrite bind_get. unfold mbind at 1, M_bind at 1, input.
  cbn [stdin set_stdout].
  assert (Hstep : ∀ (line : string) (rest : list key_input) (q : process),
    stdin q = rest →
    (∀ q', stdin q' `suffix_of` rest →
           fst (run do_layout__doc__ do_add do_edit do_help turns q') = Exited →
           ∃ l, Line l ∈ stdin p ∧ fst (fst (parseline l)) = Some "exit") →
    (fst (fst (parseline line)) = Some "exit" →
     ∃ l, Line l ∈ stdin p ∧ fst (fst (parseline l)) = Some "exit") →
    fst match (update_prompt;;
               onecmd do_layout__doc__ do_add do_edit do_help line) q with
        | (Ret true, p') => (Exited, p')
        | (Ret false, p') =>
            run do_layout__doc__ do_add do_edit do_help turns p'
        | (Raise KeyboardInterrupt, p') =>
            run do_layout__doc__ do_add do_edit do_help turns
                (snd (print_EOF p'))
        | (Raise e, p') => (Crashed e, p')
        end = Exited →
    ∃ l, Line l ∈ stdin p ∧ fst (fst (parseline l)) = Some "exit").
  { intros line rest q Hq Hnext Hexit.
    unfold mbind at 1, M_bind at 1.
    destruct (update_prompt_run q) as (q1 & -> & _ & Hi & _).
    destruct (onecmd_shape line q1) as [Hsuf Htrue].
    destruct (onecmd do_layout__doc__ do_add do_edit do_help line q1)
      as [[[|]|e] q2]; cbn [fst snd] in *.
    - intros _. by apply Hexit, Htrue.
    - apply Hnext. by rewrite <- Hq, <- Hi.
    - destruct e; try done. apply Hnext. by rewrite <- Hq, <- Hi. }
  destruct (stdin p) as [|[line|] rest] eqn:Hin.
  - apply (Hstep "EOF" []); [done| |done].
    intros q' Hsuf Hrun. destruct (IH q' Hrun) as (l & Hl & _).
    apply suffix_nil_inv in Hsuf. rewrite Hsuf in Hl.
    by apply elem_of_nil in Hl.
  - apply (Hstep line rest); [done| |].
    + intros q' Hsuf Hrun. destruct (IH q' Hrun) as (l & Hl & Hp).
      exists l. split; [|done]. apply list_elem_of_further.
      destruct Hsuf as [k ->]. apply elem_of_app. by right.
    + intros Hp. exists line. split; [apply list_elem_of_here|done].
  - intros Hrun. destruct (IH _ Hrun) as (l & Hl & Hp).
    exists l. split; [|done]. by apply list_elem_of_further.
Qed.

End Editors.

End Session.

(** ** The calendar of the weekly layout *)

Lemma days_before_year_split (n400 n100 n4 n1 : Z) :
  0 ≤ n100 ≤ 3 → 0 ≤ n4 ≤ 24 → 0 ≤ n1 ≤ 3 →
  Date._days_before_year (n400 * 400 + 1 + n100 * 100 + n4 * 4 + n1)
  = n400 * 146097 + n100 * 36524 + n4 * 1461 + n1 * 365.
Proof.
  intros H100 H4 H1. unfold Date._days_before_year. cbv zeta.
  replace (n400 * 400 + 1 + n100 * 100 + n4 * 4 + n1 - 1)
    with (n400 * 400 + n100 * 100 + n4 * 4 + n1) by lia.
  assert (E4 : (n400 * 400 + n100 * 100 + n4 * 4 + n1) / 4
               = n400 * 100 + n100 * 25 + n4).
  { symmetry. apply (Z.div_unique _ _ _ n1); lia. }
  assert (E100 : (n400 * 400 + n100 * 100 + n4 * 4 + n1) / 100
                 = n400 * 4 + n100).
  { symmetry. apply (Z.div_unique _ _ _ (n4 * 4 + n1)); lia. }
  assert (E400 : (n400 * 400 + n100 * 100 + n4 * 4 + n1) / 400 = n400).
  { symmetry. apply (Z.div_unique _ _ _ (n100 * 100 + n4 * 4 + n1)); lia. }
  rewrite E4, E100, E400. lia.
Qed.

Lemma is_leap_split (n400 n100 n4 n1 : Z) :
  0 ≤ n100 ≤ 3 → 0 ≤ n4 ≤ 24 → 0 ≤ n1 ≤ 3 →
  Date._is_leap (n400 * 400 + 1 + n100 * 100 + n4 * 4 + n1)
  = (n1 =? 3) && (negb (n4 =? 24) || (n100 =? 3)).
Proof.
  intros H100 H4 H1. unfold Date._is_leap.
  set (y := n400 * 400 + 1 + n100 * 100 + n4 * 4 + n1).
  assert (M4 : y mod 4 = (n1 + 1) mod 4).
  { subst y. replace (n400 * 400 + 1 + n100 * 100 + n4 * 4 + n1)
      with ((n1 + 1) + (n400 * 100 + n100 * 25 + n4) * 4) by lia.
    apply Z.mod_add. lia. }
  assert (M100 : y mod 100 = (n4 * 4 + n1 + 1) mod 100).
  { subst y. replace (n400 * 400 + 1 + n100 * 100 + n4 * 4 + n1)
      with ((n4 * 4 + n1 + 1) + (n400 * 4 + n100) * 100) by lia.
    apply Z.mod_add. lia. }
  assert (M400 : y mod 400 = (n100 * 100 + n4 * 4 + n1 + 1) mod 400).
  { subst y. replace (n400 * 400 + 1 + n100 * 100 + n4 * 4 + n1)
      with ((n100 * 100 + n4 * 4 + n1 + 1) + n400 * 400) by lia.
    apply Z.mod_add. lia. }
  rewrite M4, M100, M400. clearbody y.
  assert (n1 = 0 ∨ n1 = 1 ∨ n1 = 2 ∨ n1 = 3) as [->|[->|[->| ->]]] by lia;
    try reflexivity.
  change ((3 + 1) mod 4 =? 0) with true. change (3 =? 3) with true.
  cbn [andb].
  destruct (Z.eq_dec n4 24) as [->|Hn4].
  - change (24 =? 24) with true. cbn [negb orb].
    change ((24 * 4 + 3 + 1) mod 100 =? 0) with true. cbn [negb orb].
    assert (n100 = 0 ∨ n100 = 1 ∨ n100 = 2 ∨ n100 = 3) as [->|[->|[->| ->]]]
      by lia; reflexivity.
  - replace (n4 =? 24) with false by (symmetry; apply Z.eqb_neq; lia).
    cbn [negb orb].
    replace ((n4 * 4 + 3 + 1) mod 100 =? 0) with false; [done|].
    symmetry. apply Z.eqb_neq. rewrite Z.mod_small; lia.
Qed.

Lemma month_day_ok (leapyear : bool) (n : Z) :
  0 ≤ n < 365 →
  let m := Z.shiftr (n + 50) 5 in
  let preceding :=
    Date.table Date._DAYS_BEFORE_MONTH m
    + (if (2 <? m) && leapyear then 1 else 0) in
  let m' := if n <? preceding then m - 1 else m in
  let preceding' :=
    if n <? preceding then
      preceding - (Date.table Date._DAYS_IN_MONTH (m - 1)
                   + (if (m - 1 =? 2) && leapyear then 1 else 0))
    else preceding in
  Date.table Date._DAYS_BEFORE_MONTH m'
  + (if (2 <? m') && leapyear then 1 else 0) = preceding'.
Proof.
  intros Hn.
  assert (Hall : forallb (λ k,
    let m := Z.shiftr (k + 50) 5 in
    let preceding :=
      Date.table Date._DAYS_BEFORE_MONTH m
      + (if (2 <? m) && leapyear then 1 else 0) in
    let m' := if k <? preceding then m - 1 else m in
    let preceding' :=
      if k <? preceding then
        preceding - (Date.table Date._DAYS_IN_MONTH (m - 1)
                     + (if (m - 1 =? 2) && leapyear then 1 else 0))
      else preceding in
    Date.table Date._DAYS_BEFORE_MONTH m'
    + (if (2 <? m') && leapyear then 1 else 0) =? preceding') (seqZ 0 365)
    = true).
  { by destruct leapyear; vm_compute. }
  rewrite forallb_forall in Hall.
  specialize (Hall n). cbv zeta in Hall |- *.
  apply Z.eqb_eq, Hall. apply list_elem_of_In, elem_of_seqZ. lia.
Qed.

Lemma ord_ymd_ord (n : Z) : 1 ≤ n → Date.toordinal (Date.fromordinal n) = n.
Proof.
  intros Hn. unfold Date.fromordinal, Date._ord2ymd. cbv zeta.
  set (n0 := n - 1).
  set (n400 := n0 / 146097). set (r := n0 mod 146097).
  set (n100 := r / 36524). set (r2 := r mod 36524).
  set (n4 := r2 / 1461). set (r3 := r2 mod 1461).
  set (n1 := r3 / 365). set (r4 := r3 mod 365).
  assert (H0 : n0 = n400 * 146097 + r ∧ 0 ≤ r < 146097).
  { subst n400 r. pose proof (Z.div_mod n0 146097).
    pose proof (Z.mod_pos_bound n0 146097). lia. }
  assert (H1 : r = n100 * 36524 + r2 ∧ 0 ≤ r2 < 36524).
  { subst n100 r2. pose proof (Z.div_mod r 36524).
    pose proof (Z.mod_pos_bound r 36524). lia. }
  assert (H2 : r2 = n4 * 1461 + r3 ∧ 0 ≤ r3 < 1461).
  { subst n4 r3. pose proof (Z.div_mod r2 1461).
    pose proof (Z.mod_pos_bound r2 1461). lia. }
  assert (H3 : r3 = n1 * 365 + r4 ∧ 0 ≤ r4 < 365).
  { subst n1 r4. pose proof (Z.div_mod r3 365).
    pose proof (Z.mod_pos_bound r3 365). lia. }
  assert (B100 : 0 ≤ n100 ≤ 4) by lia.
  assert (B4 : 0 ≤ n4 ≤ 24) by lia.
  assert (B1 : 0 ≤ n1 ≤ 4) by lia.
  assert (Hn0 : n = n0 + 1) by (subst n0; lia).
  clearbody n400 r n100 r2 n4 r3 n1 r4 n0.
  destruct ((n1 =? 4) || (n100 =? 4)) eqn:Hsp.
  - unfold Date.toordinal, Date._ymd2ord. cbn [Date.year Date.month Date.day].
    apply orb_true_iff in Hsp as [H|H]; apply Z.eqb_eq in H.
    + assert (n100 ≤ 3 ∧ n4 ≤ 23) as [? ?] by lia.
      replace (n400 * 400 + 1 + n100 * 100 + n4 * 4 + n1 - 1)
        with (n400 * 400 + 1 + n100 * 100 + n4 * 4 + 3) by lia.
      unfold Date._days_before_month.
      rewrite days_before_year_split, is_leap_split by lia.
      change (3 =? 3) with true.
      replace (n4 =? 24) with false by (symmetry; apply Z.eqb_neq; lia).
      change (Date.table Date._DAYS_BEFORE_MONTH 12) with 334.
      change (2 <? 12) with true. cbn [negb orb andb]. lia.
    + assert (n4 = 0 ∧ n1 = 0 ∧ r4 = 0) as (-> & -> & ->) by lia. subst n100.
      replace (n400 * 400 + 1 + 4 * 100 + 0 * 4 + 0 - 1)
        with (n400 * 400 + 1 + 3 * 100 + 24 * 4 + 3) by lia.
      unfold Date._days_before_month.
      rewrite days_before_year_split, is_leap_split by lia.
      change (Date.table Date._DAYS_BEFORE_MONTH 12) with 334.
      change (2 <? 12) with true. change (3 =? 3) with true.
      change (24 =? 24) with true. cbn [negb orb andb]. lia.
  - apply orb_false_iff in Hsp as [Ha Hb].
    apply Z.eqb_neq in Ha, Hb.
    pose proof (month_day_ok ((n1 =? 3) && (negb (n4 =? 24) || (n100 =? 3)))
                  r4 ltac:(lia)) as Hm.
    cbv zeta in Hm.
    set (leapyear := (n1 =? 3) && (negb (n4 =? 24) || (n100 =? 3))) in *.
    set (m := Z.shiftr (r4 + 50) 5) in *.
    set (preceding := Date.table Date._DAYS_BEFORE_MONTH m
                      + (if (2 <? m) && leapyear then 1 else 0)) in *.
    destruct (r4 <? preceding);
      unfold Date.toordinal, Date._ymd2ord, Date._days_before_month;
      cbn [Date.year Date.month Date.day];
      rewrite days_before_year_split, is_leap_split by lia;
      fold leapyear; lia.
Qed.

Lemma valid_toordinal (d : Date.date) :
  Date.valid d = true → 1 ≤ Date.toordinal d.
Proof.
  unfold Date.valid. intros H.
  repeat (apply andb_true_iff in H as [H ?]).
  repeat match goal with
         | H : (_ <=? _) = true |- _ => apply Z.leb_le in H
         end.
  unfold Date.toordinal, Date._ymd2ord, Date._days_before_year,
    Date._days_before_month.
  cbv zeta.
  assert (Hm : 0 ≤ Date.table Date._DAYS_BEFORE_MONTH (Date.month d)).
  { assert (Date.month d ∈ seqZ 1 12) as Hin by (apply elem_of_seqZ; lia).
    revert Hin. generalize (Date.month d). intros m Hin.
    change (seqZ 1 12) with [1; 2; 3; 4; 5; 6; 7; 8; 9; 10; 11; 12] in Hin.
    repeat (apply elem_of_cons in Hin as [->|Hin]; [by vm_compute|]).
    by apply elem_of_nil in Hin. }
  assert (Hy : 0 ≤ (Date.year d - 1) * 365 + (Date.year d - 1) / 4
               - (Date.year d - 1) / 100 + (Date.year d - 1) / 400).
  { assert (0 ≤ Date.year d - 1) by lia.
    generalize dependent (Date.year d - 1). intros x Hx.
    Z.div_mod_to_equations. lia. }
  destruct ((2 <? Date.month d) && Date._is_leap (Date.year d)); lia.
Qed.

Lemma weekday_add_days (d : Date.date) (i : Z) :
  1 ≤ Date.toordinal d + i →
  Date.weekday (Date.add_days d i) = (Date.weekday d + i) mod 7.
Proof.
  intros H. unfold Date.weekday, Date.add_days. rewrite ord_ymd_ord by done.
  replace (Date.toordinal d + i + 6) with (Date.toordinal d + 6 + i) by lia.
  by rewrite Zplus_mod_idemp_l.
Qed.

Lemma week_names (today : Date.date) :
  1 ≤ Date.toordinal today →
  snd <$> dates_and_weekdays today
  = rotate (Z.to_nat (Date.weekday today)) valid_days_order.
Proof.
  intros H. unfold dates_and_weekdays. cbv zeta.
  change (seqZ 0 7) with [0; 1; 2; 3; 4; 5; 6].
  cbn [fmap list_fmap snd]. unfold Date.strftime_a.
  rewrite !weekday_add_days by lia.
  assert (Hw : Date.weekday today ∈ seqZ 0 7).
  { apply elem_of_seqZ. unfold Date.weekday.
    pose proof (Z.mod_pos_bound (Date.toordinal today + 6) 7). lia. }
  revert Hw. generalize (Date.weekday today). intros w Hw.
  change (seqZ 0 7) with [0; 1; 2; 3; 4; 5; 6] in Hw.
  repeat (apply elem_of_cons in Hw as [->|Hw]; [reflexivity|]).
  by apply elem_of_nil in Hw.
Qed.

Lemma bind_app_perm {A B : Type} (f g : A → list B) (l : list A) :
  (x ← l; f x ++ g x) ≡ₚ (x ← l; f x) ++ (x ← l; g x).
Proof.
  induction l as [|x l IH]; [done|]. rewrite !bind_cons, IH.
  rewrite <- !app_assoc. apply Permutation_app_head.
  rewrite !app_assoc. apply Permutation_app_tail, Permutation_app_comm.
Qed.

Lemma one_day_matches {B : Type} (d : string) (y : B) :
  d ∈ valid_days_order →
  (day ← valid_days_order; if bool_decide (d = day) then [y] else []) = [y].
Proof.
  intros H. unfold valid_days_order in H.
  repeat (apply elem_of_cons in H as [->|H]; [reflexivity|]).
  by apply elem_of_nil in H.
Qed.

Lemma matching_slots_week (group : group_row) (l : list (Z * string)) :
  Forall (λ od, snd od ∈ valid_days_order) l →
  (day ← valid_days_order;
   omap (λ '(occ_idx, d),
           if bool_decide (d = day) then Some (group, occ_idx) else None) l)
  ≡ₚ (λ '(occ_idx, _), (group, occ_idx)) <$> l.
Proof.
  induction 1 as [|[occ d] l Hd Hl IH].
  { by induction valid_days_order. }
  cbn [snd] in Hd.
  rewrite (list_bind_ext _
    (λ day,
       (if bool_decide (d = day) then [(group, occ)] else [])
       ++ omap (λ '(occ_idx, d),
                  if bool_decide (d = day) then Some (group, occ_idx) else None)
               l) _ valid_days_order); [|intros day|done].
  - by rewrite bind_app_perm, IH, one_day_matches by done.
  - cbn [omap list_omap]. by destruct (bool_decide (d = day)).
Qed.

Lemma slot_days_valid (group : group_row) :
  Forall (λ od : Z * string, snd od ∈ valid_days_order) (slot_occurrences group).
Proof.
  apply Forall_forall. intros [k d] Hin. cbn [snd].
  apply (days_list_valid group). unfold slot_occurrences in Hin.
  by eapply enumerate_elem.
Qed.

Lemma slots_on_week (groups : list group_row) :
  (day ← valid_days_order; slots_on day groups) ≡ₚ all_slots groups.
Proof.
  induction groups as [|g groups IH].
  { by induction valid_days_order. }
  rewrite (list_bind_ext _
    (λ day, matching_slots day g ++ slots_on day groups) _ valid_days_order);
    [|intros day; apply slots_on_cons|done].
  rewrite bind_app_perm, IH. unfold all_slots at 2. rewrite bind_cons.
  apply Permutation_app_tail. unfold matching_slots.
  apply matching_slots_week, slot_days_valid.
Qed.

Lemma rotate_perm {A : Type} (n : nat) (l : list A) : rotate n l ≡ₚ l.
Proof.
  unfold rotate. rewrite Permutation_app_comm. by rewrite take_drop.
Qed.


(** ** More on [do_log] and on prompts inside commands *)

(** [log add] with the date left empty, when something is scheduled today
    and the log can be written. *)
Lemma log_add_today_run
    (p : process) (line : string) (rest : list key_input)
    (log_lines : list string) :
  stdin p = Line line :: rest →
  Py.strip line = EmptyString →
  print_info_global p = module_print_info →
  log_block (conn (self p)) (clock p) = (log_lines, true) →
  unwritable p !! LOG_FILENAME = None →
  do_log "add" p
  = (Ret (),
     set_stdout
       (stdout p
        ++ ["Enter date to log (YYYY-MM-DD) [default: today]: ";
            ("Workout layout for " +:+ Date.strftime_mdy (clock p)
             +:+ " added to log.") +:+ nl])
       (set_files
          (<[LOG_FILENAME :=
               default EmptyString (files p !! LOG_FILENAME)
               +:+ (Py.join nl (log_lines ++ [Py.repeat_char "-" 40]) +:+ nl)]>
             (files p))
          (set_stdin rest p))).
Proof.
  intros Hin Hline Hb Hblock Hw.
  assert (Hne : select_groups (conn (self p)) ≠ []).
  { intros E. apply (log_block_empty_store _ (clock p)) in E.
    by rewrite Hblock in E. }
  change (do_log "add") with log_add.
  unfold log_add, mbind at 1, M_bind at 1, input.
  cbn [stdin set_stdout]. rewrite Hin.
  rewrite bool_decide_eq_true_2 by done.
  rewrite bind_get. cbn [clock set_stdin set_stdout].
  rewrite log_add_date_run by done.
  cbn [self set_stdin set_stdout unwritable files stdout].
  rewrite Hblock, Hw. by rewrite <- app_assoc.
Qed.

(** X19: [log add] does not look at what the log already holds: logging the
    same day a second time appends the same block a second time. *)
Theorem log_add_twice_duplicates
    (p : process) (line1 line2 : string) (rest : list key_input)
    (log_lines : list string) :
  stdin p = Line line1 :: Line line2 :: rest →
  Py.strip line1 = EmptyString → Py.strip line2 = EmptyString →
  print_info_global p = module_print_info →
  log_block (conn (self p)) (clock p) = (log_lines, true) →
  unwritable p !! LOG_FILENAME = None →
  let block := Py.join nl (log_lines ++ [Py.repeat_char "-" 40]) +:+ nl in
  ∃ p2, (do_log "add";; do_log "add") p = (Ret (), p2)
        ∧ stdin p2 = rest
        ∧ files p2 !! LOG_FILENAME
          = Some ((default EmptyString (files p !! LOG_FILENAME) +:+ block)
                  +:+ block).
Proof.
  intros Hin H1 H2 Hb Hblock Hw block.
  unfold mbind, M_bind.
  rewrite (log_add_today_run p line1 (Line line2 :: rest) log_lines) by done.
  rewrite (log_add_today_run _ line2 rest log_lines) by done.
  eexists. split; [done|]. split; [done|].
  cbn [files set_stdout set_files set_stdin].
  by rewrite !lookup_insert_eq.
Qed.

Section Prompts.

Variable do_layout__doc__ : string.
Variables do_add do_edit do_help : string → M unit.

(** X20: At the date prompt of [log add] the end of the input is not handled:
    the [EOFError] leaves the command and the loop, and the process ends.
    Ctrl-C at the same prompt is caught around the loop, which goes on. *)
Theorem log_prompt_end_of_input
    (line arg l : string) (turns : nat) (p : process) :
  parseline line = (Some "log", arg, l) →
  Py.lower (Py.strip arg) = "add" →
  (stdin p = [Line line] →
   fst (run do_layout__doc__ do_add do_edit do_help (S turns) p)
   = Crashed EOFError)
  ∧ (stdin p = [Line line; Interrupt] →
     fst (run do_layout__doc__ do_add do_edit do_help (S turns) p)
     = Running).
Proof.
  intros Hparse Harg.
  pose proof (parseline_line _ _ _ _ Hparse) as Hl.
  assert (Hcmd : ∀ q,
    onecmd do_layout__doc__ do_add do_edit do_help line q
    = (log_add;; mret false) q).
  { intros q. unfold onecmd. rewrite Hparse.
    rewrite bool_decide_eq_false_2 by done.
    change (bool_decide ("log" = "add")) with false.
    change (bool_decide ("log" = "edit")) with false.
    change (bool_decide ("log" = "index")) with false.
    change (bool_decide ("log" = "layout")) with false.
    change (bool_decide ("log" = "log")) with true.
    cbv iota. unfold do_log. rewrite Harg. done. }
  assert (Hstep : ∀ rest,
    stdin p = Line line :: rest →
    ∃ p1, cmdloop_step do_layout__doc__ do_add do_edit do_help p
          = ((log_add;; mret false) : M bool) p1
          ∧ stdin p1 = rest).
  { intros rest Hin. unfold cmdloop_step.
    rewrite bind_get. unfold mbind at 1, M_bind at 1, input.
    cbn [stdin set_stdout]. rewrite Hin.
    unfold mbind at 1, M_bind at 1.
    destruct (update_prompt_run (set_stdin rest
                (set_stdout (stdout p ++ [prompt (self p)]) p)))
      as (p1 & Hup & _ & Hi & _).
    rewrite Hup. exists p1. split; [apply Hcmd|done]. }
  split; intros Hin.
  - destruct (Hstep [] Hin) as (p1 & Hrun & Hi).
    cbn [run]. rewrite Hrun.
    unfold log_add, mbind, M_bind, input. cbn [stdin set_stdout].
    by rewrite Hi.
  - destruct (Hstep [Interrupt] Hin) as (p1 & Hrun & Hi).
    cbn [run]. rewrite Hrun.
    unfold log_add, mbind, M_bind, input. cbn [stdin set_stdout].
    rewrite Hi.
    edestruct (end_of_input_keeps_running do_layout__doc__ do_add do_edit
                 do_help turns) as (p' & Hrest & _); [|by rewrite Hrest].
    done.
Qed.

End Prompts.

(** ** The prompts of the editors *)

Lemma while_true_ends {A : Type} (body : M (option A)) :
  (∀ q r q', body q = (Ret r, q') → (length (stdin q') < length (stdin q))%nat) →
  ∀ turns p p',
    (length (stdin p) < turns)%nat →
    while_true turns body p ≠ (Ret None, p').
Proof.
  intros Hbody. induction turns as [|turns IH]; intros p p' Hlen; [lia|].
  cbn [while_true]. unfold mbind, M_bind.
  destruct (body p) as [[[a|]|e] q] eqn:E; try done.
  apply IH. apply Hbody in E. lia.
Qed.

Lemma prompt_input_reads text q line q' :
  prompt_input text q = (Ret line, q') →
  (length (stdin q') < length (stdin q))%nat.
Proof.
  unfold prompt_input, input. cbn [stdin set_stdout].
  destruct (stdin q) as [|[l|] rest] eqn:E; intros [= _ <-]; cbn; lia.
Qed.

Lemma days_answer_canonical (s : string) (l : list string) :
  days_answer s = Some l → Forall (λ d, d ∈ valid_days_order) l.
Proof.
  unfold days_answer. case_bool_decide; [by intros [= <-]|].
  destruct (negb _ && forallb _ _) eqn:E; [|done]. intros [= <-].
  apply andb_true_iff in E as [_ E]. apply Forall_forall. intros d Hd.
  rewrite forallb_forall in E. apply list_elem_of_In in Hd.
  specialize (E d Hd). by apply bool_decide_eq_true in E.
Qed.

(** X21: The schedule prompt of [do_add] leaves its loop only with a list of
    canonical weekday names (empty for "N/A"); stored joined by commas,
    this list is what the weekly layout, the single-group lookup and the
    log read back.  The loop does not hang: once every pending line has
    been answered it has returned or raised. *)
Theorem add_days_prompt_canonical
    (turns : nat) (p p' : process) (r : option (list string)) :
  add_days_prompt turns p = (Ret r, p') →
  ((length (stdin p) < turns)%nat → r ≠ None)
  ∧ ∀ l, r = Some l →
         Forall (λ d, d ∈ valid_days_order) l
         ∧ ∀ group, days group = stored_days_str l →
                    stored_days group
                    ∧ days_list group = l ∧ scheduled_days group = l.
Proof.
  intros Hrun. split.
  - intros Hlen ->. revert Hrun. apply while_true_ends; [|done].
    intros q r q'. unfold mbind, M_bind.
    destruct (prompt_input _ q) as [[line|e] q1] eqn:E; [|done].
    apply prompt_input_reads in E.
    destruct (days_answer (Py.strip line)); intros [= _ <-]; [done|].
    by cbn.
  - intros l ->.
    assert (Hl : Forall (λ d, d ∈ valid_days_order) l).
    { revert p Hrun. unfold add_days_prompt.
      induction turns as [|turns IH]; intros p; [done|].
      cbn [while_true]. unfold mbind at 1, M_bind at 1.
      unfold mbind at 1, M_bind at 1.
      destruct (prompt_input _ p) as [[line|e] q1]; [|done].
      destruct (days_answer (Py.strip line)) as [l'|] eqn:E.
      - intros [= <- _]. by eapply days_answer_canonical.
      - unfold mbind at 1, M_bind at 1. rewrite print_error_run.
        cbv beta iota. apply IH. }
    split; [done|]. intros group Hg. split; [by exists l|].
    split; [by apply days_list_join|by apply scheduled_days_join].
Qed.

Lemma normalized_days_cons (d rest : string) :
  d ∈ valid_days_order →
  normalized_days d = [d]
  ∧ normalized_days (d +:+ "," +:+ rest) = d :: normalized_days rest.
Proof.
  intros H. unfold valid_days_order in H.
  repeat (apply elem_of_cons in H as [->|H]; [split; reflexivity|]).
  by apply elem_of_nil in H.
Qed.

Lemma normalized_days_join (l : list string) :
  Forall (λ d, d ∈ valid_days_order) l →
  normalized_days (Py.join "," l) = l.
Proof.
  induction 1 as [|d l Hd Hl IH]; [done|].
  destruct l as [|d' l].
  - by apply normalized_days_cons.
  - rewrite join_cons2. destruct (normalized_days_cons d (Py.join "," (d' :: l)) Hd)
      as [_ ->]. by rewrite IH.
Qed.

Lemma no_space_app (a b : string) :
  no_space (a +:+ b) = no_space a && no_space b.
Proof.
  induction a as [|c a IH]; [done|].
  rewrite append_cons. cbn [no_space]. by rewrite IH, andb_assoc.
Qed.

Lemma no_space_join (l : list string) :
  Forall (λ d, d ∈ valid_days_order) l → no_space (Py.join "," l) = true.
Proof.
  assert (Hday : ∀ d, d ∈ valid_days_order → no_space d = true).
  { intros d H. unfold valid_days_order in H.
    repeat (apply elem_of_cons in H as [->|H]; [reflexivity|]).
    by apply elem_of_nil in H. }
  induction 1 as [|d l Hd Hl IH]; [done|].
  destruct l as [|d' l]; [by apply Hday|].
  rewrite join_cons2, !no_space_app, IH, (Hday d Hd). done.
Qed.

Lemma not_na (l : list string) :
  Forall (λ d, d ∈ valid_days_order) l → l ≠ ["N/A"].
Proof.
  intros H ->. apply Forall_cons in H as [H _]. unfold valid_days_order in H.
  repeat (apply elem_of_cons in H as [H|H]; [discriminate|]).
  by apply elem_of_nil in H.
Qed.

Lemma days_answer_join (l : list string) :
  Forall (λ d, d ∈ valid_days_order) l → l ≠ [] →
  days_answer (Py.join "," l) = Some l.
Proof.
  intros Hl Hne. unfold days_answer. rewrite normalized_days_join by done.
  rewrite (bool_decide_eq_false_2 _ (not_na l Hl)).
  rewrite (bool_decide_eq_false_2 _ Hne). cbn [negb andb].
  replace (forallb _ l) with true; [done|]. symmetry.
  apply forallb_forall. intros d Hd. apply bool_decide_eq_true_2.
  rewrite Forall_forall in Hl. by apply Hl, list_elem_of_In.
Qed.

(** X22: The stored day list goes round: what the schedule prompts store is
    what they read.  At the prompt of [do_edit] the empty answer gives
    back the list that is stored, scheduled or not; and the stored text
    of a scheduled group, typed at either prompt, is accepted and gives
    that list again. *)
Theorem stored_days_round_trip
    (l : list string) (line : string) (rest : list key_input)
    (turns : nat) (p : process) :
  Forall (λ d, d ∈ valid_days_order) l →
  stdin p = Line line :: rest →
  normalized_days (stored_days_str l) = l
  ∧ (Py.strip line = EmptyString →
     ∃ p', edit_days_prompt (stored_days_str l) (S turns) p = (Ret (Some l), p')
           ∧ stdin p' = rest)
  ∧ (l ≠ [] → line = stored_days_str l →
     (∃ p', add_days_prompt (S turns) p = (Ret (Some l), p') ∧ stdin p' = rest)
     ∧ ∃ p', edit_days_prompt (stored_days_str l) (S turns) p
             = (Ret (Some l), p')
             ∧ stdin p' = rest).
Proof.
  intros Hl Hin. unfold stored_days_str.
  pose proof (normalized_days_join l Hl) as Hnorm.
  split; [done|]. split.
  - intros Hline. unfold edit_days_prompt. cbn [while_true].
    unfold mbind at 1, M_bind at 1. unfold mbind at 1, M_bind at 1.
    unfold prompt_input, input. cbn [stdin set_stdout]. rewrite Hin.
    rewrite (bool_decide_eq_true_2 _ Hline), Hnorm.
    rewrite (bool_decide_eq_false_2 _ (not_na l Hl)).
    by eexists.
  - intros Hne ->.
    assert (Hstrip : Py.strip (Py.join "," l) = Py.join "," l)
      by (by apply strip_no_space, no_space_join).
    assert (Hnonempty : Py.join "," l ≠ EmptyString).
    { destruct l as [|d l]; [done|]. intros E.
      pose proof (normalized_days_join (d :: l) Hl) as E'.
      by rewrite E in E'. }
    split.
    + unfold add_days_prompt. cbn [while_true].
      unfold mbind at 1, M_bind at 1. unfold mbind at 1, M_bind at 1.
      unfold prompt_input, input. cbn [stdin set_stdout]. rewrite Hin.
      rewrite Hstrip, days_answer_join by done. by eexists.
    + unfold edit_days_prompt. cbn [while_true].
      unfold mbind at 1, M_bind at 1. unfold mbind at 1, M_bind at 1.
      unfold prompt_input, input. cbn [stdin set_stdout]. rewrite Hin.
      rewrite Hstrip, (bool_decide_eq_false_2 _ Hnonempty).
      rewrite days_answer_join by done. by eexists.
Qed.

Lemma while_true_ext {A : Type} (body1 body2 : M (option A)) turns p :
  (∀ q, body1 q = body2 q) →
  while_true turns body1 p = while_true turns body2 p.
Proof.
  intros H. revert p. induction turns as [|turns IH]; intros p; [done|].
  cbn [while_true]. unfold mbind, M_bind. rewrite H.
  by destruct (body2 p) as [[[a|]|e] q].
Qed.

Lemma prompt_input_line text p line rest :
  stdin p = Line line :: rest →
  prompt_input text p
  = (Ret line, set_stdin rest (set_stdout (stdout p ++ [text +:+ " "]) p)).
Proof.
  intros H. unfold prompt_input, input. cbn [stdin set_stdout]. by rewrite H.
Qed.

(** A prompt loop that asks [text], takes the stripped answer through
    [answer_of] and prints [err] when the answer is refused: after the
    refused lines the first accepted one is returned, and the console
    shows the prompt once per line read and the error once per refusal. *)
Lemma prompt_loop_run {A : Type} (text err : string)
    (answer_of : string → option A)
    (refused : list string) (answer : string) (rest : list key_input)
    (a : A) (turns : nat) (p : process) :
  stdin p = (Line <$> refused) ++ Line answer :: rest →
  Forall (λ b, answer_of (Py.strip b) = None) refused →
  answer_of (Py.strip answer) = Some a →
  (length refused < turns)%nat →
  while_true turns
    (line ← prompt_input text;
     match answer_of (Py.strip line) with
     | Some a => mret (Some a)
     | None => print_error err;; mret None
     end) p
  = (Ret (Some a),
     set_stdin rest
       (set_stdout
          (stdout p
           ++ (refused ≫= λ _, [text +:+ " "; ("ERROR: " +:+ err) +:+ nl])
           ++ [text +:+ " "]) p)).
Proof.
  set (body := (line ← prompt_input text;
                match answer_of (Py.strip line) with
                | Some a => mret (Some a)
                | None => print_error err;; mret None
                end)).
  assert (Hacc : ∀ q l r' a',
    stdin q = Line l :: r' → answer_of (Py.strip l) = Some a' →
    body q = (Ret (Some a'),
              set_stdin r' (set_stdout (stdout q ++ [text +:+ " "]) q))).
  { intros q l r' a' Hq Hl. subst body. unfold mbind, M_bind.
    by rewrite (prompt_input_line text q l r' Hq), Hl. }
  assert (Href : ∀ q l r',
    stdin q = Line l :: r' → answer_of (Py.strip l) = None →
    body q = (Ret None,
              set_stdout
                (stdout q ++ [text +:+ " "; ("ERROR: " +:+ err) +:+ nl])
                (set_stdin r' q))).
  { intros q l r' Hq Hl. subst body. unfold mbind, M_bind.
    rewrite (prompt_input_line text q l r' Hq), Hl, print_error_run.
    cbn [stdout set_stdout set_stdin]. rewrite <- app_assoc.
    by destruct q. }
  clearbody body.
  revert turns p. induction refused as [|b refused IH];
    intros turns p Hin Hall Hans Hlen.
  - destruct turns as [|turns]; [cbn in Hlen; lia|].
    cbn [while_true]. unfold mbind, M_bind.
    by rewrite (Hacc p answer rest a Hin Hans).
  - destruct turns as [|turns]; [cbn in Hlen; lia|].
    apply Forall_cons in Hall as [Hb Hall].
    cbn [while_true]. unfold mbind, M_bind.
    rewrite (Href p b _ Hin Hb).
    rewrite (IH turns); [|done|done|done|cbn [length] in Hlen; lia].
    f_equal. destruct p as [s out inp fs unw today bnd buf].
    unfold set_stdin, set_stdout.
    cbn [stdout self stdin files unwritable clock print_info_global
         output_buffer].
    f_equal. rewrite bind_cons. by rewrite <- !app_assoc.
Qed.



(** ** Dates written and read back *)

Lemma str_positive (y : Z) : 0 < y → Py.str y = pretty_N_go (Z.to_N y) EmptyString.
Proof.
  intros H. destruct y as [|q|q]; try lia.
  unfold Py.str, pretty, pretty_Z, pretty, pretty_positive, pretty, pretty_N.
  by rewrite decide_False by done.
Qed.

Lemma pretty_go_step (y : Z) (s : string) :
  0 < y →
  pretty_N_go (Z.to_N y) s
  = pretty_N_go (Z.to_N (y / 10)) (String (digit_char (y mod 10)) s).
Proof.
  intros H. rewrite pretty_N_go_step by lia. unfold digit_char.
  by rewrite Z2N.inj_div, Z2N.inj_mod by lia.
Qed.

Lemma pad4_digits (y : Z) :
  1 ≤ y ≤ 9999 →
  Date.pad4 y
  = String (digit_char (y / 1000))
      (String (digit_char (y / 100 mod 10))
         (String (digit_char (y / 10 mod 10))
            (String (digit_char (y mod 10)) EmptyString))).
Proof.
  intros Hy. unfold Date.pad4. rewrite str_positive by lia.
  rewrite pretty_go_step by lia.
  destruct (y <? 10) eqn:E1; [apply Z.ltb_lt in E1|apply Z.ltb_ge in E1].
  { replace (y / 10) with 0 by (Z.div_mod_to_equations; lia).
    replace (y / 100) with 0 by (Z.div_mod_to_equations; lia).
    replace (y / 1000) with 0 by (Z.div_mod_to_equations; lia).
    reflexivity. }
  rewrite pretty_go_step by (Z.div_mod_to_equations; lia).
  replace (y / 10 / 10) with (y / 100) by (Z.div_mod_to_equations; lia).
  destruct (y <? 100) eqn:E2; [apply Z.ltb_lt in E2|apply Z.ltb_ge in E2].
  { replace (y / 100) with 0 by (Z.div_mod_to_equations; lia).
    replace (y / 1000) with 0 by (Z.div_mod_to_equations; lia).
    reflexivity. }
  rewrite pretty_go_step by (Z.div_mod_to_equations; lia).
  replace (y / 100 / 10) with (y / 1000) by (Z.div_mod_to_equations; lia).
  destruct (y <? 1000) eqn:E3; [apply Z.ltb_lt in E3|apply Z.ltb_ge in E3].
  { replace (y / 1000) with 0 by (Z.div_mod_to_equations; lia).
    reflexivity. }
  rewrite pretty_go_step by (Z.div_mod_to_equations; lia).
  replace (y / 1000 / 10) with 0 by (Z.div_mod_to_equations; lia).
  replace (y / 1000 mod 10) with (y / 1000) by (Z.div_mod_to_equations; lia).
  reflexivity.
Qed.

Lemma digit_char_is_nat (k : Z) :
  0 ≤ k < 10 → Ascii.is_nat (digit_char k) = Some (Z.to_nat k).
Proof.
  intros H. assert (Hk : k ∈ seqZ 0 10) by (apply elem_of_seqZ; lia).
  change (seqZ 0 10) with [0; 1; 2; 3; 4; 5; 6; 7; 8; 9] in Hk.
  repeat (apply elem_of_cons in Hk as [->|Hk]; [reflexivity|]).
  by apply elem_of_nil in Hk.
Qed.

Lemma digit_char_other (k : Z) :
  0 ≤ k < 10 →
  Ascii.eqb (digit_char k) "-" = false ∧ Ascii.eqb (digit_char k) "_" = false.
Proof.
  intros H. assert (Hk : k ∈ seqZ 0 10) by (apply elem_of_seqZ; lia).
  change (seqZ 0 10) with [0; 1; 2; 3; 4; 5; 6; 7; 8; 9] in Hk.
  repeat (apply elem_of_cons in Hk as [->|Hk]; [by split|]).
  by apply elem_of_nil in Hk.
Qed.

Lemma int_of_digits (s : string) :
  Py.isdigit s = true → Py.int s = Py.int_go 0 false s.
Proof.
  intros Hd. unfold Py.int. rewrite (strip_no_space s (isdigit_no_space s Hd)).
  destruct s as [|c s]; [done|].
  unfold Py.isdigit, Py.all_digits in Hd.
  destruct (Ascii.is_nat c) as [k|] eqn:E; [|discriminate].
  by destruct c as [[][][][][][][][]].
Qed.

Lemma split_app_sep (sep : ascii) (a b : string) :
  Py.split sep a = [a] →
  Py.split sep (a +:+ String sep b) = a :: Py.split sep b.
Proof.
  induction a as [|c a IH]; intros H.
  - change (EmptyString +:+ String sep b) with (String sep b).
    cbn [Py.split]. by rewrite Ascii.eqb_refl.
  - rewrite append_cons. cbn [Py.split] in *.
    destruct (Ascii.eqb c sep); [by inversion H|].
    destruct (Py.split sep a) as [|w ws] eqn:E.
    + injection H as <-. discriminate E.
    + injection H as -> ->. by rewrite IH.
Qed.

Lemma split_digits (s : string) :
  Py.all_digits s = true → Py.split "-" s = [s].
Proof.
  induction s as [|c s IH]; [done|]. cbn [Py.all_digits Py.split].
  destruct (Ascii.is_nat c) as [k|] eqn:E; [|discriminate]. intros H.
  replace (Ascii.eqb c "-") with false
    by (by destruct c as [[][][][][][][][]]).
  by rewrite IH.
Qed.

Lemma pad4_facts (y : Z) :
  1 ≤ y ≤ 9999 →
  String.length (Date.pad4 y) = 4%nat
  ∧ Py.isdigit (Date.pad4 y) = true
  ∧ Py.int (Date.pad4 y) = Some y.
Proof.
  intros Hy.
  assert (Hi : Py.isdigit (Date.pad4 y) = true
               ∧ Py.int_go 0 false (Date.pad4 y) = Some y).
  { rewrite pad4_digits by done.
    assert (H1 : 0 ≤ y / 1000 < 10) by (Z.div_mod_to_equations; lia).
    assert (H2 : 0 ≤ y / 100 mod 10 < 10) by (Z.div_mod_to_equations; lia).
    assert (H3 : 0 ≤ y / 10 mod 10 < 10) by (Z.div_mod_to_equations; lia).
    assert (H4 : 0 ≤ y mod 10 < 10) by (Z.div_mod_to_equations; lia).
    unfold Py.isdigit. cbn [Py.all_digits Py.int_go].
    rewrite !digit_char_is_nat by done.
    rewrite (proj2 (digit_char_other _ H1)), (proj2 (digit_char_other _ H2)),
      (proj2 (digit_char_other _ H3)), (proj2 (digit_char_other _ H4)).
    split; [done|]. f_equal. rewrite !Z2Nat.id by lia.
    Z.div_mod_to_equations. lia. }
  destruct Hi as [Hd Hi]. split; [by rewrite pad4_digits|]. split; [done|].
  by rewrite int_of_digits.
Qed.

Lemma pad2_month (m : Z) :
  1 ≤ m ≤ 12 →
  Py.all_digits (Date.pad2 m) = true
  ∧ Date.field 12 false (Date.pad2 m) = Some m.
Proof.
  intros H. assert (Hm : m ∈ seqZ 1 12) by (apply elem_of_seqZ; lia).
  change (seqZ 1 12) with [1; 2; 3; 4; 5; 6; 7; 8; 9; 10; 11; 12] in Hm.
  repeat (apply elem_of_cons in Hm as [->|Hm]; [by split|]).
  by apply elem_of_nil in Hm.
Qed.

Lemma pad2_day (d : Z) :
  1 ≤ d ≤ 31 →
  Py.all_digits (Date.pad2 d) = true
  ∧ Date.field 31 true (Date.pad2 d) = Some d.
Proof.
  intros H. assert (Hd : d ∈ seqZ 1 31) by (apply elem_of_seqZ; lia).
  change (seqZ 1 31)
    with [1; 2; 3; 4; 5; 6; 7; 8; 9; 10; 11; 12; 13; 14; 15; 16; 17; 18; 19;
          20; 21; 22; 23; 24; 25; 26; 27; 28; 29; 30; 31] in Hd.
  repeat (apply elem_of_cons in Hd as [->|Hd]; [by split|]).
  by apply elem_of_nil in Hd.
Qed.

Lemma days_in_month_max (y m : Z) : 1 ≤ m ≤ 12 → Date._days_in_month y m ≤ 31.
Proof.
  intros H. assert (Hm : m ∈ seqZ 1 12) by (apply elem_of_seqZ; lia).
  change (seqZ 1 12) with [1; 2; 3; 4; 5; 6; 7; 8; 9; 10; 11; 12] in Hm.
  unfold Date._days_in_month.
  repeat (apply elem_of_cons in Hm as [->|Hm];
          [by destruct (Date._is_leap y)|]).
  by apply elem_of_nil in Hm.
Qed.

(** A date of the calendar, written as [%Y-%m-%d], is read back by
    [strptime] as the same date; the text has no white space. *)
Lemma strptime_strftime (d : Date.date) :
  Date.valid d = true →
  Date.strptime_Ymd (Date.strftime_Ymd d) = Some d
  ∧ no_space (Date.strftime_Ymd d) = true
  ∧ Date.strftime_Ymd d ≠ EmptyString.
Proof.
  intros Hv. pose proof Hv as Hv'. unfold Date.valid in Hv'.
  repeat (apply andb_true_iff in Hv' as [Hv' ?]).
  repeat match goal with
         | H : (_ <=? _) = true |- _ => apply Z.leb_le in H
         end.
  destruct d as [y m dd]. cbn [Date.year Date.month Date.day] in *.
  pose proof (days_in_month_max y m ltac:(lia)).
  destruct (pad4_facts y ltac:(lia)) as (Hlen & Hyd & Hyi).
  destruct (pad2_month m ltac:(lia)) as (Hmd & Hmf).
  destruct (pad2_day dd ltac:(lia)) as (Hdd & Hdf).
  assert (Hyd' : Py.all_digits (Date.pad4 y) = true).
  { by destruct (Date.pad4 y). }
  unfold Date.strftime_Ymd, Date.strptime_Ymd.
  cbn [Date.year Date.month Date.day].
  split; [|split].
  - change (Date.pad4 y +:+ "-" +:+ Date.pad2 m +:+ "-" +:+ Date.pad2 dd)
      with (Date.pad4 y
            +:+ String "-" (Date.pad2 m +:+ String "-" (Date.pad2 dd))).
    rewrite !split_app_sep, (split_digits _ Hdd) by (by apply split_digits).
    rewrite Hlen, Hyd, Hyi, Hmf, Hdf. cbn [Nat.eqb andb]. cbn.
    by rewrite Hv.
  - rewrite !no_space_app.
    by rewrite (all_digits_no_space _ Hyd'), (all_digits_no_space _ Hmd),
      (all_digits_no_space _ Hdd).
  - destruct (Date.pad4 y); [discriminate|done].
Qed.


(** ** The further theorems at work *)


Lemma layout_set_takes_effect_witness :
  date_display_format
    (self (snd (do_layout EmptyString "set date 2" (example_process []))))
  = 2.
Proof.
  destruct (layout_set_takes_effect EmptyString 2 (example_process []))
    as (H & _).
  - apply list_elem_of_further, list_elem_of_here.
  - change ("set date " +:+ Py.str 2) with "set date 2" in H.
    rewrite H. reflexivity.
Defined.

Lemma layout_non_number_argument_witness :
  stdout (snd (do_layout EmptyString "set date abc" (example_process [])))
  = ["ERROR: Unknown argument 'set date abc' for layout." +:+ nl].
Proof.
  destruct (layout_non_number_argument EmptyString "abc" (example_process []))
    as (H & _).
  - discriminate.
  - reflexivity.
  - reflexivity.
  - change ("set date " +:+ "abc") with "set date abc" in H.
    rewrite H. reflexivity.
Defined.

Lemma layout_index_out_of_range_witness :
  stdout (snd (do_layout EmptyString "index 7" (example_process [])))
  = ["ERROR: Index 7 does not exist." +:+ nl].
Proof.
  change "index 7" with ("index " +:+ "7").
  rewrite (layout_index_out_of_range EmptyString "7" 7 (example_process [])).
  - reflexivity.
  - reflexivity.
  - reflexivity.
  - discriminate.
  - right. simpl. lia.
Defined.

Lemma log_add_then_display_witness :
  fst (do_log "display"
         (snd (do_log "add" (example_process [Line EmptyString]))))
  = Ret ().
Proof.
  destruct (log_add_then_display (example_process [Line EmptyString])
              EmptyString []
              (fst (log_block example_db (Date.mk_date 2025 1 6))))
    as (p1 & Hadd & _ & _ & Hshow).
  - reflexivity.
  - reflexivity.
  - reflexivity.
  - reflexivity.
  - reflexivity.
  - rewrite Hadd. cbn [snd]. rewrite Hshow. reflexivity.
Defined.

Lemma exit_ends_session_witness :
  fst (run EmptyString (λ _, mret ()) (λ _, mret ()) (λ _, mret ()) 1
           (example_process [Line "exit now"; Line "index"]))
  = Exited.
Proof.
  destruct (exit_ends_session EmptyString (λ _, mret ()) (λ _, mret ())
              (λ _, mret ()) "exit now" "now" "exit now" [Line "index"] 0
              (example_process [Line "exit now"; Line "index"])
              eq_refl eq_refl)
    as (p' & H & _).
  rewrite H. reflexivity.
Defined.

Lemma idle_input_keeps_running_witness :
  fst (run EmptyString (λ _, mret ()) (λ _, mret ()) (λ _, mret ()) 5
           (example_process [Interrupt; Line "   "; Interrupt]))
  = Running.
Proof.
  destruct (idle_input_keeps_running EmptyString
              (λ _, mret ()) (λ _, mret ()) (λ _, mret ()) 5
              (example_process [Interrupt; Line "   "; Interrupt]))
    as (p' & H & _).
  - repeat constructor.
  - rewrite H. reflexivity.
Defined.

Lemma session_exits_only_on_exit_witness :
  fst (run EmptyString (λ _, mret ()) (λ _, mret ()) (λ _, mret ()) 2
           (example_process [Line "cmd"; Line "exit"]))
  = Exited
  ∧ stdin (example_process [Line "cmd"; Line "exit"]) ≠ [].
Proof.
  split; [reflexivity|].
  assert (Hreads : ∀ (arg : string) (p : process),
            stdin (snd ((λ _ : string, (mret () : M unit)) arg p))
              `suffix_of` stdin p).
  { intros arg p. by exists []. }
  destruct (session_exits_only_on_exit EmptyString
              (λ _, mret ()) (λ _, mret ()) (λ _, mret ())
              Hreads Hreads Hreads
              2 (example_process [Line "cmd"; Line "exit"]) eq_refl)
    as (line & Hin & _).
  intros E. rewrite E in Hin. by apply elem_of_nil in Hin.
Defined.


Lemma log_add_twice_duplicates_witness :
  fst ((do_log "add";; do_log "add")
         (example_process [Line EmptyString; Line EmptyString]))
  = Ret ().
Proof.
  destruct (log_add_twice_duplicates
              (example_process [Line EmptyString; Line EmptyString])
              EmptyString EmptyString []
              (fst (log_block example_db (Date.mk_date 2025 1 6))))
    as (p2 & H & _).
  - reflexivity.
  - reflexivity.
  - reflexivity.
  - reflexivity.
  - reflexivity.
  - reflexivity.
  - rewrite H. reflexivity.
Defined.

Lemma log_prompt_end_of_input_witness :
  fst (run EmptyString (λ _, mret ()) (λ _, mret ()) (λ _, mret ()) 3
           (example_process [Line "log add"]))
  = Crashed EOFError.
Proof.
  destruct (log_prompt_end_of_input EmptyString (λ _, mret ()) (λ _, mret ())
              (λ _, mret ()) "log add" "add" "log add" 2
              (example_process [Line "log add"]) eq_refl eq_refl)
    as [H _].
  apply H. reflexivity.
Defined.

Lemma add_days_prompt_canonical_witness :
  Forall (λ d, d ∈ valid_days_order) ["Mon"; "Wed"].
Proof.
  destruct (add_days_prompt_canonical 2
              (example_process [Line "mon, WED"])
              (snd (add_days_prompt 2 (example_process [Line "mon, WED"])))
              (Some ["Mon"; "Wed"]))
    as [_ H].
  - reflexivity.
  - destruct (H ["Mon"; "Wed"] eq_refl) as [Hl _]. exact Hl.
Defined.

Lemma stored_days_round_trip_witness :
  normalized_days "Mon,Thu" = ["Mon"; "Thu"].
Proof.
  destruct (stored_days_round_trip ["Mon"; "Thu"] "Mon,Thu" [] 0
              (example_process [Line "Mon,Thu"]))
    as (H & _).
  - repeat constructor.
  - reflexivity.
  - exact H.
Defined.



